(** * pmtiles-demo: the format-normalisation pipeline of [app/main.py]

    A shallow embedding of [safe_name], [run], [ogrinfo_bounds] (with its
    inner [find_extent]), the three conversion helpers, [ensure_pmtiles]
    and the request handler [create_bundle], together with the properties
    the design document states about them.

    Python [str] values are sequences of Unicode code points, external
    effects (sub-processes, file system, object storage, catalogue) are
    answered by an environment that threads its own state, and Python
    exceptions are an explicit [Raise] outcome. *)

From Stdlib Require Import String Ascii.
From Stdlib Require Import List NArith ZArith Bool Lia.
From Stdlib Require Import Floats.
Import ListNotations.

Set Implicit Arguments.

(** ** Python strings *)

Module PyStr.

(** A [str] is a list of code points. *)
Definition pystr := list N.

Definition lit (s : string) : pystr :=
  map N_of_ascii (list_ascii_of_string s).

Fixpoint eqb (a b : pystr) : bool :=
  match a, b with
  | [], [] => true
  | x :: a', y :: b' => (x =? y)%N && eqb a' b'
  | _, _ => false
  end.

Definition in_range (lo hi c : N) : bool := ((lo <=? c) && (c <=? hi))%N.

(** [str.isspace] for one code point; [str.strip()] and the regular
    expression class [\s] on [str] patterns both use this table. *)
Definition isspace (c : N) : bool :=
  in_range 9 13 c || in_range 28 32 c || (c =? 133)%N || (c =? 160)%N
  || (c =? 5760)%N || in_range 8192 8202 c || (c =? 8232)%N
  || (c =? 8233)%N || (c =? 8239)%N || (c =? 8287)%N || (c =? 12288)%N.

(** Membership in the class [[a-zA-Z0-9._-]]. *)
Definition allowed (c : N) : bool :=
  in_range 97 122 c || in_range 65 90 c || in_range 48 57 c
  || (c =? 46)%N || (c =? 95)%N || (c =? 45)%N.

Definition hyphen : N := 45.
Definition dot : N := 46.

Fixpoint lstrip (s : pystr) : pystr :=
  match s with
  | [] => []
  | c :: s' => if isspace c then lstrip s' else s
  end.

Definition rstrip (s : pystr) : pystr := rev (lstrip (rev s)).

(** [s.strip()] *)
Definition strip (s : pystr) : pystr := rstrip (lstrip s).

(** [re.sub(r"\s+", "-", s)]: every maximal run of white space becomes one
    hyphen.  [in_run] tells that the previous code point was white space. *)
Fixpoint sub_ws (in_run : bool) (s : pystr) : pystr :=
  match s with
  | [] => []
  | c :: s' =>
      if isspace c
      then (if in_run then sub_ws true s' else hyphen :: sub_ws true s')
      else c :: sub_ws false s'
  end.

(** [re.sub(r"[^a-zA-Z0-9._-]+", "", s)]: every code point outside the
    class is deleted. *)
Definition sub_disallowed (s : pystr) : pystr := filter allowed s.

(** [str.lower()] on the ASCII range.  The file names whose suffix is
    lowered are outputs of [safe_name] (see [create_bundle]), which
    contain no code point above 127. *)
Definition lower_char (c : N) : N :=
  if in_range 65 90 c then (c + 32)%N else c.

Definition lower (s : pystr) : pystr := map lower_char s.

(** [s.rfind(".")], [None] standing for -1. *)
Fixpoint rfind (c : N) (s : pystr) : option nat :=
  match s with
  | [] => None
  | x :: s' =>
      match rfind c s' with
      | Some i => Some (S i)
      | None => if (x =? c)%N then Some 0 else None
      end
  end.

(** [s.endswith(t)] *)
Definition endswith (s t : pystr) : bool :=
  eqb (skipn (length s - length t) s) t && (length t <=? length s).

End PyStr.
Import PyStr.

(** ** [safe_name] *)

Definition safe_name (s : pystr) : pystr :=
  let s := strip s in
  let s := sub_ws false s in
  let s := sub_disallowed s in
  match s with
  | [] => lit "bundle"
  | _ :: _ => firstn 120 s
  end.

(** The pattern [^[A-Za-z0-9._-]{1,120}$] of the design document. *)
Definition matches_token (s : pystr) : bool :=
  forallb allowed s && (1 <=? length s) && (length s <=? 120).


(** ** Paths *)

Module PyPath.

(** A [pathlib.Path], as its [parts]. *)
Definition Path := list pystr.

(** [PurePath.name]: the final component. *)
Definition name (p : Path) : pystr := last p [].

(** [PurePath.suffix]: with [i = name.rfind(".")], the slice [name[i:]]
    when [0 < i < len(name) - 1], the empty string otherwise.  (Python
    3.14 gives ["."] instead of [""] for a name that ends in a dot; neither
    is one of the extensions [ensure_pmtiles] tests for.) *)
Definition suffix (p : Path) : pystr :=
  let n := name p in
  match rfind dot n with
  | Some i => if (0 <? i) && (i <? length n - 1) then skipn i n else []
  | None => []
  end.

(** [p / s] for a segment [s] without a separator (the segments joined in
    [main.py] are literals, [safe_name] outputs and a UUID): an empty
    segment and ["."] are dropped by pathlib. *)
Definition joinpath (p : Path) (s : pystr) : Path :=
  if eqb s [] || eqb s (lit ".") then p else p ++ [s].

(** [str(p)] *)
Fixpoint join_parts (p : Path) : pystr :=
  match p with
  | [] => []
  | [c] => c
  | c :: p' => c ++ lit "/" ++ join_parts p'
  end.

Definition path_str (p : Path) : pystr :=
  match p with
  | [] => lit "."
  | c :: p' => if eqb c (lit "/") then c ++ join_parts p' else join_parts p
  end.

(** [q] lies strictly below the directory [d]. *)
Fixpoint is_under (d q : Path) : bool :=
  match d, q with
  | [], _ :: _ => true
  | c :: d', c' :: q' => eqb c c' && is_under d' q'
  | _, _ => false
  end.

End PyPath.
Import PyPath.

Infix "//" := joinpath (at level 40, left associativity).

(** ** JSON values, as [json.loads] builds them *)

#[warnings="-register-all"]
Inductive json :=
| JNull
| JBool (b : bool)
| JInt (z : Z)
| JFloat (f : float)
| JStr (s : pystr)
| JList (items : list json)
| JDict (kv : list (pystr * json)).   (* in insertion order *)

(** [d[k]] when [k in d] *)
Fixpoint dict_get (k : pystr) (kv : list (pystr * json)) : option json :=
  match kv with
  | [] => None
  | (k', v) :: kv' => if eqb k k' then Some v else dict_get k kv'
  end.

(** ** Exceptions and results *)

(** The text of an exception.  [CommandFailed cmd out err] is the f-string
    [f"Command failed: {cmd}\nSTDOUT:\n{p.stdout}\nSTDERR:\n{p.stderr}"]
    of [run], kept with its three interpolated values apart. *)
Inductive message :=
| Text (s : pystr)
| CommandFailed (cmd : list pystr) (stdout stderr : pystr).

Inductive exn :=
| RuntimeError (m : message)
| RecursionError (m : pystr)          (* a subclass of [RuntimeError] *)
| HTTPException (status_code : Z) (detail : message)
| OSError (m : pystr)
| JSONDecodeError
| TypeError
| ValueError
| UnicodeDecodeError                  (* a subclass of [ValueError] *)
| OverflowError
| S3UploadFailedError (m : pystr)
| DatabaseError (m : pystr).

(** [isinstance(e, RuntimeError)] *)
Definition is_RuntimeError (e : exn) : bool :=
  match e with
  | RuntimeError _ | RecursionError _ => true
  | _ => false
  end.

(** [isinstance(e, Exception)]: every class above derives from it. *)
Definition is_Exception (e : exn) : bool := true.

(** [str(e)] *)
Definition exn_str (e : exn) : message :=
  match e with
  | RuntimeError m => m
  | HTTPException _ d => d
  | RecursionError m | OSError m | S3UploadFailedError m | DatabaseError m =>
      Text m
  | JSONDecodeError => Text (lit "JSONDecodeError")
  | TypeError => Text (lit "TypeError")
  | ValueError => Text (lit "ValueError")
  | UnicodeDecodeError => Text (lit "UnicodeDecodeError")
  | OverflowError => Text (lit "OverflowError")
  end.

Inductive result (A : Type) :=
| Return (a : A)
| Raise (e : exn).
Arguments Raise {A} e.

(** ** The environment *)

(** How a process that was started ended, as [subprocess.run] with
    [text=True] sees it: it exited and its two streams were decoded into
    the [CompletedProcess], or it exited and a stream is not valid text in
    the locale's encoding, and [subprocess.run] raises [UnicodeDecodeError]
    whatever the exit status was. *)
Inductive completed :=
| Exited (returncode : Z) (stdout stderr : pystr)
| Undecodable (returncode : Z).

(** How [shutil.rmtree] can end: the tree is gone; an [OSError] on the
    way, the only class [ignore_errors] covers; or an error that is no
    [OSError], which no flag swallows -- the removal recurses once per
    directory level and raises [RecursionError] on a tree deeper than the
    interpreter's recursion limit. *)
Inductive removal :=
| Removed
| RemovalFailed (m : pystr)
| RemovalAborted (m : pystr).

(** How a recursive walk ([Path.rglob]) can break off: [RecursionError] on
    a tree deeper than the recursion limit, or an [OSError] that the walk
    does not swallow, from scanning a directory or from the [is_file()] of
    an entry. *)
Inductive walk_failure :=
| TooDeep (m : pystr)
| Unreadable (m : pystr).

Definition walk_exn (f : walk_failure) : exn :=
  match f with
  | TooDeep m => RecursionError m
  | Unreadable m => OSError m
  end.

Definition bounds := list float.

(** An uploaded file ([UploadFile]). *)
Record upload := {
  filename : option pystr;
  content_type : option pystr;
  content : list N
}.

(** A row of the [bundles] table (without [created_at]). *)
Record row := {
  row_id : pystr;
  row_name : pystr;
  row_description : pystr;
  row_bounds : option bounds;
  row_source_key : pystr;
  row_pmtiles_key : pystr
}.

(** What a run did to the outside, in order. *)
Inductive event :=
| ESpawn (cmd : list pystr) (r : completed + pystr)
| EMkdir (p : Path) (r : option pystr)
| EWrite (p : Path) (r : option pystr)
| ES3Put (p : Path) (key : pystr) (ctype : option pystr) (r : option pystr)
| EDbInsert (rw : row) (r : option pystr)
| ERmtree (p : Path) (r : removal).

(** The collaborators of the pipeline.  Each operation answers from the
    current state of the world and gives the next one; [inr]/[Some] carry
    the text of the error the operation raises. *)
Class Env := {
  World : Type;
  (** [subprocess.run(cmd, stdout=PIPE, stderr=PIPE, text=True)];
      [inr] when the program cannot be started ([OSError]) *)
  subprocess_run : list pystr -> World -> (completed + pystr) * World;
  (** [json.loads], [None] for [JSONDecodeError] *)
  json_loads : pystr -> option json;
  (** [float(s)] on a [str], [None] for [ValueError] *)
  float_of_str : pystr -> option float;
  (** [Path.mkdir], the flag is [parents] *)
  mkdir : Path -> bool -> World -> option pystr * World;
  (** the entries a recursive walk below a directory yields, in the order
      it yields them, each with its [is_file()] *)
  walk : Path -> World -> list (Path * bool);
  (** whether the walk [rglob(pattern)] below a directory breaks off:
      [Some (n, f)] when it raises [f] once it has passed [n] entries.  The
      walk is a generator: a caller that stops at an earlier entry never
      meets the error.  The two walks of one tree need not break off at
      the same entry: the walk consumed through a generator expression
      runs one frame deeper *)
  walk_breaks : pystr -> Path -> World -> option (nat * walk_failure);
  (** writing the upload, chunk by chunk, to a path *)
  write_upload : Path -> upload -> World -> option pystr * World;
  (** [s3.upload_file(path, S3_BUCKET, key, ExtraArgs=...)] *)
  s3_upload_file : Path -> pystr -> option pystr -> World -> option pystr * World;
  (** the [INSERT INTO bundles] statement and its commit *)
  db_insert : row -> World -> option pystr * World;
  (** removing a tree *)
  rmtree : Path -> World -> removal * World;
  (** [str(uuid.uuid4())] *)
  uuid4 : World -> pystr * World
}.

(** Configuration read from the process environment at import time. *)
Record config := {
  WORKDIR : Path;
  PUBLIC_TILES_BASE : pystr
}.

(** ** Computations: state of the world, events, exceptions *)

Record outcome (W A : Type) := {
  res : result A;
  world_after : W;
  events : list event
}.

Section Pipeline.

Context {E : Env}.
Variable cfg : config.

Definition M (A : Type) : Type := World -> outcome World A.

Definition ret {A} (a : A) : M A :=
  fun w => {| res := Return a; world_after := w; events := [] |}.

Definition raise {A} (e : exn) : M A :=
  fun w => {| res := Raise e; world_after := w; events := [] |}.

Definition bind {A B} (m : M A) (k : A -> M B) : M B :=
  fun w =>
    let o := m w in
    match res o with
    | Return a =>
        let o' := k a (world_after o) in
        {| res := res o'; world_after := world_after o';
           events := events o ++ events o' |}
    | Raise e =>
        {| res := Raise e; world_after := world_after o; events := events o |}
    end.

Notation "x <- m ;; k" := (bind m (fun x => k))
  (at level 100, m at next level, right associativity).
Notation "m ;;; k" := (bind m (fun _ => k))
  (at level 100, right associativity).

(** [try: body / except C as e: handler e], [catches] being the test
    [isinstance(e, C)]. *)
Definition try_except {A} (body : M A) (catches : exn -> bool)
    (handler : exn -> M A) : M A :=
  fun w =>
    let o := body w in
    match res o with
    | Return a => o
    | Raise e =>
        if catches e then
          let o' := handler e (world_after o) in
          {| res := res o'; world_after := world_after o';
             events := events o ++ events o' |}
        else o
    end.

(** [try: body / finally: fin].  The pending result of [body] is kept
    unless [fin] itself raises. *)
Definition try_finally {A} (body : M A) (fin : M unit) : M A :=
  fun w =>
    let o := body w in
    let o' := fin (world_after o) in
    {| res := match res o' with Return _ => res o | Raise e => Raise e end;
       world_after := world_after o';
       events := events o ++ events o' |}.

(** One operation of the environment, recorded as an event. *)
Definition effect {R} (op : World -> R * World) (ev : R -> event) : M R :=
  fun w =>
    let (r, w') := op w in
    {| res := Return r; world_after := w'; events := [ev r] |}.

(** Reading the world without changing it. *)
Definition query {R} (f : World -> R) : M R :=
  fun w => {| res := Return (f w); world_after := w; events := [] |}.

(** Raise the error an operation reported, if any. *)
Definition check (mk : pystr -> exn) (r : option pystr) : M unit :=
  match r with
  | Some m => raise (mk m)
  | None => ret tt
  end.

Definition lift_result {A} (r : result A) : M A :=
  match r with Return a => ret a | Raise e => raise e end.

(** ** [run] *)

Definition run (cmd : list pystr) : M pystr :=
  p <- effect (subprocess_run cmd) (ESpawn cmd) ;;
  match p with
  | inr m => raise (OSError m)
  | inl (Undecodable _) => raise UnicodeDecodeError
  | inl (Exited returncode stdout stderr) =>
      if negb (returncode =? 0)%Z
      then raise (RuntimeError (CommandFailed cmd stdout stderr))
      else ret stdout
  end.

(** ** [s3_put_file] *)

(** The [ContentType] entry of [extra], set [if content_type:]. *)
Definition extra_args (ctype : option pystr) : option pystr :=
  match ctype with
  | Some ((_ :: _) as c) => Some c
  | _ => None
  end.

Definition s3_put_file (local_path : Path) (key : pystr)
    (ctype : option pystr) : M unit :=
  let extra := extra_args ctype in
  r <- effect (s3_upload_file local_path key extra)
         (ES3Put local_path key extra) ;;
  check S3UploadFailedError r.

(** ** [ogrinfo_bounds] *)

(** Truth value of what [find_extent] returns: [None] and the empty list
    are false. *)
Definition truthy (r : option (list json)) : bool :=
  match r with
  | Some (_ :: _) => true
  | _ => false
  end.

(** The test [isinstance(obj, dict) and "extent" in obj and
    isinstance(obj["extent"], (list, tuple)) and len(obj["extent"]) == 4],
    giving [obj["extent"]]. *)
Definition own_extent (kv : list (pystr * json)) : option (list json) :=
  match dict_get (lit "extent") kv with
  | Some (JList l) => if length l =? 4 then Some l else None
  | _ => None
  end.

Fixpoint find_extent (obj : json) : option (list json) :=
  match obj with
  | JDict kv =>
      match own_extent kv with
      | Some l => Some l
      | None =>
          (fix values (kv : list (pystr * json)) : option (list json) :=
             match kv with
             | [] => None
             | (_, v) :: kv' =>
                 let r := find_extent v in
                 if truthy r then r else values kv'
             end) kv
      end
  | JList l =>
      (fix items (l : list json) : option (list json) :=
         match l with
         | [] => None
         | v :: l' =>
             let r := find_extent v in
             if truthy r then r else items l'
         end) l
  | _ => None
  end.

(** [float(int)]: rounded to the nearest binary64, [OverflowError] beyond
    its range. *)
Definition float_of_int (z : Z) : result float :=
  match binary_normalize 53 1024 z 0 false with
  | S754_infinity _ => Raise OverflowError
  | sf => Return (SF2Prim sf)
  end.

(** [float(v)] on a JSON value. *)
Definition py_float (v : json) : result float :=
  match v with
  | JFloat f => Return f
  | JInt z => float_of_int z
  | JBool b => Return (if b then 1%float else 0%float)
  | JStr s =>
      match float_of_str s with
      | Some f => Return f
      | None => Raise ValueError
      end
  | JNull | JList _ | JDict _ => Raise TypeError
  end.

(** Every element coerced with [float], in order; [None] as soon as one
    coercion raises. *)
Fixpoint coerce_floats (l : list json) : option bounds :=
  match l with
  | [] => Some []
  | v :: l' =>
      match py_float v with
      | Return f => option_map (cons f) (coerce_floats l')
      | Raise _ => None
      end
  end.

Definition ogrinfo_cmd (dataset_path : Path) : list pystr :=
  [lit "ogrinfo"; lit "-so"; lit "-al"; lit "-json"; path_str dataset_path].

(** The body of the [try] block; falling out of it reaches the final
    [return None]. *)
Definition ogrinfo_bounds_try (dataset_path : Path) : M (option bounds) :=
  out <- run (ogrinfo_cmd dataset_path) ;;
  j <- lift_result (match json_loads out with
                    | Some j => Return j
                    | None => Raise JSONDecodeError
                    end) ;;
  let ext := find_extent j in
  match ext with
  | Some [e0; e1; e2; e3] =>          (* ext and len(ext) == 4 *)
      f0 <- lift_result (py_float e0) ;;
      f1 <- lift_result (py_float e1) ;;
      f2 <- lift_result (py_float e2) ;;
      f3 <- lift_result (py_float e3) ;;
      ret (Some [f0; f1; f2; f3])
  | _ => ret None
  end.

Definition ogrinfo_bounds (dataset_path : Path) : M (option bounds) :=
  try_except (ogrinfo_bounds_try dataset_path) is_Exception
    (fun _ => ret None).

(** ** The conversion stages *)

Definition ogr2ogr_cmd (dst_geojson src_path : Path) : list pystr :=
  [lit "ogr2ogr"; lit "-f"; lit "GeoJSON"; lit "-t_srs"; lit "EPSG:4326";
   path_str dst_geojson; path_str src_path].

Definition tippecanoe_cmd (mbtiles_path : Path) (layer_name : pystr)
    (geojson_path : Path) : list pystr :=
  [lit "tippecanoe"; lit "-o"; path_str mbtiles_path; lit "-l"; layer_name;
   lit "-zg"; lit "--drop-densest-as-needed";
   lit "--extend-zooms-if-still-dropping"; path_str geojson_path].

Definition pmtiles_cmd (mbtiles_path pmtiles_path : Path) : list pystr :=
  [lit "pmtiles"; lit "convert"; path_str mbtiles_path; path_str pmtiles_path].

Definition unzip_cmd (upload_path unzip_dir : Path) : list pystr :=
  [lit "unzip"; lit "-o"; path_str upload_path; lit "-d"; path_str unzip_dir].

Definition convert_to_geojson (src_path dst_geojson : Path) : M unit :=
  run (ogr2ogr_cmd dst_geojson src_path) ;;; ret tt.

Definition tippecanoe_to_mbtiles (geojson_path mbtiles_path : Path)
    (layer_name : pystr) : M unit :=
  run (tippecanoe_cmd mbtiles_path layer_name geojson_path) ;;; ret tt.

Definition mbtiles_to_pmtiles (mbtiles_path pmtiles_path : Path) : M unit :=
  run (pmtiles_cmd mbtiles_path pmtiles_path) ;;; ret tt.

(** ** [ensure_pmtiles] *)

(** [next(unzip_dir.rglob("*.shp"), None)]: the first entry of the walk
    whose name ends in [.shp]. *)
Definition first_shp (entries : list (Path * bool)) : option Path :=
  option_map fst
    (find (fun e => endswith (name (fst e)) (lit ".shp")) entries).

(** [next((p for p in unzip_dir.rglob("*") if p.is_file()), None)] *)
Definition first_file (entries : list (Path * bool)) : option Path :=
  option_map fst (find (fun e => snd e) entries).

Definition empty_zip : exn :=
  HTTPException 400 (Text (lit "Zip was empty or contained no files.")).

(** [next(gen, None)] on a lazy walk: the first entry [pick] accepts among
    those the walk passes before it breaks off; the error of the walk when
    it breaks off before such an entry. *)
Definition lazy_first (pick : list (Path * bool) -> option Path)
    (entries : list (Path * bool)) (brk : option (nat * walk_failure))
    : result (option Path) :=
  match brk with
  | None => Return (pick entries)
  | Some (n, f) =>
      match pick (firstn n entries) with
      | Some p => Return (Some p)
      | None => Raise (walk_exn f)
      end
  end.

(** [next(<entries of d.rglob(pattern) that pick accepts>, None)] *)
Definition rglob_first (pattern : pystr)
    (pick : list (Path * bool) -> option Path) (d : Path) : M (option Path) :=
  entries <- query (walk d) ;;
  brk <- query (walk_breaks pattern d) ;;
  lift_result (lazy_first pick entries brk).

(** The [if ext == ".zip":] block, giving the new [src_for_ogr]. *)
Definition unpack (upload_path work : Path) : M Path :=
  let unzip_dir := work // lit "unzipped" in
  r <- effect (mkdir unzip_dir false) (EMkdir unzip_dir) ;;
  check OSError r ;;;
  run (unzip_cmd upload_path unzip_dir) ;;;
  shp <- rglob_first (lit "*.shp") first_shp unzip_dir ;;
  match shp with
  | Some shp => ret shp                               (* if shp: *)
  | None =>
      any_file <- rglob_first (lit "*") first_file unzip_dir ;;
      match any_file with
      | None => raise empty_zip
      | Some any_file => ret any_file
      end
  end.

Definition ensure_pmtiles (upload_path : Path) (bundle_name : pystr)
    (work : Path) : M (Path * option bounds) :=
  let ext := lower (suffix upload_path) in
  if eqb ext (lit ".pmtiles") then ret (upload_path, None)
  else if eqb ext (lit ".mbtiles") then
    let pm := work // (safe_name bundle_name ++ lit ".pmtiles") in
    mbtiles_to_pmtiles upload_path pm ;;;
    ret (pm, None)
  else
    src_for_ogr <- (if eqb ext (lit ".zip")
                    then unpack upload_path work
                    else ret upload_path) ;;
    bounds <- ogrinfo_bounds src_for_ogr ;;
    geojson <- (if eqb ext (lit ".geojson") || eqb ext (lit ".json")
                then ret upload_path
                else
                  let geojson := work // lit "converted.geojson" in
                  convert_to_geojson src_for_ogr geojson ;;;
                  ret geojson) ;;
    let mb := work // lit "out.mbtiles" in
    let pm := work // (safe_name bundle_name ++ lit ".pmtiles") in
    tippecanoe_to_mbtiles geojson mb (safe_name bundle_name) ;;;
    mbtiles_to_pmtiles mb pm ;;;
    ret (pm, bounds).

(** ** [create_bundle] *)

Record response := {
  resp_id : pystr;
  resp_name : pystr;
  resp_description : pystr;
  resp_bounds : option bounds;
  resp_source_key : pystr;
  resp_pmtiles_key : pystr;
  resp_pmtiles_url : pystr
}.

(** [x or default] on strings *)
Definition str_or (x default : pystr) : pystr :=
  match x with [] => default | _ :: _ => x end.

(** [shutil.rmtree(path, ignore_errors=...)] *)
Definition shutil_rmtree (path : Path) (ignore_errors : bool) : M unit :=
  r <- effect (rmtree path) (ERmtree path) ;;
  match r with
  | Removed => ret tt
  | RemovalFailed m => if ignore_errors then ret tt else raise (OSError m)
  | RemovalAborted m => raise (RecursionError m)
  end.

(** Whether [json.dumps(..., allow_nan=False)], with which [JSONResponse]
    renders its content, accepts the bounds: no [nan], no infinity. *)
Definition json_compliant (b : option bounds) : bool :=
  match b with
  | Some l => forallb is_finite l
  | None => true
  end.

(** [JSONResponse(content)], which renders the content when it is built. *)
Definition JSONResponse (content : response) : M response :=
  if json_compliant (resp_bounds content) then ret content
  else raise ValueError.

(** The body of the [try] block of [create_bundle]. *)
Definition create_bundle_try (bundle_id bundle_name description : pystr)
    (original_filename : pystr) (file : upload) (work : Path) : M response :=
  let upload_path := work // original_filename in
  r <- effect (write_upload upload_path file) (EWrite upload_path) ;;
  check OSError r ;;;
  let source_key :=
    lit "sources/" ++ bundle_id ++ lit "/" ++ original_filename in
  s3_put_file upload_path source_key
    (Some (match content_type file with
           | Some ((_ :: _) as c) => c
           | _ => lit "application/octet-stream"
           end)) ;;;
  pb <- ensure_pmtiles upload_path bundle_name work ;;
  let (pmtiles_path, bounds) := pb in
  let pmtiles_key :=
    lit "pmtiles/" ++ bundle_id ++ lit "/" ++ safe_name bundle_name
      ++ lit ".pmtiles" in
  s3_put_file pmtiles_path pmtiles_key (Some (lit "application/octet-stream")) ;;;
  let bounds_col := match bounds with
                    | Some (_ :: _) => bounds     (* ... if bounds else None *)
                    | _ => None
                    end in
  r <- effect (db_insert {| row_id := bundle_id; row_name := bundle_name;
                            row_description := description;
                            row_bounds := bounds_col;
                            row_source_key := source_key;
                            row_pmtiles_key := pmtiles_key |})
         (EDbInsert {| row_id := bundle_id; row_name := bundle_name;
                       row_description := description;
                       row_bounds := bounds_col;
                       row_source_key := source_key;
                       row_pmtiles_key := pmtiles_key |}) ;;
  check DatabaseError r ;;;
  JSONResponse
    {| resp_id := bundle_id; resp_name := bundle_name;
       resp_description := description; resp_bounds := bounds;
       resp_source_key := source_key; resp_pmtiles_key := pmtiles_key;
       resp_pmtiles_url :=
         PUBLIC_TILES_BASE cfg ++ lit "/" ++ pmtiles_key |}.

Definition fresh_uuid : M pystr :=
  fun w => let (u, w') := uuid4 w in
           {| res := Return u; world_after := w'; events := [] |}.

(** What the [try] block does once [ensure_pmtiles] has returned [pb]:
    the continuation of [create_bundle_try] past that call. *)
Definition create_bundle_publish (bundle_id bundle_name description : pystr)
    (source_key : pystr) (pb : Path * option bounds) : M response :=
  let (pmtiles_path, bounds) := pb in
  let pmtiles_key :=
    lit "pmtiles/" ++ bundle_id ++ lit "/" ++ safe_name bundle_name
      ++ lit ".pmtiles" in
  s3_put_file pmtiles_path pmtiles_key (Some (lit "application/octet-stream")) ;;;
  let bounds_col := match bounds with
                    | Some (_ :: _) => bounds
                    | _ => None
                    end in
  r <- effect (db_insert {| row_id := bundle_id; row_name := bundle_name;
                            row_description := description;
                            row_bounds := bounds_col;
                            row_source_key := source_key;
                            row_pmtiles_key := pmtiles_key |})
         (EDbInsert {| row_id := bundle_id; row_name := bundle_name;
                       row_description := description;
                       row_bounds := bounds_col;
                       row_source_key := source_key;
                       row_pmtiles_key := pmtiles_key |}) ;;
  check DatabaseError r ;;;
  JSONResponse
    {| resp_id := bundle_id; resp_name := bundle_name;
       resp_description := description; resp_bounds := bounds;
       resp_source_key := source_key; resp_pmtiles_key := pmtiles_key;
       resp_pmtiles_url :=
         PUBLIC_TILES_BASE cfg ++ lit "/" ++ pmtiles_key |}.

(** The [try] block with its [except RuntimeError as e:] clause. *)
Definition create_bundle_guarded (bundle_id bundle_name description : pystr)
    (original_filename : pystr) (file : upload) (work : Path) : M response :=
  try_except
    (create_bundle_try bundle_id bundle_name description
       original_filename file work)
    is_RuntimeError
    (fun e => raise (HTTPException 400 (exn_str e))).

Definition create_bundle (name description : pystr) (file : upload)
    : M response :=
  bundle_id <- fresh_uuid ;;
  let bundle_name := str_or (strip name) (lit "bundle") in
  let original_filename :=
    safe_name (str_or (match filename file with Some f => f | None => [] end)
                 (lit "upload")) in
  let work := WORKDIR cfg // bundle_id in
  r <- effect (mkdir work true) (EMkdir work) ;;
  check OSError r ;;;
  try_finally
    (create_bundle_guarded bundle_id bundle_name description
       original_filename file work)
    (shutil_rmtree work true).

(** ** Plans *)

(** Running commands one after the other, as a chain of [run] calls does:
    the first one that raises ends the chain. *)
Fixpoint run_all (cmds : list (list pystr)) : M unit :=
  match cmds with
  | [] => ret tt
  | c :: cs => run c ;;; run_all cs
  end.

(** The shape of [ensure_pmtiles] past its two early returns: obtain the
    dataset, probe it, run the stages, give the archive and the bounds. *)
Definition staged (dataset : M Path) (cmds : Path -> list (list pystr))
    (pm : Path) : M (Path * option bounds) :=
  src_for_ogr <- dataset ;;
  bounds <- ogrinfo_bounds src_for_ogr ;;
  run_all (cmds src_for_ogr) ;;;
  ret (pm, bounds).

End Pipeline.

(** ** Reading the catalogue: [list_bundles] and [get_bundle] *)

(** A row of [bundles] as [SELECT *] gives it; the columns without
    [NOT NULL] may hold [NULL]. *)
Record stored_row := {
  sr_id : pystr;
  sr_name : pystr;
  sr_description : option pystr;
  sr_bounds : option pystr;
  sr_source_key : pystr;
  sr_pmtiles_key : pystr;
  sr_created_at : option pystr
}.

(** An element of ["items"], and the body of the answer of [get_bundle]. *)
Record item := {
  item_id : pystr;
  item_name : pystr;
  item_description : option pystr;
  item_bounds : option json;
  item_source_key : pystr;
  item_pmtiles_key : pystr;
  item_pmtiles_url : pystr;
  item_created_at : option pystr
}.

(** The two queries, answered from the state of the world; [inr] carries
    the text of an error of the database. *)
Class Catalog (E : Env) := {
  (** [SELECT * FROM bundles ORDER BY created_at DESC] with [fetchall()] *)
  select_all : World -> list stored_row + pystr;
  (** [SELECT * FROM bundles WHERE id=?] with [fetchone()] *)
  select_by_id : pystr -> World -> option stored_row + pystr
}.

Section Readers.

Context {E : Env} {C : Catalog E}.
Variable cfg : config.

(** The [for r in rows:] loop of [list_bundles], [items] being the list
    built so far. *)
Fixpoint list_bundles_loop (rows : list stored_row) (items : list item)
    : result (list item) :=
  match rows with
  | [] => Return items
  | r :: rows' =>
      match (match sr_bounds r with
             | Some ((_ :: _) as text) =>            (* if r["bounds"] *)
                 match json_loads text with
                 | Some j => Return (Some j)
                 | None => Raise JSONDecodeError
                 end
             | _ => Return None
             end) with
      | Raise e => Raise e
      | Return bounds =>
          list_bundles_loop rows'
            (items ++
             [{| item_id := sr_id r; item_name := sr_name r;
                 item_description := sr_description r;
                 item_bounds := bounds;
                 item_source_key := sr_source_key r;
                 item_pmtiles_key := sr_pmtiles_key r;
                 item_pmtiles_url :=
                   PUBLIC_TILES_BASE cfg ++ lit "/" ++ sr_pmtiles_key r;
                 item_created_at := sr_created_at r |}])
      end
  end.

Definition list_bundles : M (list item) :=
  bind (query select_all)
    (fun rows =>
       match rows with
       | inr m => raise (DatabaseError m)
       | inl rows => lift_result (list_bundles_loop rows [])
       end).

Definition get_bundle (bundle_id : pystr) : M item :=
  bind (query (select_by_id bundle_id))
    (fun r =>
       match r with
       | inr m => raise (DatabaseError m)
       | inl None => raise (HTTPException 404 (Text (lit "Not found")))
       | inl (Some r) =>
           bind (lift_result
                   (match sr_bounds r with
                    | Some ((_ :: _) as text) =>
                        match json_loads text with
                        | Some j => Return (Some j)
                        | None => Raise JSONDecodeError
                        end
                    | _ => Return None
                    end))
             (fun bounds =>
                ret {| item_id := sr_id r; item_name := sr_name r;
                       item_description := sr_description r;
                       item_bounds := bounds;
                       item_source_key := sr_source_key r;
                       item_pmtiles_key := sr_pmtiles_key r;
                       item_pmtiles_url :=
                         PUBLIC_TILES_BASE cfg ++ lit "/" ++ sr_pmtiles_key r;
                       item_created_at := sr_created_at r |})
       end).

End Readers.

(** ** Observations on a run *)

(** The exception [run cmd] raises when the process ended as [r] and [run]
    does not return. *)
Definition run_error (cmd : list pystr) (r : completed + pystr) : exn :=
  match r with
  | inr m => OSError m
  | inl (Undecodable _) => UnicodeDecodeError
  | inl (Exited _ out err) => RuntimeError (CommandFailed cmd out err)
  end.

(** The commands a run started, in order. *)
Definition spawned (evs : list event) : list (list pystr) :=
  flat_map (fun e => match e with ESpawn c _ => [c] | _ => [] end) evs.

(** [cmd[0]] *)
Definition program (cmd : list pystr) : pystr := hd [] cmd.

Inductive stage :=
| GenericToInterchange
| InterchangeToTileDatabase
| TileDatabaseToArchive.

Definition stage_of_cmd (cmd : list pystr) : option stage :=
  if eqb (program cmd) (lit "ogr2ogr") then Some GenericToInterchange
  else if eqb (program cmd) (lit "tippecanoe") then Some InterchangeToTileDatabase
  else if eqb (program cmd) (lit "pmtiles") then Some TileDatabaseToArchive
  else None.

(** The conversion stages a run started, in order. *)
Definition stages_run (evs : list event) : list stage :=
  flat_map (fun c => match stage_of_cmd c with Some s => [s] | None => [] end)
    (spawned evs).

(** The invocations of the introspection tool. *)
Definition probes (evs : list event) : list (list pystr) :=
  filter (fun c => eqb (program c) (lit "ogrinfo")) (spawned evs).

(** A process that ran, exited with status zero and printed text that
    could be decoded: the case in which [run] returns. *)
Definition exited_zero (r : completed + pystr) : bool :=
  match r with
  | inl (Exited rc _ _) => (rc =? 0)%Z
  | inl (Undecodable _) => false
  | inr _ => false
  end.

(** A spawned process for which [run] does not return: it could not be
    started, did not exit with status zero, or printed output that could
    not be decoded. *)
Definition spawn_failed (e : event) : bool :=
  match e with
  | ESpawn _ r => negb (exited_zero r)
  | _ => false
  end.

(** The event is a conversion stage for which [run] does not return. *)
Definition stage_failed (e : event) : bool :=
  match e with
  | ESpawn c r =>
      match stage_of_cmd c with
      | Some _ => negb (exited_zero r)
      | None => false
      end
  | _ => false
  end.

(** The path a command is told to write to: [-d dir] of [unzip], the
    destination of [ogr2ogr], [-o] of [tippecanoe], the target of
    [pmtiles convert]. *)
Definition writes_to (cmd : list pystr) : option pystr :=
  if eqb (program cmd) (lit "unzip") then nth_error cmd 4
  else if eqb (program cmd) (lit "ogr2ogr") then nth_error cmd 5
  else if eqb (program cmd) (lit "tippecanoe") then nth_error cmd 2
  else if eqb (program cmd) (lit "pmtiles") then nth_error cmd 3
  else None.

(** The command writes below [work], if it writes at all. *)
Definition writes_below (work : Path) (c : list pystr) : Prop :=
  forall s, writes_to c = Some s ->
  exists q, s = path_str q /\ is_under work q = true.

(** No event of the computation satisfies [P], whatever the world. *)
Definition never {W A} (P : event -> bool) (m : W -> outcome W A) : Prop :=
  forall w, existsb P (events (m w)) = false.

Definition is_spawn (e : event) : bool :=
  match e with ESpawn _ _ => true | _ => false end.

Definition is_s3_put (e : event) : bool :=
  match e with ES3Put _ _ _ _ => true | _ => false end.

Definition is_rmtree (e : event) : bool :=
  match e with ERmtree _ _ => true | _ => false end.

Definition is_db_insert (e : event) : bool :=
  match e with EDbInsert _ _ => true | _ => false end.

(** The keys of the objects a run has stored, in order. *)
Definition s3_keys (evs : list event) : list pystr :=
  flat_map (fun e => match e with ES3Put _ k _ None => [k] | _ => [] end) evs.

(** [q] is [d] or lies below it. *)
Fixpoint within (d q : Path) : bool :=
  match d, q with
  | [], _ => true
  | c :: d', c' :: q' => eqb c c' && within d' q'
  | _ :: _, [] => false
  end.

(** The paths that exist once [rmtree d] has succeeded, [present] telling
    which existed before. *)
Definition after_rmtree (d : Path) (present : Path -> bool) : Path -> bool :=
  fun q => present q && negb (within d q).

(** The events and the result of a chain of commands: each command for
    which [run] returns is followed by the next one, the first for which it
    does not ends the chain with its error. *)
Inductive ran : list (list pystr) -> list event -> result unit -> Prop :=
| ran_done : ran [] [] (Return tt)
| ran_next c cs r evs res :
    exited_zero r = true -> ran cs evs res ->
    ran (c :: cs) (ESpawn c r :: evs) res
| ran_stop c cs r :
    exited_zero r = false ->
    ran (c :: cs) [ESpawn c r] (Raise (run_error c r)).

(** The member of an unpacked archive the pipeline works on: the first
    entry named [*.shp], else the first regular file. *)
Definition select_member (entries : list (Path * bool)) : option Path :=
  match first_shp entries with
  | Some shp => Some shp
  | None => first_file entries
  end.

(** What the two walks of [unpack] over the directory [d] come to in the
    world [w]: the member selected, or the error raised. *)
Definition selected {E : Env} (d : Path) (w : World) : result Path :=
  match lazy_first first_shp (walk d w) (walk_breaks (lit "*.shp") d w) with
  | Raise e => Raise e
  | Return (Some shp) => Return shp
  | Return None =>
      match lazy_first first_file (walk d w) (walk_breaks (lit "*") d w) with
      | Raise e => Raise e
      | Return (Some any_file) => Return any_file
      | Return None => Raise empty_zip
      end
  end.

(** What the [finally] clause of [create_bundle] makes of the pending
    result when the removal ended as [r]: an error the removal raises
    replaces it. *)
Definition cleaned {A} (r : removal) (pending : result A) : result A :=
  match r with
  | RemovalAborted m => Raise (RecursionError m)
  | Removed | RemovalFailed _ => pending
  end.

(** The event is a removal that raised. *)
Definition removal_aborted (e : event) : bool :=
  match e with
  | ERmtree _ (RemovalAborted _) => true
  | _ => false
  end.

(** The commands of the conversion stages for an upload with lower-cased
    extension [ext] (other than [.pmtiles] and [.mbtiles]) and dataset
    [src]. *)
Definition stage_cmds (ext : pystr) (upload_path work : Path)
    (bundle_name : pystr) (src : Path) : list (list pystr) :=
  let mb := work // lit "out.mbtiles" in
  let pm := work // (safe_name bundle_name ++ lit ".pmtiles") in
  if eqb ext (lit ".geojson") || eqb ext (lit ".json")
  then [tippecanoe_cmd mb (safe_name bundle_name) upload_path;
        pmtiles_cmd mb pm]
  else [ogr2ogr_cmd (work // lit "converted.geojson") src;
        tippecanoe_cmd mb (safe_name bundle_name) (work // lit "converted.geojson");
        pmtiles_cmd mb pm].

(** ** The routing table and the stage table of the design document *)

Inductive route :=
| PassThrough
| FromTileDatabase
| FromInterchange
| FromGenericOgr.

(** The route of a lower-cased extension other than [.zip]. *)
Definition route_of_ext (ext : pystr) : route :=
  if eqb ext (lit ".pmtiles") then PassThrough
  else if eqb ext (lit ".mbtiles") then FromTileDatabase
  else if eqb ext (lit ".geojson") then FromInterchange
  else if eqb ext (lit ".json") then FromInterchange
  else FromGenericOgr.

Definition stages_of_route (r : route) : list stage :=
  match r with
  | PassThrough => []
  | FromTileDatabase => [TileDatabaseToArchive]
  | FromInterchange => [InterchangeToTileDatabase; TileDatabaseToArchive]
  | FromGenericOgr =>
      [GenericToInterchange; InterchangeToTileDatabase; TileDatabaseToArchive]
  end.

(** Whether the route probes the extent of the dataset. *)
Definition route_probes (r : route) : bool :=
  match r with
  | PassThrough | FromTileDatabase => false
  | FromInterchange | FromGenericOgr => true
  end.

(** Every value stored under a key named [extent] that is a sequence of
    four elements, in depth-first order, the entry of a mapping before the
    values of the mapping. *)
Fixpoint extents_preorder (obj : json) : list (list json) :=
  match obj with
  | JDict kv =>
      match dict_get (lit "extent") kv with
      | Some (JList [a; b; c; d]) => [[a; b; c; d]]
      | _ => []
      end ++ flat_map (fun p => extents_preorder (snd p)) kv
  | JList l => flat_map extents_preorder l
  | _ => []
  end.

(** ** A scripted environment *)

(** An environment with no state of its own: every command exits with the
    status and the output the script gives it, or with output that cannot
    be decoded where the script says so; the walk of the unpacked archive
    yields [tree] and breaks off as [breaks] says; the removal of a tree
    ends as [removing]; the other collaborators succeed. *)
Record script := {
  exit_status : list pystr -> Z;
  output : list pystr -> pystr;
  garbled : list pystr -> bool;
  tree : list (Path * bool);
  breaks : pystr -> option (nat * walk_failure);
  parse : pystr -> option json;
  removing : removal
}.

Definition scripted (sc : script) : Env := {|
  World := unit;
  subprocess_run := fun cmd w =>
    (inl (if garbled sc cmd then Undecodable (exit_status sc cmd)
          else Exited (exit_status sc cmd) (output sc cmd) []), w);
  json_loads := parse sc;
  float_of_str := fun _ => None;
  mkdir := fun _ _ w => (None, w);
  walk := fun _ _ => tree sc;
  walk_breaks := fun pattern _ _ => breaks sc pattern;
  write_upload := fun _ _ w => (None, w);
  s3_upload_file := fun _ _ _ w => (None, w);
  db_insert := fun _ w => (None, w);
  rmtree := fun _ w => (removing sc, w);
  uuid4 := fun w => (lit "6f1c", w)
|}.

(** All tools succeed and print nothing. *)
Definition quiet (tr : list (Path * bool)) : script := {|
  exit_status := fun _ => 0%Z;
  output := fun _ => [];
  garbled := fun _ => false;
  tree := tr;
  breaks := fun _ => None;
  parse := fun _ => None;
  removing := Removed
|}.

Definition demo_cfg : config := {|
  WORKDIR := [lit "/"; lit "app"; lit "work"];
  PUBLIC_TILES_BASE := lit "/tiles"
|}.

Definition demo_work : Path := WORKDIR demo_cfg // lit "6f1c".

(** The tile builder exits with status 1 and a message on its error
    stream; everything else succeeds. *)
Definition tippecanoe_fails : script := {|
  exit_status := fun cmd =>
    if eqb (program cmd) (lit "tippecanoe") then 1%Z else 0%Z;
  output := fun _ => [];
  garbled := fun _ => false;
  tree := [];
  breaks := fun _ => None;
  parse := fun _ => None;
  removing := Removed
|}.

(** A report with a three-element [extent] at the top, which does not
    qualify, and a four-element one further down, elements of mixed
    numeric types. *)
Definition demo_report : json :=
  JDict [(lit "description", JStr (lit "parks"));
         (lit "extent", JList [JInt 1; JInt 2; JInt 3]);
         (lit "layers",
          JList [JDict [(lit "name", JStr (lit "parks"));
                        (lit "geometryFields",
                         JList [JDict [(lit "extent",
                                        JList [JFloat (-122.5)%float;
                                               JInt 37;
                                               JFloat (-122.25)%float;
                                               JInt 38])]])]])].

(** The introspection tool prints a report that parses as [j]. *)
Definition reports (j : json) : script := {|
  exit_status := fun _ => 0%Z;
  output := fun cmd =>
    if eqb (program cmd) (lit "ogrinfo") then lit "{...}" else [];
  garbled := fun _ => false;
  tree := [];
  breaks := fun _ => None;
  parse := fun _ => Some j;
  removing := Removed
|}.

(** An unpacked archive holding one GeoJSON file. *)
Definition geojson_tree : list (Path * bool) :=
  [(demo_work // lit "unzipped" // lit "data.geojson", true)].

(** An unpacked archive holding nothing but a directory named
    [layer.shp]. *)
Definition shp_directory_tree : list (Path * bool) :=
  [(demo_work // lit "unzipped" // lit "layer.shp", false)].

Definition demo_upload (fname : string) : upload := {|
  filename := Some (lit fname);
  content_type := None;
  content := []
|}.

(** A code point the cleaning drops without a trace: neither in the class
    nor white space. *)
Definition dropped (c : N) : bool := negb (allowed c) && negb (isspace c).

(** What the [except RuntimeError] clause makes of a result. *)
Definition handled {A} (r : result A) : result A :=
  match r with
  | Return a => Return a
  | Raise e =>
      if is_RuntimeError e then Raise (HTTPException 400 (exn_str e))
      else Raise e
  end.

(** The value shown for the [bounds] column of a row:
    [json.loads(r["bounds"]) if r["bounds"] else None]. *)
Definition read_bounds {E : Env} (r : stored_row) : result (option json) :=
  match sr_bounds r with
  | Some ((_ :: _) as text) =>
      match json_loads text with
      | Some j => Return (Some j)
      | None => Raise JSONDecodeError
      end
  | _ => Return None
  end.

(** A row as it is shown, [bounds] being the value read from its column. *)
Definition item_of (cfg : config) (r : stored_row) (bounds : option json)
    : item := {|
  item_id := sr_id r; item_name := sr_name r;
  item_description := sr_description r;
  item_bounds := bounds;
  item_source_key := sr_source_key r;
  item_pmtiles_key := sr_pmtiles_key r;
  item_pmtiles_url := PUBLIC_TILES_BASE cfg ++ lit "/" ++ sr_pmtiles_key r;
  item_created_at := sr_created_at r
|}.

(** The [bounds] column of a stored row can be read back: it is [NULL],
    empty, or a text [json.loads] accepts. *)
Definition bounds_readable {E : Env} (r : stored_row) : bool :=
  match sr_bounds r with
  | Some ((_ :: _) as text) =>
      match json_loads text with Some _ => true | None => false end
  | _ => true
  end.

(** The dataset a stage command reads: the source of [ogr2ogr], the input
    of [tippecanoe], the tile database of [pmtiles convert]. *)
Definition reads_from (cmd : list pystr) : option pystr :=
  if eqb (program cmd) (lit "ogr2ogr") then nth_error cmd 6
  else if eqb (program cmd) (lit "tippecanoe") then nth_error cmd 8
  else if eqb (program cmd) (lit "pmtiles") then nth_error cmd 2
  else None.

(** Each command reads what the command before it was told to write. *)
Fixpoint chained (cmds : list (list pystr)) : Prop :=
  match cmds with
  | c1 :: (c2 :: _) as rest => writes_to c1 = reads_from c2 /\ chained rest
  | _ => True
  end.

(** The commands of a run that are conversion stages. *)
Definition stage_commands (evs : list event) : list (list pystr) :=
  filter (fun c => match stage_of_cmd c with Some _ => true | None => false end)
    (spawned evs).

Definition slash : N := 47.

(** The stored objects of a run with the local file each was read from. *)
Definition s3_puts (evs : list event) : list (Path * pystr) :=
  flat_map (fun e => match e with
                     | ES3Put p k _ None => [(p, k)]
                     | _ => []
                     end) evs.

(** The rows a run has inserted. *)
Definition inserted (evs : list event) : list row :=
  flat_map (fun e => match e with EDbInsert rw None => [rw] | _ => [] end) evs.

(** A catalogue with the given rows, over a scripted environment. *)
Definition scripted_catalog (sc : script) (rows : list stored_row)
    : Catalog (scripted sc) := {|
  select_all := fun _ => inl rows;
  select_by_id := fun bundle_id _ =>
    inl (find (fun r => eqb (sr_id r) bundle_id) rows)
|}.

Definition demo_row (i : string) (b : option pystr) : stored_row := {|
  sr_id := lit i; sr_name := lit "parks"; sr_description := None;
  sr_bounds := b; sr_source_key := lit "sources/" ++ lit i ++ lit "/p.zip";
  sr_pmtiles_key := lit "pmtiles/" ++ lit i ++ lit "/parks.pmtiles";
  sr_created_at := Some (lit "2024-01-01 00:00:00")
|}.

(** An unpacked archive with a text file ahead of a shapefile. *)
Definition shapefile_tree : list (Path * bool) :=
  [(demo_work // lit "unzipped" // lit "docs", false);
   (demo_work // lit "unzipped" // lit "readme.txt", true);
   (demo_work // lit "unzipped" // lit "city.shp", true)].

(** [unzip] exits with status 9; everything else succeeds. *)
Definition unzip_fails : script := {|
  exit_status := fun cmd =>
    if eqb (program cmd) (lit "unzip") then 9%Z else 0%Z;
  output := fun _ => [];
  garbled := fun _ => false;
  tree := [];
  breaks := fun _ => None;
  parse := fun _ => None;
  removing := Removed
|}.

(** Two stored rows, the second with a [bounds] text. *)
Definition demo_rows : list stored_row :=
  [demo_row "b2" None; demo_row "a1" (Some (lit "[1, 2, 3, 4]"))].

(** The row the quiet run of [parks.geojson] inserts. *)
Definition demo_inserted : row := {|
  row_id := lit "6f1c"; row_name := lit "My Parks";
  row_description := lit "city parks"; row_bounds := None;
  row_source_key := lit "sources/6f1c/parks.geojson";
  row_pmtiles_key := lit "pmtiles/6f1c/My-Parks.pmtiles"
|}.

(** The tile builder exits with status 1 and prints bytes that are not
    valid text; everything else succeeds. *)
Definition tippecanoe_garbles : script := {|
  exit_status := fun cmd =>
    if eqb (program cmd) (lit "tippecanoe") then 1%Z else 0%Z;
  output := fun _ => [];
  garbled := fun cmd => eqb (program cmd) (lit "tippecanoe");
  tree := [];
  breaks := fun _ => None;
  parse := fun _ => None;
  removing := Removed
|}.

Definition recursion_text : pystr := lit "maximum recursion depth exceeded".

(** A chain of [n] nested directories [d/d/.../d] below [p], as a walk
    lists it. *)
Fixpoint chain (n : nat) (p : Path) : list (Path * bool) :=
  match n with
  | O => []
  | S n' => (p // lit "d", false) :: chain n' (p // lit "d")
  end.

(** An unpacked archive with a shapefile at the top, beside a chain of a
    thousand nested directories. *)
Definition deep_tree : list (Path * bool) :=
  (demo_work // lit "unzipped" // lit "city.shp", true)
  :: chain 1000 (demo_work // lit "unzipped").

(** An upload whose unpacked tree is [tr], deeper than the recursion limit
    of the interpreter allows to walk: a walk that gets that far breaks
    off; the removal of the working directory, which recurses a little
    less per level, ends as [rm].  The program [failing], if any command
    runs it, exits with status 1; every other tool succeeds. *)
Definition too_deep (tr : list (Path * bool)) (failing : pystr)
    (rm : removal) : script := {|
  exit_status := fun cmd => if eqb (program cmd) failing then 1%Z else 0%Z;
  output := fun _ => [];
  garbled := fun _ => false;
  tree := tr;
  breaks := fun pattern =>
    Some (if eqb pattern (lit "*") then 990 else 991, TooDeep recursion_text);
  parse := fun _ => None;
  removing := rm
|}.

(** The archive [deep_tree], too deep to remove. *)
Definition too_deep_to_remove (failing : pystr) : script :=
  too_deep deep_tree failing (RemovalAborted recursion_text).

(** A report whose extent holds an infinite bound, as [json.loads] reads
    the literal [Infinity]. *)
Definition unbounded_report : json :=
  JDict [(lit "extent",
          JList [JInt 0; JInt 0; JFloat infinity; JInt 1])].

(** * Properties *)

(** ** Strings *)

Lemma eqb_eq (a b : pystr) : eqb a b = true <-> a = b.
Proof.
  revert b; induction a as [|x a IH]; intros [|y b]; simpl;
    try (split; [discriminate|congruence]); [tauto|].
  rewrite andb_true_iff, N.eqb_eq, IH. split.
  - now intros [-> ->].
  - now intros [= -> ->].
Qed.

Lemma eqb_refl (a : pystr) : eqb a a = true.
Proof. now apply eqb_eq. Qed.

Lemma eqb_neq (a b : pystr) : eqb a b = false <-> a <> b.
Proof.
  rewrite <- eqb_eq. destruct (eqb a b); split; congruence.
Qed.

Example safe_name_ex1 :
  safe_name (lit "  My  Parks (2024).geojson ") = lit "My-Parks-2024.geojson".
Proof. reflexivity. Qed.

Example safe_name_ex2 : safe_name (lit " !!! ") = lit "bundle".
Proof. reflexivity. Qed.

Example safe_name_ex3 :
  safe_name [160; 97; 8195; 8195; 98; 233]%N = lit "a-b".
Proof. reflexivity. Qed.

Lemma allowed_not_space (c : N) : allowed c = true -> isspace c = false.
Proof.
  intros H. apply not_true_iff_false. revert H.
  unfold allowed, isspace, in_range.
  rewrite !orb_true_iff, !andb_true_iff, !N.leb_le, !N.eqb_eq. lia.
Qed.

Lemma lstrip_token (t : pystr) : forallb allowed t = true -> lstrip t = t.
Proof.
  destruct t as [|c t]; simpl; [reflexivity|].
  intros H. apply andb_true_iff in H as [Hc _].
  now rewrite (allowed_not_space _ Hc).
Qed.

Lemma forallb_rev {A} (f : A -> bool) (l : list A) :
  forallb f (rev l) = forallb f l.
Proof.
  induction l as [|a l IH]; simpl; [reflexivity|].
  rewrite forallb_app, IH. simpl. rewrite andb_true_r. apply andb_comm.
Qed.

Lemma strip_token (t : pystr) : forallb allowed t = true -> strip t = t.
Proof.
  intros H. unfold strip, rstrip.
  rewrite (lstrip_token _ H), lstrip_token, rev_involutive; [reflexivity|].
  now rewrite forallb_rev.
Qed.

Lemma sub_ws_token (t : pystr) :
  forallb allowed t = true -> sub_ws false t = t.
Proof.
  induction t as [|c t IH]; simpl; [reflexivity|].
  intros H. apply andb_true_iff in H as [Hc Ht].
  now rewrite (allowed_not_space _ Hc), (IH Ht).
Qed.

Lemma filter_token (t : pystr) :
  forallb allowed t = true -> sub_disallowed t = t.
Proof.
  unfold sub_disallowed.
  induction t as [|c t IH]; simpl; [reflexivity|].
  intros H. apply andb_true_iff in H as [Hc Ht].
  now rewrite Hc, (IH Ht).
Qed.

Lemma forallb_filter_same {A} (f : A -> bool) (l : list A) :
  forallb f (filter f l) = true.
Proof.
  induction l as [|a l IH]; simpl; [reflexivity|].
  destruct (f a) eqn:Ha; simpl; [now rewrite Ha|exact IH].
Qed.

Lemma forallb_firstn {A} (f : A -> bool) (n : nat) (l : list A) :
  forallb f l = true -> forallb f (firstn n l) = true.
Proof.
  revert l; induction n as [|n IH]; intros [|a l]; simpl; try reflexivity.
  intros H. apply andb_true_iff in H as [Ha Hl].
  now rewrite Ha, (IH _ Hl).
Qed.

Lemma matches_token_spec (t : pystr) :
  matches_token t = true <->
  forallb allowed t = true /\ 1 <= length t <= 120.
Proof.
  unfold matches_token. rewrite !andb_true_iff, !Nat.leb_le. tauto.
Qed.

(** A token is left alone by [safe_name]. *)
Lemma safe_name_token (t : pystr) :
  matches_token t = true -> safe_name t = t.
Proof.
  intros H. apply matches_token_spec in H as [Ha [H1 H120]].
  unfold safe_name.
  rewrite (strip_token _ Ha), (sub_ws_token _ Ha), (filter_token _ Ha).
  destruct t as [|c t]; [simpl in H1; lia|].
  now apply firstn_all2.
Qed.

Lemma safe_name_matches (s : pystr) : matches_token (safe_name s) = true.
Proof.
  unfold safe_name.
  destruct (sub_disallowed (sub_ws false (strip s))) as [|c t] eqn:Hs.
  - reflexivity.
  - apply matches_token_spec. split.
    + apply forallb_firstn. rewrite <- Hs. apply forallb_filter_same.
    + split.
      * simpl. lia.
      * apply firstn_le_length.
Qed.

(** C7. [safe_name] is defined on every string; its result matches
    [^[A-Za-z0-9._-]{1,120}$] (only letters, digits, dot, underscore and
    hyphen, between 1 and 120 of them); it is the literal [bundle] when
    cleaning leaves nothing; and applying it twice is the same as applying
    it once. *)
Theorem C7_safe_name_token_idempotent (s : pystr) :
  matches_token (safe_name s) = true
  /\ (sub_disallowed (sub_ws false (strip s)) = [] ->
      safe_name s = lit "bundle")
  /\ safe_name (safe_name s) = safe_name s.
Proof.
  split; [apply safe_name_matches|split].
  - intros H. unfold safe_name. now rewrite H.
  - apply safe_name_token, safe_name_matches.
Qed.

(** ** JSON trees *)

Lemma json_ind' (P : json -> Prop) :
  P JNull -> (forall b, P (JBool b)) -> (forall z, P (JInt z)) ->
  (forall f, P (JFloat f)) -> (forall s, P (JStr s)) ->
  (forall l, Forall P l -> P (JList l)) ->
  (forall kv, Forall (fun p => P (snd p)) kv -> P (JDict kv)) ->
  forall j, P j.
Proof.
  intros Hnull Hbool Hint Hfloat Hstr Hlist Hdict.
  fix IH 1. intros [ | b | z | f | s | l | kv].
  - exact Hnull.
  - apply Hbool.
  - apply Hint.
  - apply Hfloat.
  - apply Hstr.
  - apply Hlist. induction l as [|v l IHl]; constructor; [apply IH|exact IHl].
  - apply Hdict. induction kv as [|[k v] kv IHkv]; constructor;
      [apply IH|exact IHkv].
Qed.

(** The loop over the items of a list, one step. *)
Lemma find_extent_cons (v : json) (l : list json) :
  find_extent (JList (v :: l)) =
  if truthy (find_extent v) then find_extent v else find_extent (JList l).
Proof. reflexivity. Qed.

(** A mapping: its own entry first, then its values in order. *)
Lemma find_extent_dict (kv : list (pystr * json)) :
  find_extent (JDict kv) =
  match own_extent kv with
  | Some l => Some l
  | None => find_extent (JList (map snd kv))
  end.
Proof.
  simpl. destruct (own_extent kv); [reflexivity|].
  induction kv as [|[k v] kv IH]; simpl; [reflexivity|].
  destruct (truthy (find_extent v)); [reflexivity|exact IH].
Qed.

Lemma own_extent_spec (kv : list (pystr * json)) :
  own_extent kv =
  match dict_get (lit "extent") kv with
  | Some (JList [a; b; c; d]) => Some [a; b; c; d]
  | _ => None
  end.
Proof.
  unfold own_extent. destruct (dict_get (lit "extent") kv) as [[ | | | | | l | ]|];
    try reflexivity.
  destruct l as [|a [|b [|c [|d [|e l]]]]]; reflexivity.
Qed.

Lemma extents_preorder_length (j : json) :
  Forall (fun l => length l = 4) (extents_preorder j).
Proof.
  induction j as [ | | | | | l IH | kv IH] using json_ind'; simpl;
    try constructor.
  - induction IH as [|v l Hv _ IHl]; simpl; [constructor|].
    apply Forall_app; split; assumption.
  - apply Forall_app; split.
    + destruct (dict_get (lit "extent") kv) as [[ | | | | | l | ]|];
        try constructor.
      destruct l as [|a [|b [|c [|d [|e l]]]]]; repeat constructor.
    + induction IH as [|p kv Hp _ IHkv]; simpl; [constructor|].
      apply Forall_app; split; assumption.
Qed.

Lemma truthy_hd_extents (j : json) :
  truthy (hd_error (extents_preorder j)) =
  match extents_preorder j with [] => false | _ :: _ => true end.
Proof.
  pose proof (extents_preorder_length j) as H.
  destruct (extents_preorder j) as [|x xs]; [reflexivity|].
  inversion H as [|? ? Hx _]; subst. destruct x; [discriminate|reflexivity].
Qed.

Lemma find_extent_list_preorder (l : list json) :
  Forall (fun v => find_extent v = hd_error (extents_preorder v)) l ->
  find_extent (JList l) = hd_error (flat_map extents_preorder l).
Proof.
  induction 1 as [|v l Hv _ IH]; [reflexivity|].
  rewrite find_extent_cons, Hv, truthy_hd_extents. simpl.
  destruct (extents_preorder v); [exact IH|reflexivity].
Qed.

(** [find_extent] gives the first entry of the depth-first enumeration. *)
Lemma find_extent_preorder (j : json) :
  find_extent j = hd_error (extents_preorder j).
Proof.
  induction j as [ | | | | | l IH | kv IH] using json_ind'; try reflexivity.
  - now apply find_extent_list_preorder.
  - rewrite find_extent_dict, own_extent_spec.
    change (extents_preorder (JDict kv)) with
      (match dict_get (lit "extent") kv with
       | Some (JList [a; b; c; d]) => [[a; b; c; d]]
       | _ => []
       end ++ flat_map (fun p => extents_preorder (snd p)) kv).
    assert (Hvals : find_extent (JList (map snd kv)) =
                    hd_error (flat_map (fun p => extents_preorder (snd p)) kv)).
    { rewrite find_extent_list_preorder.
      - now rewrite flat_map_concat_map, map_map, <- flat_map_concat_map.
      - apply Forall_map. exact IH. }
    destruct (dict_get (lit "extent") kv) as [[ | | | | | l | ]|];
      try exact Hvals.
    destruct l as [|a [|b [|c [|d [|e l]]]]]; try exact Hvals. reflexivity.
Qed.

Lemma find_extent_four (j : json) (l : list json) :
  find_extent j = Some l -> exists a b c d, l = [a; b; c; d].
Proof.
  rewrite find_extent_preorder. pose proof (extents_preorder_length j) as H.
  destruct (extents_preorder j) as [|x xs]; [discriminate|].
  simpl. intros [= <-]. inversion H as [|? ? Hx _]; subst.
  destruct x as [|a [|b [|c [|d [|e x]]]]]; try discriminate. eauto.
Qed.

(** ** Computations *)

Section Properties.

Context {E : Env}.

Lemma bind_res {A B} (m : M A) (k : A -> M B) (w : World) :
  res (bind m k w) =
  match res (m w) with
  | Return a => res (k a (world_after (m w)))
  | Raise e => Raise e
  end.
Proof. unfold bind. now destruct (res (m w)). Qed.

Lemma bind_events {A B} (m : M A) (k : A -> M B) (w : World) :
  events (bind m k w) =
  events (m w) ++
  match res (m w) with
  | Return a => events (k a (world_after (m w)))
  | Raise _ => []
  end.
Proof.
  unfold bind. destruct (res (m w)); simpl; [reflexivity|].
  now rewrite app_nil_r.
Qed.

Lemma bind_world {A B} (m : M A) (k : A -> M B) (w : World) :
  world_after (bind m k w) =
  match res (m w) with
  | Return a => world_after (k a (world_after (m w)))
  | Raise _ => world_after (m w)
  end.
Proof. unfold bind. now destruct (res (m w)). Qed.

Lemma run_spec (cmd : list pystr) (w : World) :
  run cmd w =
  {| res := if exited_zero (fst (subprocess_run cmd w))
            then Return (match fst (subprocess_run cmd w) with
                         | inl (Exited _ out _) => out
                         | _ => []
                         end)
            else Raise (run_error cmd (fst (subprocess_run cmd w)));
     world_after := snd (subprocess_run cmd w);
     events := [ESpawn cmd (fst (subprocess_run cmd w))] |}.
Proof.
  unfold run, bind, effect.
  destruct (subprocess_run cmd w) as [[[rc out err|rc]|m] w']; simpl;
    [destruct (rc =? 0)%Z| |]; reflexivity.
Qed.

(** A chain of [run] calls behaves as [ran] says. *)
Lemma run_all_ran (cmds : list (list pystr)) (w : World) :
  ran cmds (events (run_all cmds w)) (res (run_all cmds w)).
Proof.
  revert w; induction cmds as [|c cs IH]; intros w; simpl.
  - constructor.
  - rewrite bind_events, bind_res, run_spec. simpl.
    destruct (exited_zero (fst (subprocess_run c w))) eqn:Hz.
    + apply ran_next; [exact Hz|apply IH].
    + now apply ran_stop.
Qed.

Lemma ran_spawned (cmds : list (list pystr)) (evs : list event)
    (r : result unit) :
  ran cmds evs r -> spawned evs = firstn (length evs) cmds.
Proof.
  induction 1 as [|c cs r evs res _ _ IH|c cs r _]; simpl;
    [reflexivity| |reflexivity].
  now rewrite <- IH.
Qed.

Lemma ran_returned (cmds : list (list pystr)) (evs : list event)
    (r : result unit) :
  ran cmds evs r -> forall v, r = Return v -> spawned evs = cmds.
Proof.
  induction 1 as [|c cs r evs res _ _ IH|c cs r _]; simpl; intros v Hv;
    [reflexivity| |discriminate].
  now rewrite (IH v Hv).
Qed.

Lemma ran_all_ok (cmds : list (list pystr)) (evs : list event)
    (r : result unit) :
  ran cmds evs r -> existsb spawn_failed evs = false -> r = Return tt.
Proof.
  induction 1 as [|c cs r evs res Hz _ IH|c cs r Hz]; simpl.
  - reflexivity.
  - rewrite Hz. simpl. exact IH.
  - rewrite Hz. discriminate.
Qed.

(** The command that fails is the last one, and its error is the result. *)
Lemma ran_failure_last (cmds : list (list pystr)) (evs : list event)
    (r : result unit) :
  ran cmds evs r ->
  forall c rr, In (ESpawn c rr) evs -> exited_zero rr = false ->
  exists pre, evs = pre ++ [ESpawn c rr] /\ r = Raise (run_error c rr).
Proof.
  induction 1 as [|c cs r evs res Hz _ IH|c cs r Hz]; simpl; intros c' rr Hin Hrr.
  - contradiction.
  - destruct Hin as [[= -> ->]|Hin]; [congruence|].
    destruct (IH _ _ Hin Hrr) as (pre & -> & ->).
    now exists (ESpawn c r :: pre).
  - destruct Hin as [[= -> ->]|[]]. now exists [].
Qed.

Lemma ran_only_spawns (cmds : list (list pystr)) (evs : list event)
    (r : result unit) :
  ran cmds evs r ->
  Forall (fun e => exists c rr, e = ESpawn c rr /\ In c cmds) evs.
Proof.
  induction 1 as [|c cs r evs res _ _ IH|c cs r _]; constructor.
  - exists c, r. split; [reflexivity|now left].
  - eapply Forall_impl; [|exact IH].
    intros e (c' & rr & -> & Hin). exists c', rr. split; [reflexivity|now right].
  - exists c, r. split; [reflexivity|now left].
  - constructor.
Qed.

(** ** The extent prober *)

Lemma ogrinfo_bounds_total (p : Path) (w : World) :
  exists b,
    ogrinfo_bounds p w =
    {| res := Return b;
       world_after := snd (subprocess_run (ogrinfo_cmd p) w);
       events := [ESpawn (ogrinfo_cmd p)
                    (fst (subprocess_run (ogrinfo_cmd p) w))] |}.
Proof.
  unfold ogrinfo_bounds, try_except, ogrinfo_bounds_try, bind.
  rewrite run_spec. simpl.
  destruct (exited_zero (fst (subprocess_run (ogrinfo_cmd p) w))); simpl;
    [|eexists; reflexivity].
  destruct (json_loads _) as [j|]; simpl; [|eexists; reflexivity].
  destruct (find_extent j) as [[|e0 [|e1 [|e2 [|e3 [|e4 l]]]]]|]; simpl;
    try (eexists; reflexivity).
  destruct (py_float e0); simpl; [|eexists; reflexivity].
  destruct (py_float e1); simpl; [|eexists; reflexivity].
  destruct (py_float e2); simpl; [|eexists; reflexivity].
  destruct (py_float e3); simpl; eexists; reflexivity.
Qed.

Lemma coerce_floats_raise (l : list json) (x : json) (e : exn) :
  In x l -> py_float x = Raise e -> coerce_floats l = None.
Proof.
  induction l as [|v l IH]; simpl; [contradiction|].
  intros [->|Hin] Hx.
  - now rewrite Hx.
  - destruct (py_float v); [|reflexivity]. now rewrite (IH Hin Hx).
Qed.

(** What the prober gives once the tool has exited with status zero and
    its report has been parsed. *)
Lemma ogrinfo_bounds_value (p : Path) (w : World) (out err : pystr) (j : json) :
  fst (subprocess_run (ogrinfo_cmd p) w) = inl (Exited 0 out err) ->
  json_loads out = Some j ->
  res (ogrinfo_bounds p w) =
  Return (match hd_error (extents_preorder j) with
          | Some l => coerce_floats l
          | None => None
          end).
Proof.
  intros Hrun Hj. rewrite <- find_extent_preorder.
  unfold ogrinfo_bounds, try_except, ogrinfo_bounds_try, bind.
  rewrite run_spec, Hrun. simpl. rewrite Hj. simpl.
  pose proof (find_extent_four j) as H4.
  destruct (find_extent j) as [l|]; [|reflexivity].
  destruct (H4 l eq_refl) as (a & b & c & d & ->). simpl.
  destruct (py_float a); simpl; [|reflexivity].
  destruct (py_float b); simpl; [|reflexivity].
  destruct (py_float c); simpl; [|reflexivity].
  destruct (py_float d); reflexivity.
Qed.

Lemma ogrinfo_bounds_tool_failed (p : Path) (w : World) :
  exited_zero (fst (subprocess_run (ogrinfo_cmd p) w)) = false ->
  res (ogrinfo_bounds p w) = Return None.
Proof.
  intros Hz. unfold ogrinfo_bounds, try_except, ogrinfo_bounds_try, bind.
  rewrite run_spec, Hz. reflexivity.
Qed.

Lemma ogrinfo_bounds_unparseable (p : Path) (w : World) (out err : pystr) :
  fst (subprocess_run (ogrinfo_cmd p) w) = inl (Exited 0 out err) ->
  json_loads out = None ->
  res (ogrinfo_bounds p w) = Return None.
Proof.
  intros Hrun Hj. unfold ogrinfo_bounds, try_except, ogrinfo_bounds_try, bind.
  rewrite run_spec, Hrun. simpl. rewrite Hj. reflexivity.
Qed.

(** ** [ensure_pmtiles] as a plan *)

Lemma unpack_result (upload_path work : Path) (w : World) :
  let unzip_dir := work // lit "unzipped" in
  let w1 := snd (mkdir unzip_dir false w) in
  let r := fst (subprocess_run (unzip_cmd upload_path unzip_dir) w1) in
  let w2 := snd (subprocess_run (unzip_cmd upload_path unzip_dir) w1) in
  unpack upload_path work w =
  match fst (mkdir unzip_dir false w) with
  | Some m =>
      {| res := Raise (OSError m); world_after := w1;
         events := [EMkdir unzip_dir (Some m)] |}
  | None =>
      {| res := if exited_zero r then selected unzip_dir w2
                else Raise (run_error (unzip_cmd upload_path unzip_dir) r);
         world_after := w2;
         events := [EMkdir unzip_dir None;
                    ESpawn (unzip_cmd upload_path unzip_dir) r] |}
  end.
Proof.
  intros unzip_dir w1 r w2. subst w1 r w2.
  unfold unpack, selected, rglob_first. fold unzip_dir.
  unfold bind, effect, check.
  destruct (mkdir unzip_dir false w) as [[m|] w1]; simpl; [reflexivity|].
  rewrite run_spec. simpl.
  destruct (exited_zero _); simpl; [|reflexivity].
  unfold query; simpl.
  destruct (lazy_first first_shp _ _) as [[shp|]|e]; simpl;
    try reflexivity.
  destruct (lazy_first first_file _ _) as [[f|]|e]; reflexivity.
Qed.

(** When neither walk breaks off, the member is the one [select_member]
    picks from the entries, and without one the unpacking raises
    [empty_zip]. *)
Lemma selected_complete (d : Path) (w : World) :
  walk_breaks (lit "*.shp") d w = None ->
  walk_breaks (lit "*") d w = None ->
  selected d w = match select_member (walk d w) with
                 | Some member => Return member
                 | None => Raise empty_zip
                 end.
Proof.
  intros H1 H2. unfold selected, select_member. rewrite H1, H2. simpl.
  destruct (first_shp _); [reflexivity|]. now destruct (first_file _).
Qed.

(** The errors the two walks can end in. *)
Lemma selected_raises (d : Path) (w : World) (e : exn) :
  selected d w = Raise e ->
  (e = empty_zip /\ first_shp (walk d w) = None
   /\ first_file (walk d w) = None)
  \/ (exists pattern n f,
        walk_breaks pattern d w = Some (n, f) /\ e = walk_exn f).
Proof.
  unfold selected, lazy_first.
  destruct (walk_breaks (lit "*.shp") d w) as [[n f]|] eqn:H1.
  - destruct (first_shp (firstn n _)); [discriminate|].
    intros [= <-]. right. now exists (lit "*.shp"), n, f.
  - destruct (first_shp _) eqn:Hs; [discriminate|].
    destruct (walk_breaks (lit "*") d w) as [[n f]|] eqn:H2.
    + destruct (first_file (firstn n _)); [discriminate|].
      intros [= <-]. right. now exists (lit "*"), n, f.
    + destruct (first_file _) eqn:Hf; [discriminate|].
      intros [= <-]. now left.
Qed.

Lemma ensure_pmtiles_passthrough (upload_path : Path) (bundle_name : pystr)
    (work : Path) (w : World) :
  lower (suffix upload_path) = lit ".pmtiles" ->
  ensure_pmtiles upload_path bundle_name work w =
  {| res := Return (upload_path, None); world_after := w; events := [] |}.
Proof. intros H. unfold ensure_pmtiles. rewrite H. reflexivity. Qed.

Lemma ensure_pmtiles_mbtiles (upload_path : Path) (bundle_name : pystr)
    (work : Path) (w : World) :
  lower (suffix upload_path) = lit ".mbtiles" ->
  let pm := work // (safe_name bundle_name ++ lit ".pmtiles") in
  ensure_pmtiles upload_path bundle_name work w =
  bind (run_all [pmtiles_cmd upload_path pm]) (fun _ => ret (pm, None)) w.
Proof.
  intros H pm. unfold ensure_pmtiles. rewrite H. simpl. fold pm.
  unfold mbtiles_to_pmtiles, run_all, bind. rewrite run_spec. simpl.
  destruct (exited_zero _); reflexivity.
Qed.

Lemma bind_ext {A B} (m : M A) (k1 k2 : A -> M B) (w : World) :
  (forall a w', k1 a w' = k2 a w') -> bind m k1 w = bind m k2 w.
Proof.
  intros H. unfold bind. destruct (res (m w)); [now rewrite H|reflexivity].
Qed.

Lemma bind_ret_l {A B} (a : A) (k : A -> M B) (w : World) :
  bind (ret a) k w = k a w.
Proof. unfold bind, ret. simpl. now destruct (k a w). Qed.

Lemma bind_assoc {A B C} (m : M A) (f : A -> M B) (g : B -> M C) (w : World) :
  bind (bind m f) g w = bind m (fun a => bind (f a) g) w.
Proof.
  unfold bind. destruct (res (m w)) as [a|e]; simpl; [|reflexivity].
  destruct (res (f a (world_after (m w)))); simpl; [|reflexivity].
  now rewrite app_assoc.
Qed.

Ltac monad_norm :=
  repeat first [ rewrite bind_assoc | rewrite bind_ret_l
               | apply bind_ext; intros ].

Lemma ensure_pmtiles_staged (upload_path : Path) (bundle_name : pystr)
    (work : Path) (w : World) :
  let ext := lower (suffix upload_path) in
  eqb ext (lit ".pmtiles") = false ->
  eqb ext (lit ".mbtiles") = false ->
  ensure_pmtiles upload_path bundle_name work w =
  staged (if eqb ext (lit ".zip") then unpack upload_path work
          else ret upload_path)
    (stage_cmds ext upload_path work bundle_name)
    (work // (safe_name bundle_name ++ lit ".pmtiles")) w.
Proof.
  intros ext Hpm Hmb. unfold ensure_pmtiles, staged. fold ext.
  rewrite Hpm, Hmb.
  apply bind_ext; intros src w1. apply bind_ext; intros b w2.
  unfold stage_cmds, convert_to_geojson, tippecanoe_to_mbtiles,
    mbtiles_to_pmtiles, run_all.
  destruct (eqb ext (lit ".geojson") || eqb ext (lit ".json"));
    monad_norm; reflexivity.
Qed.

Lemma staged_outcome (dataset : M Path) (cmds : Path -> list (list pystr))
    (pm : Path) (w : World) :
  let o := staged dataset cmds pm w in
  match res (dataset w) with
  | Raise e => res o = Raise e /\ events o = events (dataset w)
  | Return src =>
      let w1 := world_after (dataset w) in
      exists b evs r,
        res (ogrinfo_bounds src w1) = Return b
        /\ ran (cmds src) evs r
        /\ events o =
           events (dataset w) ++
           ESpawn (ogrinfo_cmd src) (fst (subprocess_run (ogrinfo_cmd src) w1))
           :: evs
        /\ res o = match r with
                   | Return _ => Return (pm, b)
                   | Raise e => Raise e
                   end
  end.
Proof.
  intros o. subst o. unfold staged.
  rewrite bind_res, bind_events.
  destruct (res (dataset w)) as [src|e]; [|now rewrite app_nil_r].
  cbv beta zeta. set (w1 := world_after (dataset w)).
  destruct (ogrinfo_bounds_total src w1) as [b Hb].
  exists b, (events (run_all (cmds src) (world_after (ogrinfo_bounds src w1)))),
    (res (run_all (cmds src) (world_after (ogrinfo_bounds src w1)))).
  split; [now rewrite Hb|]. split; [apply run_all_ran|].
  rewrite bind_res, bind_events, Hb. cbn [res events world_after].
  rewrite bind_res, bind_events.
  split.
  - simpl. do 2 f_equal.
    destruct (res (run_all _ _)); simpl; now rewrite app_nil_r.
  - now destruct (res (run_all _ _)).
Qed.

(** ** Stages and routes *)

Lemma stages_run_probe (p : Path) (r : completed + pystr) (evs : list event) :
  stages_run (ESpawn (ogrinfo_cmd p) r :: evs) = stages_run evs.
Proof. reflexivity. Qed.

Lemma stages_run_app (a b : list event) :
  stages_run (a ++ b) = stages_run a ++ stages_run b.
Proof. unfold stages_run, spawned. now rewrite !flat_map_app. Qed.

Lemma probes_app (a b : list event) : probes (a ++ b) = probes a ++ probes b.
Proof. unfold probes, spawned. now rewrite flat_map_app, filter_app. Qed.

(** The stages of the commands [stage_cmds] lists are those of the route. *)
Lemma stage_cmds_route (ext : pystr) (upload_path work : Path)
    (bundle_name : pystr) (src : Path) (k : nat) :
  eqb ext (lit ".pmtiles") = false ->
  eqb ext (lit ".mbtiles") = false ->
  flat_map (fun c => match stage_of_cmd c with Some s => [s] | None => [] end)
    (firstn k (stage_cmds ext upload_path work bundle_name src)) =
  firstn k (stages_of_route (route_of_ext ext)).
Proof.
  intros Hpm Hmb. unfold stage_cmds, route_of_ext. rewrite Hpm, Hmb.
  destruct (eqb ext (lit ".geojson")), (eqb ext (lit ".json")); simpl;
    destruct k as [|[|[|[|k]]]]; reflexivity.
Qed.

Lemma stage_cmds_are_stages (ext : pystr) (upload_path work : Path)
    (bundle_name : pystr) (src : Path) (c : list pystr) :
  In c (stage_cmds ext upload_path work bundle_name src) ->
  exists s, stage_of_cmd c = Some s.
Proof.
  unfold stage_cmds.
  destruct (eqb ext (lit ".geojson") || eqb ext (lit ".json")); simpl;
    intros H; repeat destruct H as [<-|H]; try contradiction;
    eexists; reflexivity.
Qed.

(** On the events of a chain of stage commands, a failed stage is a failed
    process. *)
Lemma ran_stage_failed (cmds : list (list pystr)) (evs : list event)
    (r : result unit) :
  (forall c, In c cmds -> exists s, stage_of_cmd c = Some s) ->
  ran cmds evs r ->
  existsb stage_failed evs = existsb spawn_failed evs.
Proof.
  intros Hst Hran. apply ran_only_spawns in Hran.
  induction Hran as [|e evs (c & rr & -> & Hin) _ IH]; simpl; [reflexivity|].
  destruct (Hst c Hin) as [s ->]. now rewrite IH.
Qed.

Lemma firstn_firstn_length {A} (l : list A) (n : nat) :
  firstn (length (firstn n l)) l = firstn n l.
Proof.
  revert l; induction n as [|n IH]; intros [|a l]; simpl; try reflexivity.
  now rewrite IH.
Qed.

Lemma stage_cmds_route_all (ext : pystr) (upload_path work : Path)
    (bundle_name : pystr) (src : Path) :
  eqb ext (lit ".pmtiles") = false ->
  eqb ext (lit ".mbtiles") = false ->
  flat_map (fun c => match stage_of_cmd c with Some s => [s] | None => [] end)
    (stage_cmds ext upload_path work bundle_name src) =
  stages_of_route (route_of_ext ext).
Proof.
  intros Hpm Hmb. unfold stage_cmds, route_of_ext. rewrite Hpm, Hmb.
  destruct (eqb ext (lit ".geojson")), (eqb ext (lit ".json")); reflexivity.
Qed.

(** The four ways through [ensure_pmtiles]. *)
Lemma ensure_pmtiles_shape (upload_path : Path) (bundle_name : pystr)
    (work : Path) (w : World) :
  let ext := lower (suffix upload_path) in
  let pm := work // (safe_name bundle_name ++ lit ".pmtiles") in
  let o := ensure_pmtiles upload_path bundle_name work w in
  (ext = lit ".pmtiles"
   /\ o = {| res := Return (upload_path, None); world_after := w;
             events := [] |})
  \/ (ext = lit ".mbtiles"
      /\ exists evs r,
           ran [pmtiles_cmd upload_path pm] evs r
           /\ events o = evs
           /\ res o = match r with
                      | Return _ => Return (pm, None)
                      | Raise e => Raise e
                      end)
  \/ (eqb ext (lit ".pmtiles") = false /\ eqb ext (lit ".mbtiles") = false
      /\ eqb ext (lit ".zip") = false
      /\ exists b evs r,
           res (ogrinfo_bounds upload_path w) = Return b
           /\ ran (stage_cmds ext upload_path work bundle_name upload_path) evs r
           /\ events o =
              ESpawn (ogrinfo_cmd upload_path)
                (fst (subprocess_run (ogrinfo_cmd upload_path) w)) :: evs
           /\ res o = match r with
                      | Return _ => Return (pm, b)
                      | Raise e => Raise e
                      end)
  \/ (ext = lit ".zip"
      /\ match res (unpack upload_path work w) with
         | Raise e =>
             res o = Raise e /\ events o = events (unpack upload_path work w)
         | Return member =>
             let w1 := world_after (unpack upload_path work w) in
             exists b evs r,
               res (ogrinfo_bounds member w1) = Return b
               /\ ran (stage_cmds ext upload_path work bundle_name member) evs r
               /\ events o =
                  events (unpack upload_path work w) ++
                  ESpawn (ogrinfo_cmd member)
                    (fst (subprocess_run (ogrinfo_cmd member) w1)) :: evs
               /\ res o = match r with
                          | Return _ => Return (pm, b)
                          | Raise e => Raise e
                          end
         end).
Proof.
  intros ext pm o.
  destruct (eqb ext (lit ".pmtiles")) eqn:Hpm.
  { left. apply eqb_eq in Hpm. split; [exact Hpm|].
    now apply ensure_pmtiles_passthrough. }
  destruct (eqb ext (lit ".mbtiles")) eqn:Hmb.
  { right; left. apply eqb_eq in Hmb. split; [exact Hmb|].
    subst o. rewrite (@ensure_pmtiles_mbtiles upload_path bundle_name work w Hmb).
    fold pm.
    exists (events (run_all [pmtiles_cmd upload_path pm] w)),
      (res (run_all [pmtiles_cmd upload_path pm] w)).
    split; [apply run_all_ran|]. rewrite bind_events, bind_res.
    destruct (res (run_all _ w)); simpl; now rewrite app_nil_r. }
  pose proof (@ensure_pmtiles_staged upload_path bundle_name work w Hpm Hmb)
    as Hst.
  fold ext pm o in Hst.
  pose proof (@staged_outcome
                (if eqb ext (lit ".zip") then unpack upload_path work
                 else ret upload_path)
                (stage_cmds ext upload_path work bundle_name) pm w) as Hout.
  cbv zeta in Hout. rewrite <- Hst in Hout. clear Hst.
  destruct (eqb ext (lit ".zip")) eqn:Hzip.
  - right; right; right. apply eqb_eq in Hzip. split; [exact Hzip|].
    exact Hout.
  - right; right; left. repeat split; try reflexivity. exact Hout.
Qed.

Lemma route_not_passthrough (ext : pystr) :
  eqb ext (lit ".pmtiles") = false -> route_of_ext ext <> PassThrough.
Proof.
  intros H. unfold route_of_ext. rewrite H.
  destruct (eqb ext (lit ".mbtiles")), (eqb ext (lit ".geojson")),
    (eqb ext (lit ".json")); discriminate.
Qed.

(** The stages started by a chain of stage commands form a prefix of the
    stages of the route, the whole of it when the chain returns, and the
    chain returns when no stage fails. *)
Lemma ran_stage_cmds (ext : pystr) (upload_path work : Path)
    (bundle_name : pystr) (src : Path) (evs : list event) (r : result unit) :
  eqb ext (lit ".pmtiles") = false ->
  eqb ext (lit ".mbtiles") = false ->
  ran (stage_cmds ext upload_path work bundle_name src) evs r ->
  stages_run evs = firstn (length evs) (stages_of_route (route_of_ext ext))
  /\ ((exists v, r = Return v) ->
      stages_run evs = stages_of_route (route_of_ext ext))
  /\ (existsb stage_failed evs = false -> r = Return tt).
Proof.
  intros Hpm Hmb Hran. repeat split.
  - unfold stages_run. rewrite (ran_spawned Hran).
    now apply stage_cmds_route.
  - intros [v Hv]. unfold stages_run. rewrite (ran_returned Hran Hv).
    now apply stage_cmds_route_all.
  - intros Hok. apply (ran_all_ok Hran).
    rewrite <- Hok. symmetry. eapply ran_stage_failed; [|exact Hran].
    intros c Hc. eapply stage_cmds_are_stages; exact Hc.
Qed.

Lemma ran_single (c : list pystr) (evs : list event) (r : result unit) :
  ran [c] evs r ->
  exists rr, evs = [ESpawn c rr]
             /\ (exited_zero rr = true /\ r = Return tt
                 \/ exited_zero rr = false /\ r = Raise (run_error c rr)).
Proof.
  intros H. inversion H; subst.
  - match goal with H' : ran [] _ _ |- _ => inversion H'; subst end.
    eexists; split; [reflexivity|]. now left.
  - eexists; split; [reflexivity|]. now right.
Qed.

(** C1. For an upload that is not a [.zip], the stages that run are those
    of the route its lower-cased extension selects, whatever the world
    (and so the content of the file) is: the stages started are a prefix
    of the route's stage list in order, all of them when the pipeline
    returns, and the pipeline returns when no stage fails.  [.pmtiles]
    starts nothing, probes nothing and gives back the upload path;
    [.mbtiles] has the single TileDatabase-to-Archive stage; [.geojson]
    and [.json] skip the generic conversion; every other extension has
    the three stages. *)
Theorem C1_route_from_extension (upload_path : Path) (bundle_name : pystr)
    (work : Path) (w : World) :
  let ext := lower (suffix upload_path) in
  let o := ensure_pmtiles upload_path bundle_name work w in
  eqb ext (lit ".zip") = false ->
  (exists k, stages_run (events o) =
             firstn k (stages_of_route (route_of_ext ext)))
  /\ ((exists v, res o = Return v) ->
      stages_run (events o) = stages_of_route (route_of_ext ext))
  /\ (existsb stage_failed (events o) = false -> exists v, res o = Return v)
  /\ (route_of_ext ext = PassThrough ->
      o = {| res := Return (upload_path, None); world_after := w;
             events := [] |}).
Proof.
  intros ext o Hzip.
  pose proof (ensure_pmtiles_shape upload_path bundle_name work w) as Hshape.
  cbv zeta in Hshape. fold ext in Hshape. fold o in Hshape.
  destruct Hshape
    as [[Hext Ho]|[[Hext (evs & r & Hran & Hev & Hres)]
       |[(Hpm & Hmb & _ & b & evs & r & _ & Hran & Hev & Hres)|[Hext _]]]].
  - rewrite Hext, Ho. simpl. split; [now exists 0|]. repeat split; eauto.
  - rewrite Hext, Hev, Hres. change (route_of_ext (lit ".mbtiles"))
      with FromTileDatabase.
    destruct (ran_single Hran) as (rr & -> & [[Hz ->]|[Hz ->]]); simpl.
    + split; [now exists 1|]. split; [reflexivity|].
      split; [eauto|discriminate].
    + split; [now exists 1|]. split; [intros [v Hv]; discriminate|].
      split; [rewrite Hz; discriminate|discriminate].
  - destruct (@ran_stage_cmds _ _ _ _ _ _ _ Hpm Hmb Hran) as (H1 & H2 & H3).
    rewrite Hev, Hres, stages_run_probe.
    split; [eexists; exact H1|]. split; [|split].
    + intros [v Hv]. apply H2. destruct r; [eauto|discriminate].
    + simpl. intros Hok. rewrite (H3 Hok). eauto.
    + intros Hr. now apply route_not_passthrough in Hr.
  - rewrite Hext in Hzip. discriminate.
Qed.

(** ** Probes *)

Lemma ran_nonempty (c : list pystr) (cs : list (list pystr))
    (evs : list event) (r : result unit) :
  ran (c :: cs) evs r -> exists rr evs', evs = ESpawn c rr :: evs'.
Proof. intros H. inversion H; subst; eauto. Qed.

Lemma stage_cmds_nonempty (ext : pystr) (upload_path work : Path)
    (bundle_name : pystr) (src : Path) :
  exists c cs, stage_cmds ext upload_path work bundle_name src = c :: cs
               /\ exists s, stage_of_cmd c = Some s.
Proof.
  unfold stage_cmds.
  destruct (eqb ext (lit ".geojson") || eqb ext (lit ".json"));
    do 2 eexists; (split; [reflexivity|eexists; reflexivity]).
Qed.

Lemma stage_not_probe (c : list pystr) (s : stage) :
  stage_of_cmd c = Some s -> eqb (program c) (lit "ogrinfo") = false.
Proof.
  unfold stage_of_cmd.
  destruct (eqb (program c) (lit "ogr2ogr")) eqn:H1;
    [apply eqb_eq in H1; now rewrite H1|].
  destruct (eqb (program c) (lit "tippecanoe")) eqn:H2;
    [apply eqb_eq in H2; now rewrite H2|].
  destruct (eqb (program c) (lit "pmtiles")) eqn:H3;
    [apply eqb_eq in H3; now rewrite H3|discriminate].
Qed.

Lemma ran_no_probe (cmds : list (list pystr)) (evs : list event)
    (r : result unit) :
  (forall c, In c cmds -> exists s, stage_of_cmd c = Some s) ->
  ran cmds evs r -> probes evs = [].
Proof.
  intros Hst Hran. apply ran_only_spawns in Hran.
  induction Hran as [|e evs (c & rr & -> & Hin) _ IH]; [reflexivity|].
  destruct (Hst c Hin) as [s Hs]. unfold probes in *. simpl.
  now rewrite (stage_not_probe _ Hs).
Qed.

Lemma probes_probe (p : Path) (r : completed + pystr) (evs : list event) :
  probes (ESpawn (ogrinfo_cmd p) r :: evs) = ogrinfo_cmd p :: probes evs.
Proof. reflexivity. Qed.

Lemma unpack_events (upload_path work : Path) (w : World) :
  probes (events (unpack upload_path work w)) = []
  /\ stages_run (events (unpack upload_path work w)) = []
  /\ (forall member, res (unpack upload_path work w) = Return member ->
      spawned (events (unpack upload_path work w)) =
      [unzip_cmd upload_path (work // lit "unzipped")]).
Proof.
  pose proof (unpack_result upload_path work w) as H. cbv zeta in H.
  rewrite H. destruct (fst (mkdir _ false w)); simpl.
  - repeat split. discriminate.
  - repeat split.
Qed.


(** ** Container uploads *)

Lemma spawned_app (a b : list event) : spawned (a ++ b) = spawned a ++ spawned b.
Proof. unfold spawned. now rewrite flat_map_app. Qed.

Lemma stage_cmds_zip (upload_path work : Path) (bundle_name : pystr)
    (src : Path) :
  stage_cmds (lit ".zip") upload_path work bundle_name src =
  [ogr2ogr_cmd (work // lit "converted.geojson") src;
   tippecanoe_cmd (work // lit "out.mbtiles") (safe_name bundle_name)
     (work // lit "converted.geojson");
   pmtiles_cmd (work // lit "out.mbtiles")
     (work // (safe_name bundle_name ++ lit ".pmtiles"))].
Proof. reflexivity. Qed.

(** C2 (as the code has it). A [.zip] upload always takes the route
    FromGenericOgr, whatever the extension of the selected member is: the
    stages started are a prefix of the three stages, all three when the
    pipeline returns; and once a member is selected, the probe and then the
    Generic-to-Interchange stage are started on that member. *)
Theorem C2_zip_always_generic (upload_path : Path) (bundle_name : pystr)
    (work : Path) (w : World) :
  let o := ensure_pmtiles upload_path bundle_name work w in
  lower (suffix upload_path) = lit ".zip" ->
  (exists k, stages_run (events o) =
             firstn k (stages_of_route FromGenericOgr))
  /\ ((exists v, res o = Return v) ->
      stages_run (events o) = stages_of_route FromGenericOgr)
  /\ (forall member, res (unpack upload_path work w) = Return member ->
      exists k,
        spawned (events o) =
        unzip_cmd upload_path (work // lit "unzipped")
        :: ogrinfo_cmd member
        :: firstn (S k)
             (stage_cmds (lit ".zip") upload_path work bundle_name member)
        /\ hd_error (stage_cmds (lit ".zip") upload_path work bundle_name member)
           = Some (ogr2ogr_cmd (work // lit "converted.geojson") member)).
Proof.
  intros o Hext.
  pose proof (ensure_pmtiles_shape upload_path bundle_name work w) as Hshape.
  cbv zeta in Hshape. fold o in Hshape. rewrite Hext in Hshape.
  destruct Hshape as [[Hx _]|[[Hx _]|[(_ & _ & Hx & _)|[_ Hzip]]]];
    try discriminate.
  destruct (unpack_events upload_path work w) as (_ & Hs & Hsp).
  destruct (res (unpack upload_path work w)) as [member|e].
  - destruct Hzip as (b & evs & r & _ & Hran & Hev & Hres).
    assert (Hpm : eqb (lit ".zip") (lit ".pmtiles") = false) by reflexivity.
    assert (Hmb : eqb (lit ".zip") (lit ".mbtiles") = false) by reflexivity.
    destruct (@ran_stage_cmds _ _ _ _ _ _ _ Hpm Hmb Hran) as (H1 & H2 & _).
    change (route_of_ext (lit ".zip")) with FromGenericOgr in *.
    rewrite Hev, Hres, stages_run_app, Hs, stages_run_probe. simpl app.
    split; [eexists; exact H1|]. split.
    + intros [v Hv]. apply H2. destruct r; [eauto|discriminate].
    + intros m [= <-]. pose proof Hran as Hran'.
      rewrite stage_cmds_zip in Hran'.
      destruct (ran_nonempty Hran') as (rr & evs' & ->).
      exists (length evs'). split; [|reflexivity].
      rewrite spawned_app, (Hsp _ eq_refl).
      change (spawned (?e :: ?l)) with (spawned [e] ++ spawned l).
      now rewrite (ran_spawned Hran).
  - destruct Hzip as [Hres Hev]. rewrite Hev, Hs, Hres.
    split; [now exists 0|]. split; [intros [v Hv]; discriminate|].
    discriminate.
Qed.

(** ** The working directory *)

Lemma joinpath_long (d : Path) (s : pystr) :
  2 <= length s -> d // s = d ++ [s].
Proof.
  intros H. unfold joinpath.
  destruct s as [|a [|b s]]; simpl in H; try lia.
  simpl. now rewrite andb_false_r.
Qed.

Lemma safe_name_nonempty (s : pystr) : 1 <= length (safe_name s).
Proof.
  pose proof (safe_name_matches s) as H.
  apply matches_token_spec in H. lia.
Qed.

Lemma joinpath_pmtiles (d : Path) (bundle_name : pystr) :
  d // (safe_name bundle_name ++ lit ".pmtiles") =
  d ++ [safe_name bundle_name ++ lit ".pmtiles"].
Proof.
  apply joinpath_long. rewrite length_app.
  pose proof (safe_name_nonempty bundle_name). simpl. lia.
Qed.

Lemma is_under_app (d : Path) (s : pystr) : is_under d (d ++ [s]) = true.
Proof.
  induction d as [|c d IH]; simpl; [reflexivity|].
  now rewrite eqb_refl.
Qed.

Lemma within_app (d l : Path) : within d (d ++ l) = true.
Proof.
  induction d as [|c d IH]; simpl; [reflexivity|].
  now rewrite eqb_refl.
Qed.

Lemma within_joinpath (d : Path) (s : pystr) : within d (d // s) = true.
Proof.
  unfold joinpath. destruct (eqb s [] || eqb s (lit ".")).
  - rewrite <- (app_nil_r d) at 2. apply within_app.
  - apply within_app.
Qed.

Lemma writes_below_stage_cmds (ext : pystr) (upload_path work : Path)
    (bundle_name : pystr) (src : Path) :
  Forall (writes_below work)
    (stage_cmds ext upload_path work bundle_name src).
Proof.
  unfold stage_cmds. rewrite joinpath_pmtiles.
  destruct (eqb ext (lit ".geojson") || eqb ext (lit ".json"));
    repeat constructor; intros s [= <-]; eexists;
    (split; [reflexivity|apply is_under_app]).
Qed.

Lemma ran_spawned_Forall (P : list pystr -> Prop) (cmds : list (list pystr))
    (evs : list event) (r : result unit) :
  ran cmds evs r -> Forall P cmds -> Forall P (spawned evs).
Proof.
  induction 1 as [|c cs r evs res _ _ IH|c cs r _]; intros HP; simpl.
  - constructor.
  - inversion HP; subst. constructor; [assumption|now apply IH].
  - inversion HP; subst. now repeat constructor.
Qed.

Lemma writes_below_probe (work p : Path) : writes_below work (ogrinfo_cmd p).
Proof. intros s. discriminate. Qed.

Lemma writes_below_unpack (upload_path work : Path) (w : World) :
  Forall (writes_below work) (spawned (events (unpack upload_path work w))).
Proof.
  pose proof (unpack_result upload_path work w) as H. cbv zeta in H.
  rewrite H. destruct (fst (mkdir _ false w)); simpl; repeat constructor.
  intros s [= <-]. eexists. split; [reflexivity|apply is_under_app].
Qed.


(** ** The extent prober, continued *)

Lemma probe_then_stage (upload_path : Path) (bundle_name : pystr)
    (work : Path) (w : World) :
  let o := ensure_pmtiles upload_path bundle_name work w in
  probes (events o) <> [] ->
  exists pre src rp c rr post s,
    events o = pre ++ ESpawn (ogrinfo_cmd src) rp :: ESpawn c rr :: post
    /\ stage_of_cmd c = Some s.
Proof.
  intros o Hprobe.
  pose proof (ensure_pmtiles_shape upload_path bundle_name work w) as Hshape.
  cbv zeta in Hshape. fold o in Hshape.
  assert (Hnext : forall ext src evs r,
             ran (stage_cmds ext upload_path work bundle_name src) evs r ->
             exists c rr post s,
               evs = ESpawn c rr :: post /\ stage_of_cmd c = Some s).
  { intros ext src evs r Hran.
    destruct (stage_cmds_nonempty ext upload_path work bundle_name src)
      as (c & cs & Hc & s & Hs).
    rewrite Hc in Hran. destruct (ran_nonempty Hran) as (rr & post & ->).
    now exists c, rr, post, s. }
  destruct Hshape
    as [[Hext Ho]|[[Hext (evs & r & Hran & Hev & Hres)]
       |[(Hpm & Hmb & Hzip & b & evs & r & Hb & Hran & Hev & Hres)
        |[Hext Hzip]]]].
  - rewrite Ho in Hprobe. now contradiction Hprobe.
  - rewrite Hev in Hprobe. contradiction Hprobe.
    apply (ran_no_probe (cmds := [pmtiles_cmd upload_path
             (work // (safe_name bundle_name ++ lit ".pmtiles"))])
             (evs := evs) (r := r)); [|exact Hran].
    intros c [<-|[]]. eexists; reflexivity.
  - destruct (Hnext _ _ _ _ Hran) as (c & rr & post & s & -> & Hs).
    exists [], upload_path, (fst (subprocess_run (ogrinfo_cmd upload_path) w)),
      c, rr, post, s. now split.
  - destruct (res (unpack upload_path work w)) as [member|e].
    + destruct Hzip as (b & evs & r & _ & Hran & Hev & _).
      destruct (Hnext _ _ _ _ Hran) as (c & rr & post & s & -> & Hs).
      do 7 eexists. split; [exact Hev|exact Hs].
    + destruct Hzip as [_ Hev]. rewrite Hev in Hprobe.
      destruct (unpack_events upload_path work w) as (Hp & _).
      contradiction.
Qed.

(** C4. The prober never raises: whatever the introspection tool does, it
    returns, having started that one process.  It returns absent bounds
    when the tool cannot be started, exits with a non-zero status or
    prints output that cannot be decoded, when its output does not parse,
    when the report holds no four-element
    [extent] anywhere, and when an element of the extent found cannot be
    coerced to a float.  In the pipeline a probe is always followed by the
    start of a conversion stage. *)
Theorem C4_prober_never_raises (p : Path) (w : World) :
  let o := ogrinfo_bounds p w in
  let r := fst (subprocess_run (ogrinfo_cmd p) w) in
  (exists b, res o = Return b /\ events o = [ESpawn (ogrinfo_cmd p) r])
  /\ (exited_zero r = false -> res o = Return None)
  /\ (forall out err, r = inl (Exited 0 out err) ->
      (json_loads out = None -> res o = Return None)
      /\ (forall j, json_loads out = Some j ->
          (extents_preorder j = [] -> res o = Return None)
          /\ (forall l x e,
                hd_error (extents_preorder j) = Some l ->
                In x l -> py_float x = Raise e ->
                res o = Return None)))
  /\ (forall upload_path bundle_name work w',
        let o' := ensure_pmtiles upload_path bundle_name work w' in
        probes (events o') <> [] ->
        exists pre src rp c rr post s,
          events o' = pre ++ ESpawn (ogrinfo_cmd src) rp :: ESpawn c rr :: post
          /\ stage_of_cmd c = Some s).
Proof.
  intros o r. split; [|split; [|split]].
  - destruct (ogrinfo_bounds_total p w) as [b Hb]. exists b.
    subst o r. now rewrite Hb.
  - apply ogrinfo_bounds_tool_failed.
  - intros out err Hr. split.
    + now apply ogrinfo_bounds_unparseable with (out := out) (err := err).
    + intros j Hj. subst o.
      rewrite (@ogrinfo_bounds_value p w out err j Hr Hj). split.
      * now intros ->.
      * intros l x e -> Hin Hx. now rewrite (coerce_floats_raise _ _ Hin Hx).
  - intros upload_path bundle_name work w'. apply probe_then_stage.
Qed.

(** C9. Once the report has parsed, what the prober returns is read off
    the first four-element [extent] of the report in depth-first order (a
    mapping's own entry before its values): [find_extent] gives that entry,
    and the bounds are its four elements coerced with [float], in order. *)
Theorem C9_first_extent_depth_first (p : Path) (w : World)
    (out err : pystr) (j : json) :
  fst (subprocess_run (ogrinfo_cmd p) w) = inl (Exited 0 out err) ->
  json_loads out = Some j ->
  find_extent j = hd_error (extents_preorder j)
  /\ res (ogrinfo_bounds p w) =
     Return (match hd_error (extents_preorder j) with
             | Some l => coerce_floats l
             | None => None
             end)
  /\ (forall e0 e1 e2 e3 f0 f1 f2 f3,
        hd_error (extents_preorder j) = Some [e0; e1; e2; e3] ->
        py_float e0 = Return f0 -> py_float e1 = Return f1 ->
        py_float e2 = Return f2 -> py_float e3 = Return f3 ->
        res (ogrinfo_bounds p w) = Return (Some [f0; f1; f2; f3])).
Proof.
  intros Hr Hj. split; [apply find_extent_preorder|].
  rewrite (@ogrinfo_bounds_value p w out err j Hr Hj). split; [reflexivity|].
  intros e0 e1 e2 e3 f0 f1 f2 f3 -> H0 H1 H2 H3. simpl.
  now rewrite H0, H1, H2, H3.
Qed.

(** ** Events a computation never produces *)

Lemma never_ret {A} (P : event -> bool) (a : A) : never P (ret a).
Proof. intros w. reflexivity. Qed.

Lemma never_raise {A} (P : event -> bool) (e : exn) : never P (@raise _ A e).
Proof. intros w. reflexivity. Qed.

Lemma never_query {R} (P : event -> bool) (f : World -> R) :
  never P (query f).
Proof. intros w. reflexivity. Qed.

Lemma never_check (P : event -> bool) (mk : pystr -> exn) (r : option pystr) :
  never P (check mk r).
Proof. intros w. now destruct r. Qed.

Lemma never_lift_result {A} (P : event -> bool) (r : result A) :
  never P (lift_result r).
Proof. intros w. now destruct r. Qed.

Lemma never_bind {A B} (P : event -> bool) (m : M A) (k : A -> M B) :
  never P m -> (forall a, never P (k a)) -> never P (bind m k).
Proof.
  intros Hm Hk w. rewrite bind_events, existsb_app, Hm.
  destruct (res (m w)); [apply Hk|reflexivity].
Qed.

Lemma never_try_except {A} (P : event -> bool) (body : M A)
    (catches : exn -> bool) (handler : exn -> M A) :
  never P body -> (forall e, never P (handler e)) ->
  never P (try_except body catches handler).
Proof.
  intros Hb Hh w. unfold try_except.
  destruct (res (body w)) as [a|e]; [apply Hb|].
  destruct (catches e); [|apply Hb].
  simpl. now rewrite existsb_app, Hb, Hh.
Qed.

Lemma never_effect {R} (P : event -> bool) (op : World -> R * World)
    (ev : R -> event) :
  (forall r, P (ev r) = false) -> never P (effect op ev).
Proof.
  intros H w. unfold effect. destruct (op w) as [r w']. simpl.
  now rewrite H.
Qed.

Lemma never_run (P : event -> bool) (cmd : list pystr) :
  (forall r, P (ESpawn cmd r) = false) -> never P (run cmd).
Proof. intros H w. rewrite run_spec. simpl. now rewrite H. Qed.

Create HintDb never_db.
#[local] Hint Resolve never_ret never_raise never_query never_check
  never_lift_result never_effect never_run : never_db.

Ltac never_step :=
  match goal with
  | |- never _ (bind _ _) => apply never_bind
  | |- never _ (try_except _ _ _) => apply never_try_except
  | |- never _ (if ?b then _ else _) => destruct b
  | |- never _ (match ?x with _ => _ end) => destruct x
  | |- forall _, _ => intro
  | |- never _ _ => solve [auto with never_db]
  end.

(** The pipeline only starts processes and creates a directory. *)
Lemma ensure_pmtiles_never (P : event -> bool) (upload_path : Path)
    (bundle_name : pystr) (work : Path) :
  (forall c r, P (ESpawn c r) = false) ->
  (forall p r, P (EMkdir p r) = false) ->
  never P (ensure_pmtiles upload_path bundle_name work).
Proof.
  intros Hspawn Hmkdir.
  unfold ensure_pmtiles, unpack, rglob_first, ogrinfo_bounds,
    ogrinfo_bounds_try, convert_to_geojson, tippecanoe_to_mbtiles,
    mbtiles_to_pmtiles.
  repeat never_step.
Qed.

Lemma ensure_pmtiles_no_rmtree (upload_path : Path) (bundle_name : pystr)
    (work : Path) :
  never is_rmtree (ensure_pmtiles upload_path bundle_name work).
Proof. now apply ensure_pmtiles_never. Qed.

Lemma create_bundle_guarded_no_rmtree (cfg : config)
    (bundle_id bundle_name description original_filename : pystr)
    (file : upload) (work : Path) :
  never is_rmtree
    (create_bundle_guarded cfg bundle_id bundle_name description
       original_filename file work).
Proof.
  unfold create_bundle_guarded, create_bundle_try, s3_put_file, JSONResponse.
  pose proof ensure_pmtiles_no_rmtree as He.
  repeat never_step; auto with never_db.
Qed.

(** ** [create_bundle] *)

Lemma filter_none {A} (P : A -> bool) (l : list A) :
  existsb P l = false -> filter P l = [].
Proof.
  induction l as [|a l IH]; simpl; [reflexivity|].
  destruct (P a); [discriminate|exact IH].
Qed.

(** [ignore_errors=True] swallows the [OSError] of a failed removal and
    nothing else. *)
Lemma shutil_rmtree_ignoring (path : Path) (w : World) :
  shutil_rmtree path true w =
  {| res := cleaned (fst (rmtree path w)) (Return tt);
     world_after := snd (rmtree path w);
     events := [ERmtree path (fst (rmtree path w))] |}.
Proof.
  unfold shutil_rmtree, bind, effect.
  destruct (rmtree path w) as [[|m|m] w']; reflexivity.
Qed.

Lemma cleaned_return {A} (r : removal) (pending : result A) (a : A) :
  cleaned r pending = Return a -> pending = Return a.
Proof. destruct r; [trivial|trivial|discriminate]. Qed.

Lemma cleaned_http {A} (r : removal) (pending : result A) (st : Z)
    (d : message) :
  cleaned r pending = Raise (HTTPException st d) ->
  pending = Raise (HTTPException st d).
Proof. destruct r; [trivial|trivial|discriminate]. Qed.

Lemma create_bundle_result (cfg : config) (name description : pystr)
    (file : upload) (w : World) :
  let bundle_id := fst (uuid4 w) in
  let bundle_name := str_or (strip name) (lit "bundle") in
  let original_filename :=
    safe_name (str_or (match filename file with Some f => f | None => [] end)
                 (lit "upload")) in
  let work := WORKDIR cfg // bundle_id in
  let made := mkdir work true (snd (uuid4 w)) in
  let guarded :=
    create_bundle_guarded cfg bundle_id bundle_name description
      original_filename file work (snd made) in
  let o := create_bundle cfg name description file w in
  match fst made with
  | Some m => res o = Raise (OSError m) /\ events o = [EMkdir work (Some m)]
  | None =>
      res o = cleaned (fst (rmtree work (world_after guarded))) (res guarded)
      /\ events o =
         EMkdir work None :: events guarded ++
         [ERmtree work (fst (rmtree work (world_after guarded)))]
  end.
Proof.
  intros bundle_id bundle_name original_filename work made guarded o.
  subst o made guarded work bundle_id.
  unfold create_bundle, bind, fresh_uuid, effect, check, try_finally.
  destruct (uuid4 w) as [u w0]. cbn [res events world_after fst snd app].
  fold bundle_name original_filename.
  destruct (mkdir (WORKDIR cfg // u) true w0) as [[m|] w1];
    cbn [res events world_after fst snd app raise ret].
  - split; reflexivity.
  - rewrite shutil_rmtree_ignoring. cbn [res events world_after app].
    split; [|reflexivity]. now destruct (fst (rmtree _ _)).
Qed.

(** ** A failing stage *)

Lemma ran_failure_fresh (cmds : list (list pystr)) (evs : list event)
    (r : result unit) :
  ran cmds evs r -> NoDup cmds ->
  forall c rr pre, evs = pre ++ [ESpawn c rr] -> ~ In c (spawned pre).
Proof.
  induction 1 as [|c0 cs r0 evs res _ Hran IH|c0 cs r0 _];
    intros Hnd c rr pre Hev.
  - now destruct pre.
  - inversion Hnd as [|? ? Hnotin Hnd']; subst.
    destruct pre as [|e pre]; simpl in Hev.
    + intros [].
    + injection Hev as <- ->. simpl. intros [<-|Hin].
      * apply Hnotin.
        pose proof (ran_only_spawns Hran) as Hall.
        rewrite Forall_forall in Hall.
        destruct (Hall (ESpawn c0 rr)) as (c' & rr' & [= <- <-] & Hc);
          [apply in_or_app; right; now left|exact Hc].
      * exact (IH Hnd' c rr pre eq_refl Hin).
  - destruct pre as [|e [|e' pre]]; simpl in Hev; try discriminate.
    intros [].
Qed.

Lemma program_differs (a b : list pystr) :
  eqb (program a) (program b) = false -> a <> b.
Proof. intros H ->. now rewrite eqb_refl in H. Qed.

Lemma stage_cmds_NoDup (ext : pystr) (upload_path work : Path)
    (bundle_name : pystr) (src : Path) :
  NoDup (stage_cmds ext upload_path work bundle_name src).
Proof.
  unfold stage_cmds.
  destruct (eqb ext (lit ".geojson") || eqb ext (lit ".json"));
    repeat constructor; simpl;
    repeat (intros [H|H]; [revert H; now apply program_differs|revert H]);
    intros [].
Qed.

(** A stage that does not exit with status zero ends [ensure_pmtiles]:
    its event is the last one, its error is the result, and the command
    had not been started before. *)
Lemma stage_failure_aborts (upload_path : Path) (bundle_name : pystr)
    (work : Path) (w : World) (c : list pystr) (rr : completed + pystr)
    (s : stage) :
  let o := ensure_pmtiles upload_path bundle_name work w in
  In (ESpawn c rr) (events o) ->
  stage_of_cmd c = Some s ->
  exited_zero rr = false ->
  exists pre,
    events o = pre ++ [ESpawn c rr]
    /\ res o = Raise (run_error c rr)
    /\ ~ In c (spawned pre).
Proof.
  intros o Hin Hs Hz.
  pose proof (ensure_pmtiles_shape upload_path bundle_name work w) as Hshape.
  cbv zeta in Hshape. fold o in Hshape.
  assert (Hchain : forall cmds evs r,
             ran cmds evs r -> NoDup cmds -> In (ESpawn c rr) evs ->
             exists pre, evs = pre ++ [ESpawn c rr]
                         /\ r = Raise (run_error c rr)
                         /\ ~ In c (spawned pre)).
  { intros cmds evs r Hran Hnd Hin'.
    destruct (ran_failure_last Hran _ _ Hin' Hz) as (pre & Hev & Hr).
    exists pre. repeat split; try assumption.
    now apply (ran_failure_fresh Hran Hnd _ _ _ Hev). }
  assert (Hprobe : forall p, ogrinfo_cmd p = c -> False).
  { intros p <-. discriminate. }
  destruct Hshape
    as [[Hext Ho]|[[Hext (evs & r & Hran & Hev & Hres)]
       |[(Hpm & Hmb & Hzip & b & evs & r & Hb & Hran & Hev & Hres)
        |[Hext Hzip]]]].
  - rewrite Ho in Hin. contradiction.
  - rewrite Hev in Hin.
    destruct (Hchain _ _ _ Hran ltac:(repeat constructor; intros []) Hin)
      as (pre & -> & -> & Hfresh).
    exists pre. now rewrite Hev, Hres.
  - rewrite Hev in Hin. destruct Hin as [[= Hc _]|Hin];
      [now apply Hprobe in Hc|].
    destruct (Hchain _ _ _ Hran (stage_cmds_NoDup _ _ _ _ _) Hin)
      as (pre & -> & -> & Hfresh).
    eexists (_ :: pre). rewrite Hev, Hres. split; [reflexivity|].
    split; [reflexivity|]. simpl. intros [Hc|Hc]; [|contradiction].
    now apply Hprobe in Hc.
  - pose proof (unpack_result upload_path work w) as Hun. cbv zeta in Hun.
    destruct (res (unpack upload_path work w)) as [member|e] eqn:Hr.
    + destruct Hzip as (b & evs & r & _ & Hran & Hev & Hres).
      assert (Hune : events (unpack upload_path work w) =
                     [EMkdir (work // lit "unzipped") None;
                      ESpawn (unzip_cmd upload_path (work // lit "unzipped"))
                        (fst (subprocess_run
                                (unzip_cmd upload_path (work // lit "unzipped"))
                                (snd (mkdir (work // lit "unzipped") false w))))]).
      { rewrite Hun in Hr |- *.
        destruct (fst (mkdir _ false w)); [discriminate|reflexivity]. }
      rewrite Hev, Hune in Hin. simpl in Hin.
      destruct Hin as [Hc|[[= Hc _]|[[= Hc _]|Hin]]]; try discriminate;
        [subst c; discriminate|now apply Hprobe in Hc|].
      destruct (Hchain _ _ _ Hran (stage_cmds_NoDup _ _ _ _ _) Hin)
        as (pre & -> & -> & Hfresh).
      eexists (_ :: _ :: _ :: pre). rewrite Hev, Hres, Hune.
      split; [reflexivity|]. split; [reflexivity|]. simpl.
      intros [Hc|[Hc|Hc]]; [subst c; discriminate|now apply Hprobe in Hc|].
      contradiction.
    + destruct Hzip as [_ Hev]. rewrite Hev, Hun in Hin.
      destruct (fst (mkdir _ false w)); simpl in Hin.
      * destruct Hin as [|[]]; discriminate.
      * destruct Hin as [|[[= Hc _]|[]]]; [discriminate|].
        subst c. discriminate.
Qed.

Lemma s3_put_file_spec (local_path : Path) (key : pystr)
    (ctype : option pystr) (w : World) :
  let r := fst (s3_upload_file local_path key (extra_args ctype) w) in
  s3_put_file local_path key ctype w =
  {| res := match r with
            | Some m => Raise (S3UploadFailedError m)
            | None => Return tt
            end;
     world_after := snd (s3_upload_file local_path key (extra_args ctype) w);
     events := [ES3Put local_path key (extra_args ctype) r] |}.
Proof.
  unfold s3_put_file, bind, effect, check.
  destruct (s3_upload_file _ _ _ w) as [[m|] w']; reflexivity.
Qed.

Lemma effect_spec {R} (op : World -> R * World) (ev : R -> event) (w : World) :
  effect op ev w =
  {| res := Return (fst (op w)); world_after := snd (op w);
     events := [ev (fst (op w))] |}.
Proof. unfold effect. now destruct (op w). Qed.

Lemma bind_of_return {A B} (m : M A) (k : A -> M B) (w w' : World) (a : A)
    (evs : list event) :
  m w = {| res := Return a; world_after := w'; events := evs |} ->
  bind m k w =
  {| res := res (k a w'); world_after := world_after (k a w');
     events := evs ++ events (k a w') |}.
Proof. intros H. unfold bind. now rewrite H. Qed.

Lemma bind_of_raise {A B} (m : M A) (k : A -> M B) (w w' : World) (e : exn)
    (evs : list event) :
  m w = {| res := Raise e; world_after := w'; events := evs |} ->
  bind m k w = {| res := Raise e; world_after := w'; events := evs |}.
Proof. intros H. unfold bind. now rewrite H. Qed.

Lemma never_In {A} (P : event -> bool) (m : M A) (w : World) (e : event) :
  never P m -> In e (events (m w)) -> P e = false.
Proof.
  intros H Hin. specialize (H w).
  destruct (P e) eqn:HP; [|reflexivity].
  assert (existsb P (events (m w)) = true)
    by (apply existsb_exists; now exists e).
  congruence.
Qed.

Lemma create_bundle_publish_no_spawn (cfg : config)
    (bundle_id bundle_name description source_key : pystr)
    (pb : Path * option bounds) :
  never is_spawn
    (create_bundle_publish cfg bundle_id bundle_name description source_key pb).
Proof.
  unfold create_bundle_publish, s3_put_file, JSONResponse.
  repeat never_step; auto with never_db.
Qed.

Lemma create_bundle_try_split (cfg : config)
    (bundle_id bundle_name description original_filename : pystr)
    (file : upload) (work : Path) (w : World) :
  let upload_path := work // original_filename in
  let source_key :=
    lit "sources/" ++ bundle_id ++ lit "/" ++ original_filename in
  create_bundle_try cfg bundle_id bundle_name description original_filename
    file work w =
  bind (effect (write_upload upload_path file) (EWrite upload_path))
    (fun r =>
       bind (check OSError r)
         (fun _ =>
            bind (s3_put_file upload_path source_key
                    (Some (match content_type file with
                           | Some ((_ :: _) as c) => c
                           | _ => lit "application/octet-stream"
                           end)))
              (fun _ =>
                 bind (ensure_pmtiles upload_path bundle_name work)
                   (create_bundle_publish cfg bundle_id bundle_name
                      description source_key)))) w.
Proof. reflexivity. Qed.

(** The guarded body, step by step. *)
Lemma create_bundle_try_outcome (cfg : config)
    (bundle_id bundle_name description original_filename : pystr)
    (file : upload) (work : Path) (w : World) :
  let upload_path := work // original_filename in
  let source_key :=
    lit "sources/" ++ bundle_id ++ lit "/" ++ original_filename in
  let ctype := extra_args
                 (Some (match content_type file with
                        | Some ((_ :: _) as c) => c
                        | _ => lit "application/octet-stream"
                        end)) in
  let written := write_upload upload_path file w in
  let stored := s3_upload_file upload_path source_key ctype (snd written) in
  let oe := ensure_pmtiles upload_path bundle_name work (snd stored) in
  let ot := create_bundle_try cfg bundle_id bundle_name description
              original_filename file work w in
  match fst written with
  | Some m => res ot = Raise (OSError m)
              /\ events ot = [EWrite upload_path (Some m)]
  | None =>
      match fst stored with
      | Some m =>
          res ot = Raise (S3UploadFailedError m)
          /\ events ot = [EWrite upload_path None;
                          ES3Put upload_path source_key ctype (Some m)]
      | None =>
          match res oe with
          | Raise e =>
              res ot = Raise e
              /\ events ot = EWrite upload_path None
                             :: ES3Put upload_path source_key ctype None
                             :: events oe
          | Return pb =>
              let op := create_bundle_publish cfg bundle_id bundle_name
                          description source_key pb (world_after oe) in
              res ot = res op
              /\ events ot = EWrite upload_path None
                             :: ES3Put upload_path source_key ctype None
                             :: events oe ++ events op
          end
      end
  end.
Proof.
  intros upload_path source_key ctype written stored oe ot.
  assert (Hot : ot = _) by apply create_bundle_try_split.
  cbv zeta in Hot. fold upload_path source_key in Hot.
  destruct (fst written) as [m|] eqn:Hw.
  - rewrite Hot, bind_res, bind_events, effect_spec.
    cbn [res events world_after]. fold written. rewrite Hw.
    rewrite bind_res, bind_events. split; reflexivity.
  - destruct (fst stored) as [m|] eqn:Hs.
    + rewrite Hot, bind_res, bind_events, effect_spec.
      cbn [res events world_after]. fold written. rewrite Hw.
      rewrite bind_res, bind_events. cbn [check ret res events world_after app].
      rewrite bind_res, bind_events, s3_put_file_spec.
      cbn [res events world_after]. fold ctype stored. rewrite Hs.
      split; reflexivity.
    + destruct (res oe) as [pb|e] eqn:Hoe.
      * rewrite Hot, bind_res, bind_events, effect_spec.
        cbn [res events world_after]. fold written. rewrite Hw.
        rewrite bind_res, bind_events.
        cbn [check ret res events world_after app].
        rewrite bind_res, bind_events, s3_put_file_spec.
        cbn [res events world_after]. fold ctype stored. rewrite Hs.
        rewrite bind_res, bind_events. fold oe. rewrite Hoe.
        split; reflexivity.
      * rewrite Hot, bind_res, bind_events, effect_spec.
        cbn [res events world_after]. fold written. rewrite Hw.
        rewrite bind_res, bind_events.
        cbn [check ret res events world_after app].
        rewrite bind_res, bind_events, s3_put_file_spec.
        cbn [res events world_after]. fold ctype stored. rewrite Hs.
        rewrite bind_res, bind_events. fold oe. rewrite Hoe.
        split; [reflexivity|]. cbn [app]. now rewrite app_nil_r.
Qed.

Lemma create_bundle_guarded_outcome (cfg : config)
    (bundle_id bundle_name description original_filename : pystr)
    (file : upload) (work : Path) (w : World) :
  let ot := create_bundle_try cfg bundle_id bundle_name description
              original_filename file work w in
  let og := create_bundle_guarded cfg bundle_id bundle_name description
              original_filename file work w in
  events og = events ot
  /\ res og = match res ot with
              | Return a => Return a
              | Raise e =>
                  if is_RuntimeError e
                  then Raise (HTTPException 400 (exn_str e))
                  else Raise e
              end.
Proof.
  intros ot og. subst og. unfold create_bundle_guarded, try_except.
  fold ot. destruct (res ot) as [a|e] eqn:Hr.
  - now rewrite Hr.
  - destruct (is_RuntimeError e); simpl.
    + now rewrite app_nil_r.
    + now rewrite Hr.
Qed.

Lemma s3_keys_none (l : list event) :
  existsb is_s3_put l = false -> s3_keys l = [].
Proof.
  induction l as [|e l IH]; simpl; [reflexivity|].
  destruct e; simpl; try exact IH. discriminate.
Qed.

Lemma s3_keys_app (a b : list event) : s3_keys (a ++ b) = s3_keys a ++ s3_keys b.
Proof. unfold s3_keys. now rewrite flat_map_app. Qed.

(** C3 (as the code has it). When a conversion stage exits with a non-zero
    status during a run of [create_bundle], its two output streams having
    been decoded, that process is the last one started, it had not been
    started before, and only the removal of the working directory follows
    it; unless that removal itself raises, the run ends with
    [HTTPException(400)] whose detail carries the argument list of the
    command and its two output streams; no catalogue row is inserted and
    no archive is stored, but the raw upload, stored under its source key
    before the conversion began, stays in object storage. *)
Theorem C3_failed_stage_aborts (cfg : config) (name description : pystr)
    (file : upload) (w : World) (c : list pystr) (rc : Z) (out err : pystr)
    (s : stage) :
  let bundle_id := fst (uuid4 w) in
  let original_filename :=
    safe_name (str_or (match filename file with Some f => f | None => [] end)
                 (lit "upload")) in
  let work := WORKDIR cfg // bundle_id in
  let source_key :=
    lit "sources/" ++ bundle_id ++ lit "/" ++ original_filename in
  let o := create_bundle cfg name description file w in
  In (ESpawn c (inl (Exited rc out err))) (events o) ->
  stage_of_cmd c = Some s ->
  rc <> 0%Z ->
  (exists pre removed,
     events o = pre ++ [ESpawn c (inl (Exited rc out err));
                        ERmtree work removed]
     /\ ~ In c (spawned pre)
     /\ ((forall m, removed <> RemovalAborted m) ->
         res o = Raise (HTTPException 400 (CommandFailed c out err))))
  /\ existsb is_db_insert (events o) = false
  /\ s3_keys (events o) = [source_key].
Proof.
  intros bundle_id original_filename work source_key o Hin Hs Hrc.
  set (bundle_name := str_or (strip name) (lit "bundle")).
  assert (Hz : exited_zero (inl (Exited rc out err)) = false)
    by (simpl; now apply Z.eqb_neq).
  pose proof (create_bundle_result cfg name description file w) as Hcb.
  cbv zeta in Hcb.
  fold bundle_id bundle_name original_filename work in Hcb. fold o in Hcb.
  set (w1 := snd (mkdir work true (snd (uuid4 w)))) in *.
  destruct (fst (mkdir work true (snd (uuid4 w)))) as [m|].
  { destruct Hcb as [_ Hev]. rewrite Hev in Hin.
    destruct Hin as [|[]]; discriminate. }
  destruct Hcb as [Hres Hev].
  pose proof (create_bundle_guarded_outcome cfg bundle_id bundle_name
                description original_filename file work w1) as Hg.
  cbv zeta in Hg. destruct Hg as [Hgev Hgres].
  rewrite Hgev in Hev. rewrite Hgres in Hres. clear Hgev Hgres.
  pose proof (create_bundle_try_outcome cfg bundle_id bundle_name
                description original_filename file work w1) as Ht.
  cbv zeta in Ht. fold source_key in Ht.
  set (ot := create_bundle_try cfg bundle_id bundle_name description
               original_filename file work w1) in *.
  set (upload_path := work // original_filename) in *.
  set (ctype := extra_args _) in *.
  rewrite Hev in Hin.
  assert (Hin' : In (ESpawn c (inl (Exited rc out err))) (events ot)).
  { destruct Hin as [|Hin]; [discriminate|].
    apply in_app_or in Hin. destruct Hin as [Hin|[|[]]];
      [exact Hin|discriminate]. }
  clear Hin.
  destruct (fst (write_upload upload_path file w1)) as [m|].
  { destruct Ht as [_ Hte]. rewrite Hte in Hin'.
    destruct Hin' as [|[]]; discriminate. }
  set (w3 := snd (s3_upload_file _ _ _ _)) in *.
  destruct (fst (s3_upload_file upload_path source_key ctype _)) as [m|].
  { destruct Ht as [_ Hte]. rewrite Hte in Hin'.
    destruct Hin' as [|[|[]]]; discriminate. }
  set (oe := ensure_pmtiles upload_path bundle_name work w3) in *.
  assert (Hoe : In (ESpawn c (inl (Exited rc out err))) (events oe)).
  { destruct (res oe) as [pb|e].
    - cbv zeta in Ht. destruct Ht as [_ Hte]. rewrite Hte in Hin'.
      destruct Hin' as [|[|Hin']]; try discriminate.
      apply in_app_or in Hin'. destruct Hin' as [Hin'|Hin']; [exact Hin'|].
      apply (@never_In _ _ _ _ _ (create_bundle_publish_no_spawn cfg
               bundle_id bundle_name description source_key pb)) in Hin'.
      discriminate.
    - destruct Ht as [_ Hte]. rewrite Hte in Hin'.
      destruct Hin' as [|[|Hin']]; try discriminate. exact Hin'. }
  destruct (@stage_failure_aborts upload_path bundle_name work w3 c _ s
              Hoe Hs Hz) as (pre & Hpre & Hraise & Hfresh).
  fold oe in Hpre, Hraise. rewrite Hraise in Ht. destruct Ht as [Htr Hte].
  rewrite Htr in Hres. simpl in Hres.
  assert (Hnodb : existsb is_db_insert (events oe) = false)
    by now apply ensure_pmtiles_never.
  assert (Hnos3 : existsb is_s3_put (events oe) = false)
    by now apply ensure_pmtiles_never.
  rewrite Hev, Hte. split; [|split].
  - exists (EMkdir work None :: EWrite upload_path None
            :: ES3Put upload_path source_key ctype None :: pre),
      (fst (rmtree work
              (world_after
                 (create_bundle_guarded cfg bundle_id bundle_name description
                    original_filename file work w1)))).
    split; [|split; [exact Hfresh|]].
    + rewrite Hpre. simpl. now rewrite <- app_assoc.
    + intros Hna. rewrite Hres.
      destruct (fst (rmtree work _)) as [|m|m]; try reflexivity.
      now contradiction (Hna m).
  - simpl. now rewrite existsb_app, Hnodb.
  - simpl. rewrite s3_keys_app, (@s3_keys_none _ Hnos3). reflexivity.
Qed.

(** ** Unpacking *)

(** With no entry named [*.shp] and no regular file in a tree the two
    walks get through, the unpacking raises [HTTPException(400)]. *)
Lemma unpack_empty (upload_path work : Path) (w : World) :
  let unzip_dir := work // lit "unzipped" in
  let w1 := snd (mkdir unzip_dir false w) in
  let w2 := snd (subprocess_run (unzip_cmd upload_path unzip_dir) w1) in
  fst (mkdir unzip_dir false w) = None ->
  exited_zero (fst (subprocess_run (unzip_cmd upload_path unzip_dir) w1))
  = true ->
  walk_breaks (lit "*.shp") unzip_dir w2 = None ->
  walk_breaks (lit "*") unzip_dir w2 = None ->
  first_shp (walk unzip_dir w2) = None ->
  first_file (walk unzip_dir w2) = None ->
  res (unpack upload_path work w) = Raise empty_zip.
Proof.
  intros unzip_dir w1 w2 Hmk Hz Hb1 Hb2 Hshp Hfile.
  pose proof (unpack_result upload_path work w) as H. cbv zeta in H.
  fold unzip_dir w1 w2 in H. rewrite H, Hmk. simpl.
  fold unzip_dir w1. rewrite Hz. fold w2.
  rewrite (selected_complete _ _ Hb1 Hb2). unfold select_member.
  now rewrite Hshp, Hfile.
Qed.

(** An entry named [*.shp] is selected before any other file. *)
Lemma select_member_prefers_shp (entries : list (Path * bool)) (shp : Path) :
  first_shp entries = Some shp -> select_member entries = Some shp.
Proof. intros H. unfold select_member. now rewrite H. Qed.

Lemma select_member_fallback (entries : list (Path * bool)) :
  first_shp entries = None -> select_member entries = first_file entries.
Proof. intros H. unfold select_member. now rewrite H. Qed.

(** The entry selected as [*.shp] need not be a regular file. *)
Lemma first_shp_any_kind (p : Path) (is_file : bool)
    (entries : list (Path * bool)) :
  endswith (name p) (lit ".shp") = true ->
  first_shp ((p, is_file) :: entries) = Some p.
Proof. intros H. unfold first_shp. simpl. now rewrite H. Qed.

End Properties.

(** * Concrete runs *)

Example suffix_ex1 : suffix (demo_work // lit "city.shp.zip") = lit ".zip".
Proof. reflexivity. Qed.

Example suffix_ex2 : suffix (demo_work // lit ".pmtiles") = [].
Proof. reflexivity. Qed.

Example suffix_ex3 : lower (suffix (demo_work // lit "A.PMTiles")) = lit ".pmtiles".
Proof. reflexivity. Qed.

Example find_extent_own_first :
  find_extent
    (JDict [(lit "child", JDict [(lit "extent", JList [JInt 9; JInt 9; JInt 9; JInt 9])]);
            (lit "extent", JList [JInt 1; JInt 2; JInt 3; JInt 4])])
  = Some [JInt 1; JInt 2; JInt 3; JInt 4].
Proof. reflexivity. Qed.

Example find_extent_nested : 
  find_extent demo_report
  = Some [JFloat (-122.5)%float; JInt 37; JFloat (-122.25)%float; JInt 38].
Proof. reflexivity. Qed.

Example passthrough_ex :
  @ensure_pmtiles (scripted (quiet [])) (demo_work // lit "A.PMTiles")
    (lit "My Parks") demo_work tt
  = {| res := Return (demo_work // lit "A.PMTiles", None);
       world_after := tt; events := [] |}.
Proof. reflexivity. Qed.

Lemma C1_route_from_extension_witness :
  eqb (lower (suffix (demo_work // lit "Parks.GeoJSON"))) (lit ".zip") = false
  /\ stages_run
       (events (@ensure_pmtiles (scripted (quiet []))
                  (demo_work // lit "Parks.GeoJSON") (lit "My Parks")
                  demo_work tt))
     = [InterchangeToTileDatabase; TileDatabaseToArchive].
Proof.
  split; [reflexivity|].
  destruct (@C1_route_from_extension (scripted (quiet []))
              (demo_work // lit "Parks.GeoJSON") (lit "My Parks")
              demo_work tt eq_refl) as (_ & H & _).
  apply H. eexists. reflexivity.
Defined.

(** A [.zip] whose selected member is a [.geojson] file: the member's own
    extension routes to FromInterchange, yet the run goes through the
    three stages, the generic conversion being started on the member. *)
Lemma C2_zip_geojson_member_counterexample :
  res (@unpack (scripted (quiet geojson_tree)) (demo_work // lit "data.zip")
         demo_work tt)
  = Return (demo_work // lit "unzipped" // lit "data.geojson")
  /\ route_of_ext
       (lower (suffix (demo_work // lit "unzipped" // lit "data.geojson")))
     = FromInterchange
  /\ stages_run
       (events (@ensure_pmtiles (scripted (quiet geojson_tree))
                  (demo_work // lit "data.zip") (lit "My Parks") demo_work tt))
     = [GenericToInterchange; InterchangeToTileDatabase;
        TileDatabaseToArchive]
  /\ nth_error
       (spawned
          (events (@ensure_pmtiles (scripted (quiet geojson_tree))
                     (demo_work // lit "data.zip") (lit "My Parks")
                     demo_work tt))) 2
     = Some (ogr2ogr_cmd (demo_work // lit "converted.geojson")
               (demo_work // lit "unzipped" // lit "data.geojson")).
Proof. repeat split. Qed.

Lemma C2_zip_always_generic_witness :
  lower (suffix (demo_work // lit "data.zip")) = lit ".zip"
  /\ stages_run
       (events (@ensure_pmtiles (scripted (quiet geojson_tree))
                  (demo_work // lit "data.zip") (lit "My Parks") demo_work tt))
     = stages_of_route FromGenericOgr.
Proof.
  split; [reflexivity|].
  destruct (@C2_zip_always_generic (scripted (quiet geojson_tree))
              (demo_work // lit "data.zip") (lit "My Parks") demo_work tt
              eq_refl) as (_ & H & _).
  apply H. eexists. reflexivity.
Defined.

(** Three runs with a failing conversion stage.  The tile builder exits
    with status 1: the caller gets [HTTPException(400)], and the raw upload
    stored before the conversion is still in object storage.  The tile
    builder exits with status 1 and its output cannot be decoded: the
    caller gets [UnicodeDecodeError], not a 400.  The generic converter
    exits with status 1 on an archive too deep to remove: the caller gets
    the [RecursionError] of the removal, not the 400. *)
Lemma C3_failed_stage_counterexample :
  (res (@create_bundle (scripted tippecanoe_fails) demo_cfg (lit " My Parks ")
          (lit "city parks") (demo_upload "parks.geojson") tt)
   = Raise (HTTPException 400
              (CommandFailed
                 (tippecanoe_cmd (demo_work // lit "out.mbtiles")
                    (lit "My-Parks") (demo_work // lit "parks.geojson"))
                 [] []))
   /\ s3_keys
        (events (@create_bundle (scripted tippecanoe_fails) demo_cfg
                   (lit " My Parks ") (lit "city parks")
                   (demo_upload "parks.geojson") tt))
      = [lit "sources/6f1c/parks.geojson"])
  /\ (nth_error
        (events (@create_bundle (scripted tippecanoe_garbles) demo_cfg
                   (lit " My Parks ") (lit "city parks")
                   (demo_upload "parks.geojson") tt)) 4
      = Some (ESpawn
                (tippecanoe_cmd (demo_work // lit "out.mbtiles")
                   (lit "My-Parks") (demo_work // lit "parks.geojson"))
                (inl (Undecodable 1)))
      /\ res (@create_bundle (scripted tippecanoe_garbles) demo_cfg
                (lit " My Parks ") (lit "city parks")
                (demo_upload "parks.geojson") tt)
         = Raise UnicodeDecodeError)
  /\ (nth_error
        (events (@create_bundle (scripted (too_deep_to_remove (lit "ogr2ogr")))
                   demo_cfg (lit " My Parks ") (lit "city parks")
                   (demo_upload "parks.zip") tt)) 6
      = Some (ESpawn
                (ogr2ogr_cmd (demo_work // lit "converted.geojson")
                   (demo_work // lit "unzipped" // lit "city.shp"))
                (inl (Exited 1 [] [])))
      /\ res (@create_bundle (scripted (too_deep_to_remove (lit "ogr2ogr")))
                demo_cfg (lit " My Parks ") (lit "city parks")
                (demo_upload "parks.zip") tt)
         = Raise (RecursionError recursion_text)).
Proof. repeat split; vm_compute; reflexivity. Qed.

Lemma C3_failed_stage_aborts_witness :
  existsb is_db_insert
    (events (@create_bundle (scripted tippecanoe_fails) demo_cfg
               (lit " My Parks ") (lit "city parks")
               (demo_upload "parks.geojson") tt))
  = false
  /\ s3_keys
       (events (@create_bundle (scripted tippecanoe_fails) demo_cfg
                  (lit " My Parks ") (lit "city parks")
                  (demo_upload "parks.geojson") tt))
     = [lit "sources/6f1c/parks.geojson"].
Proof.
  assert (Hin : In (ESpawn
                      (tippecanoe_cmd (demo_work // lit "out.mbtiles")
                         (lit "My-Parks") (demo_work // lit "parks.geojson"))
                      (inl (Exited 1 [] [])))
                  (events (@create_bundle (scripted tippecanoe_fails) demo_cfg
                             (lit " My Parks ") (lit "city parks")
                             (demo_upload "parks.geojson") tt))).
  { vm_compute. do 4 right. left. reflexivity. }
  assert (Hrc : 1%Z <> 0%Z) by lia.
  destruct (@C3_failed_stage_aborts (scripted tippecanoe_fails) demo_cfg
              (lit " My Parks ") (lit "city parks")
              (demo_upload "parks.geojson") tt _ 1%Z [] []
              InterchangeToTileDatabase Hin eq_refl Hrc)
    as (_ & Hdb & Hk).
  split; [exact Hdb|exact Hk].
Defined.

(** C6 (where the code departs from it). An archive with a shapefile at
    the top beside a chain of directories deeper than the recursion limit:
    every tool succeeds, the two objects are stored and the row is
    inserted, but [shutil.rmtree(work, ignore_errors=True)] raises
    [RecursionError], which is no [OSError] and so is not ignored: the
    working directory stays, and the error of the removal replaces the
    response of the run.  When a stage fails on such an archive, the error
    of the removal replaces the [HTTPException(400)] in the same way. *)
Theorem C6_removal_error_replaces_result :
  (inserted
     (events (@create_bundle (scripted (too_deep_to_remove [])) demo_cfg
                (lit " My Parks ") (lit "city parks")
                (demo_upload "parks.zip") tt))
   = [{| row_id := lit "6f1c"; row_name := lit "My Parks";
         row_description := lit "city parks"; row_bounds := None;
         row_source_key := lit "sources/6f1c/parks.zip";
         row_pmtiles_key := lit "pmtiles/6f1c/My-Parks.pmtiles" |}]
   /\ res (@create_bundle_guarded (scripted (too_deep_to_remove [])) demo_cfg
             (lit "6f1c") (lit "My Parks") (lit "city parks")
             (lit "parks.zip") (demo_upload "parks.zip") demo_work tt)
      = Return {| resp_id := lit "6f1c"; resp_name := lit "My Parks";
                  resp_description := lit "city parks"; resp_bounds := None;
                  resp_source_key := lit "sources/6f1c/parks.zip";
                  resp_pmtiles_key := lit "pmtiles/6f1c/My-Parks.pmtiles";
                  resp_pmtiles_url :=
                    lit "/tiles/pmtiles/6f1c/My-Parks.pmtiles" |}
   /\ last (events (@create_bundle (scripted (too_deep_to_remove []))
                      demo_cfg (lit " My Parks ") (lit "city parks")
                      (demo_upload "parks.zip") tt))
        (EMkdir [] None)
      = ERmtree demo_work (RemovalAborted recursion_text)
   /\ res (@create_bundle (scripted (too_deep_to_remove [])) demo_cfg
             (lit " My Parks ") (lit "city parks")
             (demo_upload "parks.zip") tt)
      = Raise (RecursionError recursion_text))
  /\ (res (@create_bundle_guarded
             (scripted (too_deep_to_remove (lit "tippecanoe"))) demo_cfg
             (lit "6f1c") (lit "My Parks") (lit "city parks")
             (lit "parks.zip") (demo_upload "parks.zip") demo_work tt)
      = Raise (HTTPException 400
                 (CommandFailed
                    (tippecanoe_cmd (demo_work // lit "out.mbtiles")
                       (lit "My-Parks")
                       (demo_work // lit "converted.geojson"))
                    [] []))
      /\ res (@create_bundle
                (scripted (too_deep_to_remove (lit "tippecanoe"))) demo_cfg
                (lit " My Parks ") (lit "city parks")
                (demo_upload "parks.zip") tt)
         = Raise (RecursionError recursion_text)).
Proof. repeat split; vm_compute; reflexivity. Qed.

(** C8 (where the code departs from it). A container holding no regular
    file, only a directory named [layer.shp]: the unpacking does not raise
    [HTTPException(400)]; the directory is selected as the dataset, probed
    and converted.  ([unpack_empty], [select_member_prefers_shp] and
    [select_member_fallback] above give the rest of the selection
    policy.) *)
Theorem C8_shp_directory_selected :
  first_file shp_directory_tree = None
  /\ res (@unpack (scripted (quiet shp_directory_tree))
            (demo_work // lit "data.zip") demo_work tt)
     = Return (demo_work // lit "unzipped" // lit "layer.shp")
  /\ spawned
       (events (@ensure_pmtiles (scripted (quiet shp_directory_tree))
                  (demo_work // lit "data.zip") (lit "My Parks") demo_work tt))
     = [unzip_cmd (demo_work // lit "data.zip") (demo_work // lit "unzipped");
        ogrinfo_cmd (demo_work // lit "unzipped" // lit "layer.shp");
        ogr2ogr_cmd (demo_work // lit "converted.geojson")
          (demo_work // lit "unzipped" // lit "layer.shp");
        tippecanoe_cmd (demo_work // lit "out.mbtiles") (lit "My-Parks")
          (demo_work // lit "converted.geojson");
        pmtiles_cmd (demo_work // lit "out.mbtiles")
          (demo_work // lit "My-Parks.pmtiles")]
  /\ res (@ensure_pmtiles (scripted (quiet shp_directory_tree))
            (demo_work // lit "data.zip") (lit "My Parks") demo_work tt)
     = Return (demo_work // lit "My-Parks.pmtiles", None).
Proof. repeat split. Qed.

Lemma C9_first_extent_depth_first_witness :
  res (@ogrinfo_bounds (scripted (reports demo_report))
         (demo_work // lit "parks.geojson") tt)
  = Return (Some [(-122.5)%float; 37%float; (-122.25)%float; 38%float]).
Proof.
  destruct (@C9_first_extent_depth_first (scripted (reports demo_report))
              (demo_work // lit "parks.geojson") tt (lit "{...}") []
              demo_report eq_refl eq_refl) as (_ & _ & H).
  apply (H (JFloat (-122.5)%float) (JInt 37) (JFloat (-122.25)%float)
           (JInt 38)); reflexivity.
Defined.

(** * Further properties *)

Unset Implicit Arguments.

(** ** [safe_name], continued *)

(** X1. The strings [safe_name] leaves unchanged are exactly those that
    match [^[A-Za-z0-9._-]{1,120}$]. *)
Theorem X1_safe_name_fixed_points (t : pystr) :
  safe_name t = t <-> matches_token t = true.
Proof.
  split.
  - intros H. rewrite <- H. apply safe_name_matches.
  - apply safe_name_token.
Qed.

Lemma lstrip_spaces (l s : pystr) :
  forallb isspace l = true -> lstrip (l ++ s) = lstrip s.
Proof.
  induction l as [|c l IH]; simpl; [reflexivity|].
  intros H. apply andb_true_iff in H as [Hc Hl]. now rewrite Hc, IH.
Qed.

Lemma lstrip_all_spaces (l : pystr) : forallb isspace l = true -> lstrip l = [].
Proof.
  intros H. rewrite <- (app_nil_r l). now rewrite lstrip_spaces.
Qed.

Lemma lstrip_app (s r : pystr) :
  lstrip (s ++ r) =
  match lstrip s with
  | [] => lstrip r
  | _ :: _ => lstrip s ++ r
  end.
Proof.
  induction s as [|c s IH]; simpl; [now destruct (lstrip r)|].
  destruct (isspace c); [exact IH|reflexivity].
Qed.

Lemma rstrip_spaces (s r : pystr) :
  forallb isspace r = true -> rstrip (s ++ r) = rstrip s.
Proof.
  intros H. unfold rstrip. rewrite rev_app_distr, lstrip_spaces;
    [reflexivity|now rewrite forallb_rev].
Qed.

Lemma strip_padding (l s r : pystr) :
  forallb isspace l = true -> forallb isspace r = true ->
  strip (l ++ s ++ r) = strip s.
Proof.
  intros Hl Hr. unfold strip. rewrite (lstrip_spaces l _ Hl), lstrip_app.
  destruct (lstrip s) as [|c t] eqn:Hs.
  - now rewrite (lstrip_all_spaces r Hr).
  - now apply rstrip_spaces.
Qed.

(** X2. White space around the input does not matter: padding a string on
    either side with any white space gives the same safe name. *)
Theorem X2_safe_name_ignores_padding (l s r : pystr) :
  forallb isspace l = true -> forallb isspace r = true ->
  safe_name (l ++ s ++ r) = safe_name s.
Proof.
  intros Hl Hr. unfold safe_name. now rewrite (strip_padding l s r Hl Hr).
Qed.

Lemma cleaned_empty (t : pystr) :
  sub_disallowed (sub_ws false t) = [] <-> forallb dropped t = true.
Proof.
  unfold sub_disallowed, dropped.
  induction t as [|c t IH]; simpl; [tauto|].
  destruct (isspace c) eqn:Hsp; simpl.
  - rewrite andb_false_r. simpl. split; discriminate.
  - destruct (allowed c) eqn:Hal; simpl; [split; discriminate|exact IH].
Qed.

(** X3. The default name [bundle] is used exactly when the stripped input
    holds no code point of the class and no white space; in particular for
    the empty string and for a string of white space only.  Otherwise the
    result is the cleaned text cut at 120 code points. *)
Theorem X3_safe_name_default (s : pystr) :
  (forallb dropped (strip s) = true -> safe_name s = lit "bundle")
  /\ (forallb dropped (strip s) = false ->
      safe_name s = firstn 120 (sub_disallowed (sub_ws false (strip s)))
      /\ sub_disallowed (sub_ws false (strip s)) <> [])
  /\ (forallb isspace s = true -> safe_name s = lit "bundle").
Proof.
  split; [|split].
  - intros H. apply cleaned_empty in H. unfold safe_name. now rewrite H.
  - intros H. unfold safe_name.
    destruct (sub_disallowed (sub_ws false (strip s))) as [|c t] eqn:Hc.
    + apply cleaned_empty in Hc. congruence.
    + split; [reflexivity|discriminate].
  - intros H. unfold safe_name, strip.
    now rewrite (lstrip_all_spaces s H).
Qed.

Lemma sub_ws_words (f : bool) (a t : pystr) :
  forallb allowed a = true -> a <> [] ->
  sub_ws f (a ++ t) = a ++ sub_ws false t.
Proof.
  intros Ha Hne. revert f. induction a as [|c a IH]; [contradiction|].
  intros f. simpl in *. apply andb_true_iff in Ha as [Hc Ha].
  rewrite (@allowed_not_space c Hc). f_equal.
  destruct a as [|d a]; [reflexivity|]. apply IH; [exact Ha|discriminate].
Qed.

Lemma sub_ws_run (ws b : pystr) :
  forallb isspace ws = true -> forallb allowed b = true ->
  sub_ws true (ws ++ b) = b.
Proof.
  intros Hws Hb. induction ws as [|c ws IH]; simpl.
  - destruct b as [|d b]; [reflexivity|].
    rewrite <- (app_nil_r (d :: b)) at 1.
    rewrite sub_ws_words; [now rewrite app_nil_r|exact Hb|discriminate].
  - simpl in Hws. apply andb_true_iff in Hws as [Hc Hws].
    rewrite Hc. now apply IH.
Qed.

Lemma rstrip_word (s b : pystr) :
  forallb allowed b = true -> b <> [] -> rstrip (s ++ b) = s ++ b.
Proof.
  intros Hb Hne. unfold rstrip. rewrite rev_app_distr.
  assert (Hr : forallb allowed (rev b) = true) by now rewrite forallb_rev.
  destruct (rev b) as [|c rb] eqn:Hrb.
  - apply (f_equal (@rev N)) in Hrb. rewrite rev_involutive in Hrb.
    contradiction.
  - simpl in Hr |- *. apply andb_true_iff in Hr as [Hc _].
    rewrite (@allowed_not_space c Hc).
    change (c :: rb ++ rev s) with ((c :: rb) ++ rev s).
    now rewrite <- Hrb, <- rev_app_distr, rev_involutive.
Qed.

(** X4. Between two clean words a run of white space, however long,
    becomes exactly one hyphen. *)
Theorem X4_safe_name_hyphenates (a ws b : pystr) :
  forallb allowed a = true -> a <> [] ->
  forallb isspace ws = true -> ws <> [] ->
  forallb allowed b = true -> b <> [] ->
  safe_name (a ++ ws ++ b) = firstn 120 (a ++ hyphen :: b).
Proof.
  intros Ha Hane Hws Hwne Hb Hbne.
  assert (Hstrip : strip (a ++ ws ++ b) = a ++ ws ++ b).
  { unfold strip. destruct a as [|c a]; [contradiction|].
    simpl in Ha. apply andb_true_iff in Ha as [Hc Ha].
    simpl. rewrite (@allowed_not_space c Hc).
    change (c :: a ++ ws ++ b) with ((c :: a) ++ ws ++ b).
    rewrite app_assoc. now apply rstrip_word. }
  assert (Hsub : sub_ws false (a ++ ws ++ b) = a ++ hyphen :: b).
  { rewrite (sub_ws_words false a _ Ha Hane). f_equal.
    destruct ws as [|c ws]; [contradiction|].
    simpl in Hws |- *. apply andb_true_iff in Hws as [Hc Hws].
    rewrite Hc. f_equal. now apply sub_ws_run. }
  assert (Hall : forallb allowed (a ++ hyphen :: b) = true).
  { rewrite forallb_app, Ha. simpl. exact Hb. }
  unfold safe_name. rewrite Hstrip, Hsub, (@filter_token _ Hall).
  destruct a; [contradiction|reflexivity].
Qed.

(** ** Selecting the member of a container *)

Lemma find_first {A} (f : A -> bool) (l : list A) :
  match find f l with
  | Some x => exists pre post,
      l = pre ++ x :: post /\ f x = true /\ forallb (fun y => negb (f y)) pre = true
  | None => forallb (fun y => negb (f y)) l = true
  end.
Proof.
  induction l as [|a l IH]; simpl; [reflexivity|].
  destruct (f a) eqn:Ha.
  - exists [], l. now repeat split.
  - destruct (find f l) as [x|].
    + destruct IH as (pre & post & -> & Hx & Hpre).
      exists (a :: pre), post. simpl. rewrite Ha. now repeat split.
    + simpl. now rewrite IH.
Qed.

(** X5. The member selected from the walk of an unpacked container is the
    first entry named [*.shp] if there is one, whatever comes before it and
    whether or not it is a regular file; otherwise it is the first regular
    file, the entries skipped before it being no regular files; and no
    member is selected exactly when the walk has no entry named [*.shp]
    and no regular file. *)
Theorem X5_select_member_first (entries : list (Path * bool)) :
  match select_member entries with
  | Some p =>
      exists pre is_file post,
        entries = pre ++ (p, is_file) :: post
        /\ ((endswith (name p) (lit ".shp") = true
             /\ forallb (fun e => negb (endswith (name (fst e)) (lit ".shp")))
                  pre = true)
            \/ (is_file = true
                /\ forallb (fun e => negb (endswith (name (fst e)) (lit ".shp")))
                     entries = true
                /\ forallb (fun e => negb (snd e)) pre = true))
  | None =>
      forallb (fun e => negb (endswith (name (fst e)) (lit ".shp"))) entries
      = true
      /\ forallb (fun e => negb (snd e)) entries = true
  end.
Proof.
  unfold select_member, first_shp, first_file.
  pose proof (find_first (fun e => endswith (name (fst e)) (lit ".shp"))
                entries) as Hshp.
  destruct (find (fun e => endswith (name (fst e)) (lit ".shp")) entries)
    as [[p f]|]; simpl.
  - destruct Hshp as (pre & post & -> & Hp & Hpre).
    exists pre, f, post. split; [reflexivity|]. left. now split.
  - pose proof (find_first (fun e : Path * bool => snd e) entries) as Hfile.
    destruct (find (fun e : Path * bool => snd e) entries) as [[p f]|]; simpl.
    + destruct Hfile as (pre & post & -> & Hp & Hpre).
      exists pre, f, post. split; [reflexivity|]. right.
      simpl in Hp. now repeat split.
    + now split.
Qed.

Section MoreProperties.

Context {E : Env}.

(** ** Shape of the bounds *)

Lemma ogrinfo_bounds_four (p : Path) (w : World) (b : bounds) :
  res (ogrinfo_bounds p w) = Return (Some b) -> length b = 4.
Proof.
  unfold ogrinfo_bounds, try_except, ogrinfo_bounds_try, bind.
  rewrite run_spec. simpl.
  destruct (exited_zero (fst (subprocess_run (ogrinfo_cmd p) w))); simpl;
    [|discriminate].
  destruct (json_loads _) as [j|]; simpl; [|discriminate].
  destruct (find_extent j) as [[|e0 [|e1 [|e2 [|e3 [|e4 l]]]]]|]; simpl;
    try discriminate.
  destruct (py_float e0); simpl; [|discriminate].
  destruct (py_float e1); simpl; [|discriminate].
  destruct (py_float e2); simpl; [|discriminate].
  destruct (py_float e3); simpl; [|discriminate].
  now intros [= <-].
Qed.

Lemma ensure_pmtiles_bounds_four (upload_path : Path) (bundle_name : pystr)
    (work : Path) (w : World) (p : Path) (b : bounds) :
  res (ensure_pmtiles upload_path bundle_name work w) = Return (p, Some b) ->
  length b = 4.
Proof.
  pose proof (ensure_pmtiles_shape upload_path bundle_name work w) as Hshape.
  cbv zeta in Hshape.
  destruct Hshape
    as [[Hext Ho]|[[Hext (evs & r & Hran & Hev & Hres)]
       |[(Hpm & Hmb & Hzip & b' & evs & r & Hb & Hran & Hev & Hres)
        |[Hext Hzip]]]].
  - rewrite Ho. discriminate.
  - rewrite Hres. destruct r; discriminate.
  - rewrite Hres. destruct r; [|discriminate]. intros [= _ ->].
    exact (ogrinfo_bounds_four _ _ _ Hb).
  - destruct (res (unpack upload_path work w)) as [member|e].
    + destruct Hzip as (b' & evs & r & Hb & Hran & Hev & Hres).
      rewrite Hres. destruct r; [|discriminate]. intros [= _ ->].
      exact (ogrinfo_bounds_four _ _ _ Hb).
    + destruct Hzip as [Hres _]. rewrite Hres. discriminate.
Qed.

(** X8. Bounds are absent or hold exactly four numbers: whatever the
    introspection tool reports, the prober never gives a list of another
    length, and neither does the pipeline. *)
Theorem X8_bounds_have_four_numbers (upload_path : Path) (bundle_name : pystr)
    (work : Path) (w : World) :
  (forall p b, res (ogrinfo_bounds p w) = Return (Some b) -> length b = 4)
  /\ (forall p b,
        res (ensure_pmtiles upload_path bundle_name work w) = Return (p, Some b) ->
        length b = 4).
Proof.
  split; [intros p b; apply ogrinfo_bounds_four|].
  intros p b. apply ensure_pmtiles_bounds_four.
Qed.

(** ** Data flow between the stages *)

Lemma stage_commands_app (a b : list event) :
  stage_commands (a ++ b) = stage_commands a ++ stage_commands b.
Proof. unfold stage_commands. now rewrite spawned_app, filter_app. Qed.

Lemma stage_commands_ran (cmds : list (list pystr)) (evs : list event)
    (r : result unit) :
  (forall c, In c cmds -> exists s, stage_of_cmd c = Some s) ->
  ran cmds evs r -> stage_commands evs = spawned evs.
Proof.
  intros Hst Hran. apply ran_only_spawns in Hran.
  induction Hran as [|e evs (c & rr & -> & Hin) _ IH]; [reflexivity|].
  destruct (Hst c Hin) as [s Hs]. unfold stage_commands in *. simpl.
  now rewrite Hs, IH.
Qed.

Lemma stage_commands_unpack (upload_path work : Path) (w : World) :
  stage_commands (events (unpack upload_path work w)) = [].
Proof.
  pose proof (unpack_result upload_path work w) as H. cbv zeta in H.
  rewrite H. now destruct (fst (mkdir _ false w)).
Qed.

Lemma chained_stage_cmds (ext : pystr) (upload_path work : Path)
    (bundle_name : pystr) (src : Path) (k : nat) :
  chained (firstn k (stage_cmds ext upload_path work bundle_name src)).
Proof.
  unfold stage_cmds.
  destruct (eqb ext (lit ".geojson") || eqb ext (lit ".json"));
    destruct k as [|[|[|[|k]]]]; simpl; repeat split.
Qed.

(** X9. The stages of a run pass their data along: each stage started
    reads the path the stage before it was told to write; the first stage
    reads the upload itself, or for a [.zip] the selected member; and when
    the pipeline returns an archive it converted, that archive is what the
    last stage was told to write. *)
Theorem X9_stages_are_chained (upload_path : Path) (bundle_name : pystr)
    (work : Path) (w : World) :
  let ext := lower (suffix upload_path) in
  let o := ensure_pmtiles upload_path bundle_name work w in
  chained (stage_commands (events o))
  /\ (forall c rest, stage_commands (events o) = c :: rest ->
      reads_from c =
      Some (path_str
              (if eqb ext (lit ".zip")
               then match res (unpack upload_path work w) with
                    | Return member => member
                    | Raise _ => upload_path
                    end
               else upload_path)))
  /\ (forall p b, res o = Return (p, b) -> eqb ext (lit ".pmtiles") = false ->
      writes_to (last (stage_commands (events o)) []) = Some (path_str p)).
Proof.
  intros ext o.
  pose proof (ensure_pmtiles_shape upload_path bundle_name work w) as Hshape.
  cbv zeta in Hshape. fold ext in Hshape. fold o in Hshape.
  assert (Hstage : forall src c,
             In c (stage_cmds ext upload_path work bundle_name src) ->
             exists s, stage_of_cmd c = Some s)
    by (intros src c; apply stage_cmds_are_stages).
  assert (Hfirst : forall src k c rest,
             firstn k (stage_cmds ext upload_path work bundle_name src)
             = c :: rest ->
             reads_from c =
             Some (path_str
                     (if eqb ext (lit ".geojson") || eqb ext (lit ".json")
                      then upload_path else src))).
  { intros src k c rest. unfold stage_cmds.
    destruct (eqb ext (lit ".geojson") || eqb ext (lit ".json"));
      destruct k; simpl; try discriminate; now intros [= <- _]. }
  assert (Hlast : forall src,
             writes_to (last (stage_cmds ext upload_path work bundle_name src) [])
             = Some (path_str
                       (work // (safe_name bundle_name ++ lit ".pmtiles")))).
  { intros src. unfold stage_cmds.
    now destruct (eqb ext (lit ".geojson") || eqb ext (lit ".json")). }
  destruct Hshape
    as [[Hext Ho]|[[Hext (evs & r & Hran & Hev & Hres)]
       |[(Hpm & Hmb & Hzip & b & evs & r & Hb & Hran & Hev & Hres)
        |[Hext Hzip]]]].
  - rewrite Ho, Hext. simpl. repeat split; discriminate.
  - rewrite Hev, Hres, Hext.
    destruct (ran_single Hran) as (rr & -> & [[Hz ->]|[Hz ->]]); simpl.
    + split; [exact I|]. split.
      * now intros c rest [= <- <-].
      * now intros p b [= <- _] _.
    + split; [exact I|]. split.
      * now intros c rest [= <- <-].
      * discriminate.
  - rewrite Hev, Hres.
    change (stage_commands (?e :: evs)) with (stage_commands evs).
    rewrite (stage_commands_ran _ _ _ (Hstage _) Hran).
    split; [|split].
    + rewrite (ran_spawned Hran). apply chained_stage_cmds.
    + intros c rest Hc. rewrite (ran_spawned Hran) in Hc.
      rewrite (Hfirst _ _ _ _ Hc), Hzip.
      now destruct (eqb ext (lit ".geojson") || eqb ext (lit ".json")).
    + intros p b'. destruct r as [v|]; [|discriminate]. intros [= <- _] _.
      rewrite (ran_returned Hran eq_refl). apply Hlast.
  - rewrite Hext. simpl eqb. cbv iota.
    destruct (res (unpack upload_path work w)) as [member|e].
    + destruct Hzip as (b & evs & r & _ & Hran & Hev & Hres).
      rewrite Hev, Hres, stage_commands_app, stage_commands_unpack.
      simpl app.
      change (stage_commands (?e :: evs)) with (stage_commands evs).
      rewrite (stage_commands_ran _ _ _ (Hstage _) Hran).
      split; [|split].
      * rewrite (ran_spawned Hran). apply chained_stage_cmds.
      * intros c rest Hc. rewrite (ran_spawned Hran) in Hc.
        now rewrite (Hfirst _ _ _ _ Hc), Hext.
      * intros p b'. destruct r as [v|]; [|discriminate]. intros [= <- _] _.
        rewrite (ran_returned Hran eq_refl). apply Hlast.
    + destruct Hzip as [Hres Hev].
      rewrite Hev, Hres, stage_commands_unpack.
      split; [exact I|]. split; discriminate.
Qed.

(** ** Unpacking a container, case by case *)

(** X6. For a [.zip] upload the pipeline stops before any probe or stage
    in four cases: the directory [unzipped] cannot be created ([OSError]);
    [unzip] does not end with status zero and output that can be decoded
    (the error of [run] for the [unzip] command: [OSError] when it cannot
    be started, [RuntimeError] for a non-zero status, [UnicodeDecodeError]
    for output that is not valid text, whatever the status); a walk of the
    extracted tree breaks off before it has come to a member
    ([RecursionError] on a tree deeper than the recursion limit, or an
    [OSError]); the extracted tree has no entry named [*.shp] and no
    regular file ([HTTPException(400)], "Zip was empty or contained no
    files.").  In every other case the probe of the selected member comes
    right after [unzip]. *)
Theorem X6_zip_unpack_outcomes (upload_path : Path) (bundle_name : pystr)
    (work : Path) (w : World) :
  let unzip_dir := work // lit "unzipped" in
  let w1 := snd (mkdir unzip_dir false w) in
  let r := fst (subprocess_run (unzip_cmd upload_path unzip_dir) w1) in
  let w2 := snd (subprocess_run (unzip_cmd upload_path unzip_dir) w1) in
  let o := ensure_pmtiles upload_path bundle_name work w in
  lower (suffix upload_path) = lit ".zip" ->
  match fst (mkdir unzip_dir false w) with
  | Some m =>
      res o = Raise (OSError m) /\ events o = [EMkdir unzip_dir (Some m)]
  | None =>
      if exited_zero r then
        match selected unzip_dir w2 with
        | Raise e =>
            res o = Raise e
            /\ events o = [EMkdir unzip_dir None;
                           ESpawn (unzip_cmd upload_path unzip_dir) r]
            /\ ((e = empty_zip /\ select_member (walk unzip_dir w2) = None)
                \/ (exists pattern n f,
                      walk_breaks pattern unzip_dir w2 = Some (n, f)
                      /\ e = walk_exn f))
        | Return member =>
            exists rp rest,
              events o = EMkdir unzip_dir None
                         :: ESpawn (unzip_cmd upload_path unzip_dir) r
                         :: ESpawn (ogrinfo_cmd member) rp :: rest
        end
      else
        res o = Raise (run_error (unzip_cmd upload_path unzip_dir) r)
        /\ events o = [EMkdir unzip_dir None;
                       ESpawn (unzip_cmd upload_path unzip_dir) r]
        /\ match r with
           | inr m => run_error (unzip_cmd upload_path unzip_dir) r = OSError m
           | inl (Undecodable _) =>
               run_error (unzip_cmd upload_path unzip_dir) r
               = UnicodeDecodeError
           | inl (Exited rc out err) =>
               rc <> 0%Z
               /\ run_error (unzip_cmd upload_path unzip_dir) r
                  = RuntimeError
                      (CommandFailed (unzip_cmd upload_path unzip_dir) out err)
           end
  end.
Proof.
  intros unzip_dir w1 r w2 o Hext.
  pose proof (ensure_pmtiles_shape upload_path bundle_name work w) as Hshape.
  cbv zeta in Hshape. fold o in Hshape. rewrite Hext in Hshape.
  destruct Hshape as [[Hx _]|[[Hx _]|[(_ & _ & Hx & _)|[_ Hzip]]]];
    try discriminate.
  pose proof (unpack_result upload_path work w) as Hun. cbv zeta in Hun.
  fold unzip_dir in Hun. fold w1 in Hun. fold r w2 in Hun.
  rewrite Hun in Hzip. clear Hun.
  destruct (fst (mkdir unzip_dir false w)) as [m|]; simpl in Hzip.
  - exact Hzip.
  - destruct (exited_zero r) eqn:Hz.
    + destruct (selected unzip_dir w2) as [member|e] eqn:Hsel.
      * destruct Hzip as (b & evs & r' & _ & _ & Hev & _).
        do 2 eexists. exact Hev.
      * destruct Hzip as [Hres Hev]. split; [exact Hres|].
        split; [exact Hev|].
        destruct (@selected_raises _ _ _ _ Hsel) as [(-> & Hs & Hf)|H];
          [left|now right].
        split; [reflexivity|]. unfold select_member. now rewrite Hs.
    + destruct Hzip as [Hres Hev]. split; [exact Hres|].
      split; [exact Hev|].
      destruct r as [[rc out err|rc]|m]; try reflexivity.
      split; [|reflexivity]. simpl in Hz. now apply Z.eqb_neq.
Qed.

(** ** [create_bundle], case by case *)

Lemma create_bundle_publish_outcome (cfg : config)
    (bundle_id bundle_name description source_key : pystr)
    (pmtiles_path : Path) (bounds : option bounds) (w : World) :
  let pmtiles_key :=
    lit "pmtiles/" ++ bundle_id ++ lit "/" ++ safe_name bundle_name
      ++ lit ".pmtiles" in
  let ctype := extra_args (Some (lit "application/octet-stream")) in
  let stored := s3_upload_file pmtiles_path pmtiles_key ctype w in
  let rw := {| row_id := bundle_id; row_name := bundle_name;
               row_description := description;
               row_bounds := match bounds with
                             | Some (_ :: _) => bounds
                             | _ => None
                             end;
               row_source_key := source_key;
               row_pmtiles_key := pmtiles_key |} in
  let ins := db_insert rw (snd stored) in
  let op := create_bundle_publish cfg bundle_id bundle_name description
              source_key (pmtiles_path, bounds) w in
  match fst stored with
  | Some m =>
      res op = Raise (S3UploadFailedError m)
      /\ events op = [ES3Put pmtiles_path pmtiles_key ctype (Some m)]
  | None =>
      match fst ins with
      | Some m =>
          res op = Raise (DatabaseError m)
          /\ events op = [ES3Put pmtiles_path pmtiles_key ctype None;
                          EDbInsert rw (Some m)]
      | None =>
          res op =
          (if json_compliant bounds then
             Return {| resp_id := bundle_id; resp_name := bundle_name;
                       resp_description := description; resp_bounds := bounds;
                       resp_source_key := source_key;
                       resp_pmtiles_key := pmtiles_key;
                       resp_pmtiles_url :=
                         PUBLIC_TILES_BASE cfg ++ lit "/" ++ pmtiles_key |}
           else Raise ValueError)
          /\ events op = [ES3Put pmtiles_path pmtiles_key ctype None;
                          EDbInsert rw None]
      end
  end.
Proof.
  intros pmtiles_key ctype stored rw ins op. subst op.
  unfold create_bundle_publish. fold pmtiles_key. fold rw.
  rewrite bind_res, bind_events, s3_put_file_spec.
  cbn [res events world_after]. fold ctype. fold stored.
  destruct (fst stored) as [m|]; [split; reflexivity|].
  rewrite bind_res, bind_events, effect_spec. cbn [res events world_after].
  fold ins. rewrite bind_res, bind_events.
  destruct (fst ins) as [m|]; [split; reflexivity|].
  unfold JSONResponse. cbn [resp_bounds check ret res events world_after].
  destruct (json_compliant bounds); split; reflexivity.
Qed.

(** A run of [create_bundle], from the creation of the working directory
    to its removal. *)
Lemma create_bundle_outcome (cfg : config) (name description : pystr)
    (file : upload) (w : World) :
  let bundle_id := fst (uuid4 w) in
  let bundle_name := str_or (strip name) (lit "bundle") in
  let original_filename :=
    safe_name (str_or (match filename file with Some f => f | None => [] end)
                 (lit "upload")) in
  let work := WORKDIR cfg // bundle_id in
  let made := mkdir work true (snd (uuid4 w)) in
  let upload_path := work // original_filename in
  let source_key :=
    lit "sources/" ++ bundle_id ++ lit "/" ++ original_filename in
  let ctype := extra_args
                 (Some (match content_type file with
                        | Some ((_ :: _) as c) => c
                        | _ => lit "application/octet-stream"
                        end)) in
  let written := write_upload upload_path file (snd made) in
  let stored := s3_upload_file upload_path source_key ctype (snd written) in
  let oe := ensure_pmtiles upload_path bundle_name work (snd stored) in
  let o := create_bundle cfg name description file w in
  match fst made with
  | Some m => res o = Raise (OSError m) /\ events o = [EMkdir work (Some m)]
  | None =>
      exists removed,
        match fst written with
        | Some m =>
            res o = cleaned removed (Raise (OSError m))
            /\ events o = [EMkdir work None; EWrite upload_path (Some m);
                           ERmtree work removed]
        | None =>
            match fst stored with
            | Some m =>
                res o = cleaned removed (Raise (S3UploadFailedError m))
                /\ events o = [EMkdir work None; EWrite upload_path None;
                               ES3Put upload_path source_key ctype (Some m);
                               ERmtree work removed]
            | None =>
                match res oe with
                | Raise e =>
                    res o = cleaned removed (handled (Raise e))
                    /\ events o =
                       EMkdir work None :: EWrite upload_path None
                       :: ES3Put upload_path source_key ctype None
                       :: events oe ++ [ERmtree work removed]
                | Return pb =>
                    let op := create_bundle_publish cfg bundle_id bundle_name
                                description source_key pb (world_after oe) in
                    res o = cleaned removed (handled (res op))
                    /\ events o =
                       EMkdir work None :: EWrite upload_path None
                       :: ES3Put upload_path source_key ctype None
                       :: events oe ++ events op ++ [ERmtree work removed]
                end
            end
        end
  end.
Proof.
  intros bundle_id bundle_name original_filename work made upload_path
    source_key ctype written stored oe o.
  pose proof (create_bundle_result cfg name description file w) as Hcb.
  cbv zeta in Hcb.
  fold bundle_id bundle_name original_filename work in Hcb.
  fold made in Hcb. fold o in Hcb.
  destruct (fst made) as [m|]; [exact Hcb|].
  destruct Hcb as [Hres Hev].
  pose proof (create_bundle_guarded_outcome cfg bundle_id bundle_name
                description original_filename file work (snd made)) as Hg.
  cbv zeta in Hg. destruct Hg as [Hgev Hgres].
  rewrite Hgev in Hev. rewrite Hgres in Hres. clear Hgev Hgres.
  fold (handled (res (create_bundle_try cfg bundle_id bundle_name description
                        original_filename file work (snd made)))) in Hres.
  pose proof (create_bundle_try_outcome cfg bundle_id bundle_name
                description original_filename file work (snd made)) as Ht.
  cbv zeta in Ht. fold upload_path source_key ctype in Ht.
  fold written in Ht. fold stored in Ht. fold oe in Ht.
  eexists. rewrite Hres, Hev. clear Hres Hev.
  destruct (fst written) as [m|].
  { destruct Ht as [-> ->]. split; reflexivity. }
  destruct (fst stored) as [m|].
  { destruct Ht as [-> ->]. split; reflexivity. }
  destruct (res oe) as [pb|e].
  - destruct Ht as [-> ->]. split; [reflexivity|].
    cbn [app]. now rewrite <- app_assoc.
  - destruct Ht as [-> ->]. split; reflexivity.
Qed.

Lemma inserted_none (l : list event) :
  existsb is_db_insert l = false -> inserted l = [].
Proof.
  induction l as [|e l IH]; simpl; [reflexivity|].
  destruct e; simpl; try exact IH. discriminate.
Qed.

Lemma inserted_app (a b : list event) :
  inserted (a ++ b) = inserted a ++ inserted b.
Proof. unfold inserted. now rewrite flat_map_app. Qed.

Lemma s3_puts_none (l : list event) :
  existsb is_s3_put l = false -> s3_puts l = [].
Proof.
  induction l as [|e l IH]; simpl; [reflexivity|].
  destruct e; simpl; try exact IH. discriminate.
Qed.

Lemma s3_puts_app (a b : list event) :
  s3_puts (a ++ b) = s3_puts a ++ s3_puts b.
Proof. unfold s3_puts. now rewrite flat_map_app. Qed.

Lemma ensure_pmtiles_quiet (upload_path : Path) (bundle_name : pystr)
    (work : Path) (w : World) :
  let evs := events (ensure_pmtiles upload_path bundle_name work w) in
  s3_keys evs = [] /\ s3_puts evs = [] /\ inserted evs = []
  /\ existsb is_db_insert evs = false /\ existsb is_s3_put evs = false.
Proof.
  intros evs.
  assert (Hdb : existsb is_db_insert evs = false)
    by now apply ensure_pmtiles_never.
  assert (Hs3 : existsb is_s3_put evs = false)
    by now apply ensure_pmtiles_never.
  repeat split; auto using s3_keys_none, s3_puts_none, inserted_none.
Qed.

(** X10. When [create_bundle] returns, the answer and the catalogue agree:
    the run has stored exactly two objects, the raw upload under
    [sources/<id>/<safe file name>] and the archive under
    [pmtiles/<id>/<safe bundle name>.pmtiles], and has inserted exactly
    one row, whose id, name, description, bounds and keys are those of the
    answer; the URL of the answer is [PUBLIC_TILES_BASE/<archive key>]. *)
Theorem X10_created_bundle_recorded (cfg : config) (name description : pystr)
    (file : upload) (w : World) (resp : response) :
  let bundle_id := fst (uuid4 w) in
  let bundle_name := str_or (strip name) (lit "bundle") in
  let original_filename :=
    safe_name (str_or (match filename file with Some f => f | None => [] end)
                 (lit "upload")) in
  let source_key :=
    lit "sources/" ++ bundle_id ++ lit "/" ++ original_filename in
  let pmtiles_key :=
    lit "pmtiles/" ++ bundle_id ++ lit "/" ++ safe_name bundle_name
      ++ lit ".pmtiles" in
  let o := create_bundle cfg name description file w in
  res o = Return resp ->
  resp_id resp = bundle_id
  /\ resp_name resp = bundle_name
  /\ resp_description resp = description
  /\ resp_source_key resp = source_key
  /\ resp_pmtiles_key resp = pmtiles_key
  /\ resp_pmtiles_url resp = PUBLIC_TILES_BASE cfg ++ lit "/" ++ pmtiles_key
  /\ s3_keys (events o) = [source_key; pmtiles_key]
  /\ inserted (events o) =
     [{| row_id := bundle_id; row_name := bundle_name;
         row_description := description;
         row_bounds := resp_bounds resp;
         row_source_key := source_key;
         row_pmtiles_key := pmtiles_key |}].
Proof.
  intros bundle_id bundle_name original_filename source_key pmtiles_key o Hret.
  pose proof (create_bundle_outcome cfg name description file w) as H.
  cbv zeta in H. fold bundle_id bundle_name original_filename in H.
  fold source_key in H. fold o in H.
  set (work := WORKDIR cfg // bundle_id) in *.
  destruct (fst (mkdir work true (snd (uuid4 w)))) as [m|];
    [destruct H as [H _]; congruence|].
  destruct H as [removed H].
  set (upload_path := work // original_filename) in *.
  set (ctype := extra_args _) in *.
  destruct (fst (write_upload upload_path file _)) as [m|];
    [destruct H as [H _]; rewrite Hret in H; symmetry in H;
     apply cleaned_return in H; discriminate|].
  destruct (fst (s3_upload_file upload_path source_key ctype _)) as [m|];
    [destruct H as [H _]; rewrite Hret in H; symmetry in H;
     apply cleaned_return in H; discriminate|].
  set (oe := ensure_pmtiles upload_path bundle_name work _) in *.
  destruct (ensure_pmtiles_quiet upload_path bundle_name work
              (snd (s3_upload_file upload_path source_key ctype
                      (snd (write_upload upload_path file
                              (snd (mkdir work true (snd (uuid4 w)))))))))
    as (Hk & _ & Hi & _). fold oe in Hk, Hi.
  destruct (res oe) as [[pmp b]|e] eqn:Hoe.
  2:{ destruct H as [H _]. rewrite Hret in H. symmetry in H.
      apply cleaned_return in H. simpl in H.
      destruct (is_RuntimeError e); discriminate. }
  cbv zeta in H. destruct H as [Hres Hev].
  rewrite Hret in Hres. symmetry in Hres. apply cleaned_return in Hres.
  pose proof (create_bundle_publish_outcome cfg bundle_id bundle_name
                description source_key pmp b (world_after oe)) as Hp.
  cbv zeta in Hp. fold pmtiles_key in Hp.
  destruct (fst (s3_upload_file pmp pmtiles_key _ _)) as [m|].
  { destruct Hp as [Hp _]. rewrite Hp in Hres. discriminate. }
  destruct (fst (db_insert _ _)) as [m|].
  { destruct Hp as [Hp _]. rewrite Hp in Hres. discriminate. }
  destruct Hp as [Hpr Hpe]. rewrite Hpr in Hres.
  destruct (json_compliant b); simpl in Hres; [|discriminate].
  injection Hres as <-. cbn [resp_id resp_name resp_description resp_bounds
    resp_source_key resp_pmtiles_key resp_pmtiles_url].
  rewrite Hev, Hpe. repeat split.
  - simpl. rewrite s3_keys_app, Hk. reflexivity.
  - simpl. rewrite inserted_app, Hi. simpl. do 2 f_equal.
    destruct b as [[|f b]|]; try reflexivity.
    apply ensure_pmtiles_bounds_four in Hoe. discriminate.
Qed.

(** ** Errors of a run *)

Lemma ran_raise (cmds : list (list pystr)) (evs : list event)
    (r : result unit) :
  ran cmds evs r -> forall e, r = Raise e ->
  exists c rr, In (ESpawn c rr) evs /\ exited_zero rr = false
               /\ e = run_error c rr.
Proof.
  induction 1 as [|c cs r0 evs res _ _ IH|c cs r0 Hz]; intros e He.
  - discriminate.
  - destruct (IH e He) as (c' & rr & Hin & Hz & ->).
    exists c', rr. split; [now right|now split].
  - injection He as <-. exists c, r0. split; [now left|now split].
Qed.

Lemma run_error_cases (c : list pystr) (rr : completed + pystr) :
  exited_zero rr = false ->
  (exists m, rr = inr m /\ run_error c rr = OSError m)
  \/ (exists rc, rr = inl (Undecodable rc)
                 /\ run_error c rr = UnicodeDecodeError)
  \/ (exists rc out err,
        rr = inl (Exited rc out err) /\ rc <> 0%Z
        /\ run_error c rr = RuntimeError (CommandFailed c out err)).
Proof.
  destruct rr as [[rc out err|rc]|m]; simpl; intros Hz.
  - right; right. exists rc, out, err. repeat split. now apply Z.eqb_neq.
  - right; left. now exists rc.
  - left. now exists m.
Qed.

(** What [ensure_pmtiles] can raise. *)
Lemma ensure_pmtiles_raises (upload_path : Path) (bundle_name : pystr)
    (work : Path) (w : World) (e : exn) :
  let o := ensure_pmtiles upload_path bundle_name work w in
  res o = Raise e ->
  e = empty_zip
  \/ (exists m, e = OSError m)
  \/ (exists pattern n f w',
        walk_breaks pattern (work // lit "unzipped") w' = Some (n, f)
        /\ e = walk_exn f)
  \/ (exists c rr, In (ESpawn c rr) (events o) /\ exited_zero rr = false
                   /\ e = run_error c rr).
Proof.
  intros o He.
  pose proof (ensure_pmtiles_shape upload_path bundle_name work w) as Hshape.
  cbv zeta in Hshape. fold o in Hshape.
  destruct Hshape
    as [[Hext Ho]|[[Hext (evs & r & Hran & Hev & Hres)]
       |[(Hpm & Hmb & Hzip & b & evs & r & Hb & Hran & Hev & Hres)
        |[Hext Hzip]]]].
  - rewrite Ho in He. discriminate.
  - rewrite Hres in He. destruct r as [v|e']; [discriminate|].
    injection He as ->.
    destruct (ran_raise _ _ _ Hran _ eq_refl) as (c & rr & Hin & Hz & ->).
    right; right; right. exists c, rr. rewrite Hev. now repeat split.
  - rewrite Hres in He. destruct r as [v|e']; [discriminate|].
    injection He as ->.
    destruct (ran_raise _ _ _ Hran _ eq_refl) as (c & rr & Hin & Hz & ->).
    right; right; right. exists c, rr. rewrite Hev. split; [now right|now split].
  - pose proof (unpack_result upload_path work w) as Hun. cbv zeta in Hun.
    destruct (res (unpack upload_path work w)) as [member|e'] eqn:Hr.
    + destruct Hzip as (b & evs & r & _ & Hran & Hev & Hres).
      rewrite Hres in He. destruct r as [v|e'']; [discriminate|].
      injection He as ->.
      destruct (ran_raise _ _ _ Hran _ eq_refl) as (c & rr & Hin & Hz & ->).
      right; right; right. exists c, rr. rewrite Hev.
      split; [apply in_or_app; right; now right|now split].
    + destruct Hzip as [Hres Hev]. rewrite Hres in He. injection He as ->.
      rewrite Hev. rewrite Hun in Hr |- *.
      destruct (fst (mkdir _ false w)) as [m|]; simpl in Hr |- *.
      * injection Hr as <-. right; left. now exists m.
      * destruct (exited_zero _) eqn:Hz.
        -- destruct (@selected_raises _ _ _ _ Hr)
             as [(-> & _)|(pattern & n & f & Hb & ->)]; [now left|].
           right; right; left. exists pattern, n, f. eexists.
           split; [exact Hb|reflexivity].
        -- injection Hr as <-. right; right; right. do 2 eexists.
           split; [right; left; reflexivity|now split].
Qed.

(** Any command but the probe that does not exit with status zero ends
    [ensure_pmtiles] with its error. *)
Lemma command_failure_aborts (upload_path : Path) (bundle_name : pystr)
    (work : Path) (w : World) (c : list pystr) (rr : completed + pystr) :
  let o := ensure_pmtiles upload_path bundle_name work w in
  In (ESpawn c rr) (events o) ->
  exited_zero rr = false ->
  eqb (program c) (lit "ogrinfo") = false ->
  res o = Raise (run_error c rr).
Proof.
  intros o Hin Hz Hprog.
  pose proof (ensure_pmtiles_shape upload_path bundle_name work w) as Hshape.
  cbv zeta in Hshape. fold o in Hshape.
  assert (Hprobe : forall p r, ESpawn (ogrinfo_cmd p) r = ESpawn c rr -> False).
  { intros p r [= <- _]. discriminate. }
  assert (Hchain : forall cmds evs r,
             ran cmds evs r -> In (ESpawn c rr) evs ->
             r = Raise (run_error c rr)).
  { intros cmds evs r Hran Hin'.
    now destruct (ran_failure_last Hran _ _ Hin' Hz) as (pre & _ & ->). }
  destruct Hshape
    as [[Hext Ho]|[[Hext (evs & r & Hran & Hev & Hres)]
       |[(Hpm & Hmb & Hzip & b & evs & r & Hb & Hran & Hev & Hres)
        |[Hext Hzip]]]].
  - rewrite Ho in Hin. contradiction.
  - rewrite Hev in Hin. now rewrite Hres, (Hchain _ _ _ Hran Hin).
  - rewrite Hev in Hin. destruct Hin as [Hin|Hin];
      [now apply Hprobe in Hin|].
    now rewrite Hres, (Hchain _ _ _ Hran Hin).
  - pose proof (unpack_result upload_path work w) as Hun. cbv zeta in Hun.
    destruct (res (unpack upload_path work w)) as [member|e] eqn:Hr.
    + destruct Hzip as (b & evs & r & _ & Hran & Hev & Hres).
      rewrite Hev in Hin. apply in_app_or in Hin.
      destruct Hin as [Hin|[Hin|Hin]].
      * exfalso. rewrite Hun in Hr, Hin.
        destruct (fst (mkdir _ false w)); simpl in Hr, Hin; [discriminate|].
        destruct Hin as [|[[= <- <-]|[]]]; [discriminate|].
        rewrite Hz in Hr. discriminate.
      * now apply Hprobe in Hin.
      * now rewrite Hres, (Hchain _ _ _ Hran Hin).
    + destruct Hzip as [Hres Hev]. rewrite Hev in Hin. rewrite Hres.
      rewrite Hun in Hr, Hin.
      destruct (fst (mkdir _ false w)); simpl in Hr, Hin.
      * destruct Hin as [|[]]; discriminate.
      * destruct Hin as [|[[= <- <-]|[]]]; [discriminate|].
        rewrite Hz in Hr. now injection Hr as <-.
Qed.

(** A process started by [create_bundle] has been started by the pipeline
    it calls, after the upload was written and stored. *)
Lemma spawn_in_run (cfg : config) (name description : pystr)
    (file : upload) (w : World) (c : list pystr) (rr : completed + pystr) :
  let bundle_id := fst (uuid4 w) in
  let bundle_name := str_or (strip name) (lit "bundle") in
  let original_filename :=
    safe_name (str_or (match filename file with Some f => f | None => [] end)
                 (lit "upload")) in
  let work := WORKDIR cfg // bundle_id in
  let made := mkdir work true (snd (uuid4 w)) in
  let upload_path := work // original_filename in
  let source_key :=
    lit "sources/" ++ bundle_id ++ lit "/" ++ original_filename in
  let ctype := extra_args
                 (Some (match content_type file with
                        | Some ((_ :: _) as c) => c
                        | _ => lit "application/octet-stream"
                        end)) in
  let written := write_upload upload_path file (snd made) in
  let stored := s3_upload_file upload_path source_key ctype (snd written) in
  let oe := ensure_pmtiles upload_path bundle_name work (snd stored) in
  let o := create_bundle cfg name description file w in
  In (ESpawn c rr) (events o) ->
  fst made = None /\ fst written = None /\ fst stored = None
  /\ In (ESpawn c rr) (events oe).
Proof.
  intros bundle_id bundle_name original_filename work made upload_path
    source_key ctype written stored oe o Hin.
  pose proof (create_bundle_outcome cfg name description file w) as H.
  cbv zeta in H.
  fold bundle_id bundle_name original_filename work made upload_path in H.
  fold source_key ctype written stored oe o in H.
  destruct (fst made) as [m|].
  { destruct H as [_ Hev]. rewrite Hev in Hin.
    destruct Hin as [|[]]; discriminate. }
  destruct H as [removed H].
  destruct (fst written) as [m|].
  { destruct H as [_ Hev]. rewrite Hev in Hin.
    destruct Hin as [|[|[|[]]]]; discriminate. }
  destruct (fst stored) as [m|].
  { destruct H as [_ Hev]. rewrite Hev in Hin.
    destruct Hin as [|[|[|[|[]]]]]; discriminate. }
  repeat split.
  destruct (res oe) as [pb|e].
  - cbv zeta in H. destruct H as [_ Hev]. rewrite Hev in Hin.
    destruct Hin as [|[|[|Hin]]]; try discriminate.
    apply in_app_or in Hin. destruct Hin as [Hin|Hin]; [exact Hin|].
    apply in_app_or in Hin. destruct Hin as [Hin|[|[]]]; [|discriminate].
    apply (@never_In _ _ _ _ _ _
             (create_bundle_publish_no_spawn cfg bundle_id bundle_name
                description source_key pb)) in Hin.
    discriminate.
  - destruct H as [_ Hev]. rewrite Hev in Hin.
    destruct Hin as [|[|[|Hin]]]; try discriminate.
    apply in_app_or in Hin. destruct Hin as [Hin|[|[]]];
      [exact Hin|discriminate].
Qed.

(** A removal that did not raise leaves the pending result as it is. *)
Lemma cleaned_unless_aborted {A} (evs : list event) (p : Path) (r : removal)
    (pending : result A) :
  In (ERmtree p r) evs -> existsb removal_aborted evs = false ->
  cleaned r pending = pending.
Proof.
  intros Hin Hna. destruct r as [|m|m]; try reflexivity.
  assert (existsb removal_aborted evs = true)
    by (apply existsb_exists; now exists (ERmtree p (RemovalAborted m))).
  congruence.
Qed.

Ltac removal_in Hev :=
  rewrite Hev; repeat first [ now left | apply in_or_app; right | right ].

(** X12. Any command other than the probe that does not end with status
    zero and output that can be decoded ends the request, [unzip]
    included, and no row is inserted.  Unless the removal of the working
    directory itself raises, the caller gets [HTTPException(400)] with the
    command and its two streams when the process exited with a non-zero
    status; when the program could not be started the [OSError] itself
    goes to the caller, and when its output could not be decoded the
    [UnicodeDecodeError] does, neither of them a 400. *)
Theorem X12_failed_command_ends_request (cfg : config)
    (name description : pystr) (file : upload) (w : World)
    (c : list pystr) (rr : completed + pystr) :
  let o := create_bundle cfg name description file w in
  In (ESpawn c rr) (events o) ->
  exited_zero rr = false ->
  eqb (program c) (lit "ogrinfo") = false ->
  (existsb removal_aborted (events o) = false ->
   res o = match rr with
           | inr m => Raise (OSError m)
           | inl (Undecodable _) => Raise UnicodeDecodeError
           | inl (Exited _ out err) =>
               Raise (HTTPException 400 (CommandFailed c out err))
           end)
  /\ existsb is_db_insert (events o) = false.
Proof.
  intros o Hin Hz Hprog.
  pose proof (spawn_in_run cfg name description file w c rr) as S.
  cbv zeta in S. destruct (S Hin) as (Hm & Hw & Hs & Hoe). clear S.
  pose proof (create_bundle_outcome cfg name description file w) as H.
  cbv zeta in H. fold o in H. rewrite Hm in H. destruct H as [removed H].
  rewrite Hw, Hs in H.
  pose proof (command_failure_aborts _ _ _ _ _ _ Hoe Hz Hprog) as Hr.
  cbv zeta in Hr. rewrite Hr in H. destruct H as [Hres Hev].
  split.
  - intros Hna. rewrite Hres.
    rewrite (cleaned_unless_aborted (events o) _ removed _
               ltac:(removal_in Hev) Hna).
    now destruct rr as [[rc out err|rc]|m].
  - rewrite Hev. simpl. rewrite existsb_app. simpl. rewrite orb_false_r.
    now apply ensure_pmtiles_never.
Qed.

(** X7. [create_bundle] answers with an [HTTPException] in three cases
    only, all with status 400: the container was empty ("Zip was empty or
    contained no files."); a command of the run exited with a non-zero
    status, the detail being that command with its output; or a walk of
    the unpacked tree broke off with [RecursionError], which is a
    [RuntimeError], the detail being the text of that error. *)
Theorem X7_bad_request_sources (cfg : config) (name description : pystr)
    (file : upload) (w : World) (st : Z) (d : message) :
  let o := create_bundle cfg name description file w in
  res o = Raise (HTTPException st d) ->
  st = 400%Z
  /\ (d = Text (lit "Zip was empty or contained no files.")
      \/ (exists c rc out err,
            d = CommandFailed c out err
            /\ In (ESpawn c (inl (Exited rc out err))) (events o)
            /\ rc <> 0%Z)
      \/ (exists pattern n m w',
            walk_breaks pattern
              (WORKDIR cfg // fst (uuid4 w) // lit "unzipped") w'
            = Some (n, TooDeep m)
            /\ d = Text m)).
Proof.
  intros o Hres.
  pose proof (create_bundle_outcome cfg name description file w) as H.
  cbv zeta in H. fold o in H.
  destruct (fst (mkdir _ true _)) as [m|];
    [destruct H as [H _]; congruence|].
  destruct H as [removed H].
  destruct (fst (write_upload _ file _)) as [m|];
    [destruct H as [H _]; rewrite Hres in H; symmetry in H;
     apply cleaned_http in H; discriminate|].
  destruct (fst (s3_upload_file _ _ _ _)) as [m|];
    [destruct H as [H _]; rewrite Hres in H; symmetry in H;
     apply cleaned_http in H; discriminate|].
  match type of H with
  | match res ?x with _ => _ end => set (oe := x) in *
  end.
  destruct (res oe) as [[pmp b]|e] eqn:Hoe.
  - cbv zeta in H. destruct H as [Hr _]. rewrite Hres in Hr.
    symmetry in Hr. apply cleaned_http in Hr.
    pose proof (create_bundle_publish_outcome cfg (fst (uuid4 w))
                  (str_or (strip name) (lit "bundle")) description
                  (lit "sources/" ++ fst (uuid4 w) ++ lit "/" ++
                   safe_name (str_or (match filename file with
                                      | Some f => f
                                      | None => []
                                      end) (lit "upload")))
                  pmp b (world_after oe)) as Hp.
    cbv zeta in Hp.
    destruct (fst (s3_upload_file pmp _ _ _)) as [m|].
    { destruct Hp as [Hp _]. rewrite Hp in Hr. discriminate. }
    destruct (fst (db_insert _ _)) as [m|];
      destruct Hp as [Hp _]; rewrite Hp in Hr; [discriminate|].
    destruct (json_compliant b); discriminate.
  - destruct H as [Hr Hev]. rewrite Hres in Hr.
    symmetry in Hr. apply cleaned_http in Hr.
    destruct (ensure_pmtiles_raises _ _ _ _ _ Hoe)
      as [->|[[m ->]|[(pattern & n & f & w' & Hb & ->)
                     |(c & rr & Hin & Hz & ->)]]].
    + injection Hr as <- <-. split; [reflexivity|now left].
    + discriminate.
    + destruct f as [m|m]; simpl in Hr; [|discriminate].
      injection Hr as <- <-. split; [reflexivity|]. right; right.
      now exists pattern, n, m, w'.
    + destruct (run_error_cases c rr Hz)
        as [(m & -> & Hm)|[(rc & -> & Hm)
                          |(rc & out & err & -> & Hrc & Hm)]];
        rewrite Hm in Hr; simpl in Hr; try discriminate.
      injection Hr as <- <-. split; [reflexivity|]. right; left.
      exists c, rc, out, err. split; [reflexivity|]. split; [|exact Hrc].
      rewrite Hev. do 3 right. apply in_or_app. now left.
Qed.

Lemma allowed_not_slash (t : pystr) :
  forallb allowed t = true -> ~ In slash t.
Proof.
  intros H Hin. rewrite forallb_forall in H. now apply H in Hin.
Qed.

(** The stores and the insertion of a run, from its outcome. *)
Lemma records_in_run (cfg : config) (name description : pystr)
    (file : upload) (w : World) :
  let bundle_id := fst (uuid4 w) in
  let bundle_name := str_or (strip name) (lit "bundle") in
  let original_filename :=
    safe_name (str_or (match filename file with Some f => f | None => [] end)
                 (lit "upload")) in
  let work := WORKDIR cfg // bundle_id in
  let upload_path := work // original_filename in
  let source_key :=
    lit "sources/" ++ bundle_id ++ lit "/" ++ original_filename in
  let pmtiles_key :=
    lit "pmtiles/" ++ bundle_id ++ lit "/" ++ safe_name bundle_name
      ++ lit ".pmtiles" in
  let o := create_bundle cfg name description file w in
  (forall p k ct r, In (ES3Put p k ct r) (events o) ->
     (exists c, ct = Some c /\ c <> [])
     /\ ((p = upload_path /\ k = source_key)
         \/ (k = pmtiles_key
             /\ s3_keys (events o) = source_key :: match r with
                                                   | None => [pmtiles_key]
                                                   | Some _ => []
                                                   end
             /\ (lower (suffix upload_path) = lit ".pmtiles" ->
                 p = upload_path))))
  /\ (forall rw r, In (EDbInsert rw r) (events o) ->
        s3_keys (events o) = [source_key; pmtiles_key]
        /\ row_source_key rw = source_key /\ row_pmtiles_key rw = pmtiles_key
        /\ (existsb removal_aborted (events o) = false ->
            res o = match r with
                    | Some m => Raise (DatabaseError m)
                    | None => res o
                    end)).
Proof.
  intros bundle_id bundle_name original_filename work upload_path source_key
    pmtiles_key o.
  pose proof (create_bundle_outcome cfg name description file w) as H.
  cbv zeta in H.
  fold bundle_id bundle_name original_filename work upload_path in H.
  fold source_key o in H.
  assert (Hct : exists c,
             extra_args (Some (match content_type file with
                               | Some ((_ :: _) as c) => c
                               | _ => lit "application/octet-stream"
                               end)) = Some c /\ c <> []).
  { destruct (content_type file) as [[|x c]|]; cbn; eexists;
      (split; [reflexivity|discriminate]). }
  set (ctype := extra_args (Some (match content_type file with
                                  | Some ((_ :: _) as c) => c
                                  | _ => lit "application/octet-stream"
                                  end))) in *.
  destruct (fst (mkdir work true _)) as [m|].
  { destruct H as [_ Hev]. rewrite Hev.
    split; intros; repeat (destruct H as [H|H]; try discriminate);
      contradiction. }
  destruct H as [removed H].
  destruct (fst (write_upload upload_path file _)) as [m|].
  { destruct H as [_ Hev]. rewrite Hev.
    split; intros; repeat (destruct H as [H|H]; try discriminate);
      contradiction. }
  destruct (fst (s3_upload_file upload_path source_key ctype _)) as [m|].
  { destruct H as [_ Hev]. rewrite Hev. split.
    - intros p k ct r Hin.
      destruct Hin as [|[|[[= <- <- <- <-]|[|[]]]]]; try discriminate.
      split; [exact Hct|]. left. now split.
    - intros; repeat (destruct H as [H|H]; try discriminate); contradiction. }
  match type of H with
  | match res ?x with _ => _ end => set (oe := x) in *
  end.
  assert (Hq : s3_keys (events oe) = []
               /\ forall e, In e (events oe) ->
                            is_s3_put e = false /\ is_db_insert e = false).
  { split; [apply ensure_pmtiles_quiet|].
    intros e He. split.
    - apply (@never_In _ _ _ _ _ _
               (@ensure_pmtiles_never _ is_s3_put upload_path bundle_name work
                  (fun _ _ => eq_refl) (fun _ _ => eq_refl)) He).
    - apply (@never_In _ _ _ _ _ _
               (@ensure_pmtiles_never _ is_db_insert upload_path bundle_name
                  work (fun _ _ => eq_refl) (fun _ _ => eq_refl)) He). }
  destruct Hq as [Hk Hq].
  destruct (res oe) as [[pmp b]|e] eqn:Hoe.
  - cbv zeta in H. destruct H as [Hr Hev].
    pose proof (create_bundle_publish_outcome cfg bundle_id bundle_name
                  description source_key pmp b (world_after oe)) as Hp.
    cbv zeta in Hp. fold pmtiles_key in Hp.
    assert (Hpass : lower (suffix upload_path) = lit ".pmtiles" ->
                    pmp = upload_path).
    { intros Hext. subst oe.
      rewrite (@ensure_pmtiles_passthrough _ upload_path bundle_name work _ Hext)
        in Hoe.
      now injection Hoe as <- _. }
    destruct (fst (s3_upload_file pmp pmtiles_key _ _)) as [m|].
    + destruct Hp as [_ Hpe]. rewrite Hev, Hpe. split.
      * intros p k ct r Hin.
        destruct Hin as [|[|[[= <- <- <- <-]|Hin]]]; try discriminate.
        { split; [exact Hct|]. left. now split. }
        apply in_app_or in Hin. destruct Hin as [Hin|Hin].
        { apply Hq in Hin. destruct Hin; discriminate. }
        destruct Hin as [[= <- <- <- <-]|[|[]]]; [|discriminate].
        split; [eexists; split; [reflexivity|discriminate]|]. right.
        split; [reflexivity|]. split; [|exact Hpass].
        simpl. now rewrite s3_keys_app, Hk.
      * intros rw r Hin.
        destruct Hin as [|[|[|Hin]]]; try discriminate.
        apply in_app_or in Hin. destruct Hin as [Hin|Hin].
        { apply Hq in Hin. destruct Hin; discriminate. }
        destruct Hin as [|[|[]]]; discriminate.
    + assert (Hkeys : forall rw r,
                 s3_keys (EMkdir work None :: EWrite upload_path None
                          :: ES3Put upload_path source_key ctype None
                          :: events oe ++
                             [ES3Put pmp pmtiles_key
                                (extra_args (Some (lit "application/octet-stream")))
                                None; EDbInsert rw r] ++
                             [ERmtree work removed])
                 = [source_key; pmtiles_key]).
      { intros rw r. simpl. now rewrite s3_keys_app, Hk. }
      destruct (fst (db_insert _ _)) as [m|];
        destruct Hp as [Hpr Hpe]; rewrite Hev, Hpe; (split;
        [ intros p k ct r Hin;
          destruct Hin as [|[|[[= <- <- <- <-]|Hin]]]; try discriminate;
          [ split; [exact Hct|]; left; now split |];
          apply in_app_or in Hin; destruct Hin as [Hin|Hin];
          [ apply Hq in Hin; destruct Hin; discriminate |];
          destruct Hin as [[= <- <- <- <-]|[|[|[]]]]; try discriminate;
          split; [eexists; split; [reflexivity|discriminate]|]; right;
          split; [reflexivity|]; split; [apply Hkeys|exact Hpass]
        | intros rw r Hin;
          destruct Hin as [|[|[|Hin]]]; try discriminate;
          apply in_app_or in Hin; destruct Hin as [Hin|Hin];
          [ apply Hq in Hin; destruct Hin; discriminate |];
          destruct Hin as [|[[= <- <-]|[|[]]]]; try discriminate;
          split; [apply Hkeys|]; split; [reflexivity|];
          split; [reflexivity|] ]).
      * intros Hna. rewrite Hr, Hpr. cbn [handled is_RuntimeError].
        eapply cleaned_unless_aborted; [|exact Hna].
        repeat first [ now left | apply in_or_app; right | right ].
      * reflexivity.
  - destruct H as [_ Hev]. rewrite Hev. split.
    + intros p k ct r Hin.
      destruct Hin as [|[|[[= <- <- <- <-]|Hin]]]; try discriminate.
      { split; [exact Hct|]. left. now split. }
      apply in_app_or in Hin. destruct Hin as [Hin|[|[]]]; [|discriminate].
      apply Hq in Hin. destruct Hin; discriminate.
    + intros rw r Hin.
      destruct Hin as [|[|[|Hin]]]; try discriminate.
      apply in_app_or in Hin. destruct Hin as [Hin|[|[]]]; [|discriminate].
      apply Hq in Hin. destruct Hin; discriminate.
Qed.

(** X11. A row is inserted, or its insertion attempted, only once both
    objects have been stored, and its two keys are the keys they were
    stored under; when the insertion fails, both objects stay in object
    storage and, unless the removal of the working directory itself
    raises, the request fails with the error of the database. *)
Theorem X11_row_only_after_both_objects (cfg : config)
    (name description : pystr) (file : upload) (w : World)
    (rw : row) (r : option pystr) :
  let bundle_id := fst (uuid4 w) in
  let source_key :=
    lit "sources/" ++ bundle_id ++ lit "/" ++
    safe_name (str_or (match filename file with Some f => f | None => [] end)
                 (lit "upload")) in
  let pmtiles_key :=
    lit "pmtiles/" ++ bundle_id ++ lit "/" ++
    safe_name (str_or (strip name) (lit "bundle")) ++ lit ".pmtiles" in
  let o := create_bundle cfg name description file w in
  In (EDbInsert rw r) (events o) ->
  s3_keys (events o) = [source_key; pmtiles_key]
  /\ row_source_key rw = source_key
  /\ row_pmtiles_key rw = pmtiles_key
  /\ (forall m, r = Some m ->
      existsb removal_aborted (events o) = false ->
      res o = Raise (DatabaseError m)).
Proof.
  intros bundle_id source_key pmtiles_key o Hin.
  destruct (records_in_run cfg name description file w) as [_ H].
  destruct (H rw r Hin) as (Hk & Hs & Hp & Hr).
  repeat split; try assumption. intros m -> Hna. exact (Hr Hna).
Qed.

(** X17. Once the working directory of a run has been created, its removal
    is attempted exactly once, as the last thing the run does, whether the
    guarded body returned, raised an error that is handled or raised any
    other one.  When the removal ends without raising -- the tree is
    removed, or an [OSError] is swallowed by [ignore_errors=True] -- the
    result of the run is the result of the guarded body; when the removal
    raises, its error is the result of the run, whatever the guarded body
    had returned or raised.  When the directory could not be created the
    run ends with that error and there is nothing to remove. *)
Theorem X17_removal_once_and_last (cfg : config)
    (name description : pystr) (file : upload) (w : World) :
  let bundle_id := fst (uuid4 w) in
  let bundle_name := str_or (strip name) (lit "bundle") in
  let original_filename :=
    safe_name (str_or (match filename file with Some f => f | None => [] end)
                 (lit "upload")) in
  let work := WORKDIR cfg // bundle_id in
  let made := mkdir work true (snd (uuid4 w)) in
  let guarded :=
    create_bundle_guarded cfg bundle_id bundle_name description
      original_filename file work (snd made) in
  let o := create_bundle cfg name description file w in
  match fst made with
  | Some m =>
      res o = Raise (OSError m) /\ events o = [EMkdir work (Some m)]
  | None =>
      exists removed,
        events o = EMkdir work None :: events guarded ++
                   [ERmtree work removed]
        /\ filter is_rmtree (events o) = [ERmtree work removed]
        /\ res o = match removed with
                   | RemovalAborted m => Raise (RecursionError m)
                   | Removed | RemovalFailed _ => res guarded
                   end
  end.
Proof.
  intros bundle_id bundle_name original_filename work made guarded o.
  pose proof (create_bundle_result cfg name description file w) as H.
  cbv zeta in H. fold bundle_id bundle_name original_filename work in H.
  fold made in H. fold guarded in H. fold o in H.
  destruct (fst made) as [m|]; [exact H|].
  destruct H as [Hres Hev].
  exists (fst (rmtree work (world_after guarded))).
  split; [exact Hev|]. split; [|exact Hres].
  rewrite Hev. simpl. rewrite filter_app, filter_none; [reflexivity|].
  apply create_bundle_guarded_no_rmtree.
Qed.

(** X18. The answer is rendered after the row has been inserted, and
    [JSONResponse] refuses bounds that are not finite numbers.  Once the
    row is in the catalogue, and unless the removal of the working
    directory raises, the request returns exactly when every bound of the
    row is finite, with those bounds in the answer; otherwise it fails
    with [ValueError], and the row it inserted stays in the catalogue. *)
Theorem X18_answer_needs_finite_bounds (cfg : config)
    (name description : pystr) (file : upload) (w : World) (rw : row) :
  let o := create_bundle cfg name description file w in
  In (EDbInsert rw None) (events o) ->
  existsb removal_aborted (events o) = false ->
  inserted (events o) = [rw]
  /\ if json_compliant (row_bounds rw)
     then exists resp, res o = Return resp /\ resp_bounds resp = row_bounds rw
     else res o = Raise ValueError.
Proof.
  intros o Hin Hna.
  pose proof (create_bundle_outcome cfg name description file w) as H.
  cbv zeta in H. fold o in H.
  set (bundle_id := fst (uuid4 w)) in *.
  set (bundle_name := str_or (strip name) (lit "bundle")) in *.
  set (work := WORKDIR cfg // bundle_id) in *.
  destruct (fst (mkdir work true _)) as [m|].
  { destruct H as [_ Hev]. rewrite Hev in Hin.
    destruct Hin as [|[]]; discriminate. }
  destruct H as [removed H].
  destruct (fst (write_upload _ file _)) as [m|].
  { destruct H as [_ Hev]. rewrite Hev in Hin.
    repeat (destruct Hin as [Hin|Hin]; try discriminate). contradiction. }
  destruct (fst (s3_upload_file _ _ _ _)) as [m|].
  { destruct H as [_ Hev]. rewrite Hev in Hin.
    repeat (destruct Hin as [Hin|Hin]; try discriminate). contradiction. }
  match type of H with
  | match res ?x with _ => _ end => set (oe := x) in *
  end.
  assert (Hq : inserted (events oe) = []
               /\ forall e, In e (events oe) -> is_db_insert e = false).
  { split; [apply ensure_pmtiles_quiet|].
    intros e He.
    apply (@never_In _ _ _ _ _ _
             (@ensure_pmtiles_never _ is_db_insert _ bundle_name work
                (fun _ _ => eq_refl) (fun _ _ => eq_refl)) He). }
  destruct Hq as [Hi Hq].
  destruct (res oe) as [[pmp b]|e] eqn:Hoe.
  2:{ destruct H as [_ Hev]. rewrite Hev in Hin.
      destruct Hin as [|[|[|Hin]]]; try discriminate.
      apply in_app_or in Hin. destruct Hin as [Hin|[|[]]]; [|discriminate].
      apply Hq in Hin. discriminate. }
  cbv zeta in H. destruct H as [Hres Hev].
  rewrite (cleaned_unless_aborted (events o) work removed _
             ltac:(removal_in Hev) Hna) in Hres.
  match type of Hres with
  | _ = handled (res (create_bundle_publish _ _ _ _ ?sk _ _)) =>
      pose proof (create_bundle_publish_outcome cfg bundle_id bundle_name
                    description sk pmp b (world_after oe)) as Hp
  end.
  cbv zeta in Hp.
  assert (Hb : match b with Some (_ :: _) => b | _ => None end = b).
  { destruct b as [[|f b]|]; try reflexivity.
    apply ensure_pmtiles_bounds_four in Hoe. discriminate. }
  rewrite Hb in Hp.
  destruct (fst (s3_upload_file pmp _ _ _)) as [m|].
  { destruct Hp as [_ Hpe]. rewrite Hev, Hpe in Hin.
    destruct Hin as [|[|[|Hin]]]; try discriminate.
    apply in_app_or in Hin. destruct Hin as [Hin|Hin].
    - apply Hq in Hin. discriminate.
    - repeat (destruct Hin as [Hin|Hin]; try discriminate). contradiction. }
  destruct (fst (db_insert _ _)) as [m|]; destruct Hp as [Hpr Hpe];
    rewrite Hev, Hpe in Hin |- *;
    (destruct Hin as [|[|[|Hin]]]; try discriminate;
     apply in_app_or in Hin; destruct Hin as [Hin|Hin];
     [apply Hq in Hin; discriminate|]);
    destruct Hin as [|[Hin|[|[]]]]; try discriminate.
  injection Hin as <-. cbn [row_bounds]. split.
  - simpl. rewrite inserted_app, Hi. reflexivity.
  - rewrite Hres, Hpr. destruct (json_compliant b); [|reflexivity].
    eexists. split; reflexivity.
Qed.

(** X13. Every object [create_bundle] stores, or tries to store, goes
    under [sources/<id>/<t>] or [pmtiles/<id>/<t>] where [t] is made of
    letters, digits, dots, underscores and hyphens only, so that what the
    user typed never adds a [/] to a key; and every upload carries a
    non-empty content type. *)
Theorem X13_keys_are_safe (cfg : config) (name description : pystr)
    (file : upload) (w : World) (p : Path) (k : pystr) (ct r : option pystr) :
  let o := create_bundle cfg name description file w in
  In (ES3Put p k ct r) (events o) ->
  exists prefix t c,
    k = prefix ++ fst (uuid4 w) ++ lit "/" ++ t
    /\ (prefix = lit "sources/" \/ prefix = lit "pmtiles/")
    /\ forallb allowed t = true
    /\ ~ In slash t
    /\ ct = Some c /\ c <> [].
Proof.
  intros o Hin.
  destruct (records_in_run cfg name description file w) as [H _].
  destruct (H p k ct r Hin) as ((c & Hc & Hne) & [[_ ->]|[-> _]]).
  - set (t := safe_name (str_or (match filename file with
                                 | Some f => f
                                 | None => []
                                 end) (lit "upload"))).
    assert (Ht : forallb allowed t = true).
    { pose proof (safe_name_matches
                    (str_or (match filename file with
                             | Some f => f
                             | None => []
                             end) (lit "upload"))) as Hm.
      apply matches_token_spec in Hm. tauto. }
    exists (lit "sources/"), t, c. split; [reflexivity|].
    split; [now left|]. split; [exact Ht|].
    split; [now apply allowed_not_slash|]. now split.
  - set (t := safe_name (str_or (strip name) (lit "bundle"))
              ++ lit ".pmtiles").
    assert (Ht : forallb allowed t = true).
    { unfold t. rewrite forallb_app.
      pose proof (safe_name_matches (str_or (strip name) (lit "bundle")))
        as Hm.
      apply matches_token_spec in Hm. destruct Hm as [-> _]. reflexivity. }
    exists (lit "pmtiles/"), t, c. split; [reflexivity|].
    split; [now right|]. split; [exact Ht|].
    split; [now apply allowed_not_slash|]. now split.
Qed.

(** X16. For a [.pmtiles] upload [create_bundle] starts no process at
    all, and the file it stores as the archive is the very file it stored
    as the raw upload. *)
Theorem X16_pmtiles_upload_stored_twice (cfg : config)
    (name description : pystr) (file : upload) (w : World) :
  let upload_path :=
    WORKDIR cfg // fst (uuid4 w) //
    safe_name (str_or (match filename file with Some f => f | None => [] end)
                 (lit "upload")) in
  let o := create_bundle cfg name description file w in
  lower (suffix upload_path) = lit ".pmtiles" ->
  existsb is_spawn (events o) = false
  /\ forall p k ct r, In (ES3Put p k ct r) (events o) -> p = upload_path.
Proof.
  intros upload_path o Hext. split.
  - destruct (existsb is_spawn (events o)) eqn:Hs; [|reflexivity].
    apply existsb_exists in Hs. destruct Hs as ([c rr| | | | |] & Hin & Hx);
      try discriminate.
    pose proof (spawn_in_run cfg name description file w c rr) as S.
    cbv zeta in S. destruct (S Hin) as (_ & _ & _ & Hoe).
    fold upload_path in Hoe.
    rewrite (@ensure_pmtiles_passthrough _ upload_path _ _ _ Hext) in Hoe.
    contradiction.
  - intros p k ct r Hin.
    destruct (records_in_run cfg name description file w) as [H _].
    destruct (H p k ct r Hin) as (_ & [[-> _]|(_ & _ & Hp)]);
      [reflexivity|now apply Hp].
Qed.

End MoreProperties.

(** ** Reading the catalogue *)

Section CatalogProperties.

Context {E : Env} {C : Catalog E}.

Lemma read_bounds_readable (r : stored_row) :
  bounds_readable r = true <-> exists b, read_bounds r = Return b.
Proof.
  unfold bounds_readable, read_bounds.
  destruct (sr_bounds r) as [[|c t]|].
  - split; [intros _; now exists None|reflexivity].
  - destruct (json_loads (c :: t)) as [j|].
    + split; [intros _; now exists (Some j)|reflexivity].
    + split; [discriminate|now intros [b Hb]].
  - split; [intros _; now exists None|reflexivity].
Qed.

Lemma list_bundles_loop_step (cfg : config) (r : stored_row)
    (rows : list stored_row) (items : list item) :
  list_bundles_loop cfg (r :: rows) items =
  match read_bounds r with
  | Raise e => Raise e
  | Return b => list_bundles_loop cfg rows (items ++ [item_of cfg r b])
  end.
Proof. reflexivity. Qed.

(** The loop adds one item per row, in order, until a row cannot be
    read. *)
Lemma list_bundles_loop_spec (cfg : config) (rows : list stored_row) :
  forall items,
    match list_bundles_loop cfg rows items with
    | Return all =>
        exists bs,
          Forall2 (fun r b => read_bounds r = Return b) rows bs
          /\ all = items ++ map (fun rb => item_of cfg (fst rb) (snd rb))
                              (combine rows bs)
    | Raise e =>
        e = JSONDecodeError /\ forallb bounds_readable rows = false
    end.
Proof.
  induction rows as [|r rows IH]; intros items.
  - simpl. exists []. split; [constructor|now rewrite app_nil_r].
  - rewrite list_bundles_loop_step.
    destruct (read_bounds r) as [b|e] eqn:Hr.
    + specialize (IH (items ++ [item_of cfg r b])).
      destruct (list_bundles_loop cfg rows (items ++ [item_of cfg r b]))
        as [all|e].
      * destruct IH as (bs & Hbs & ->). exists (b :: bs).
        split; [now constructor|]. simpl. now rewrite <- app_assoc.
      * destruct IH as [-> Hf]. split; [reflexivity|].
        simpl. rewrite Hf. apply andb_false_r.
    + assert (Hnr : bounds_readable r = false).
      { destruct (bounds_readable r) eqn:Hb; [|reflexivity].
        apply read_bounds_readable in Hb. destruct Hb as [b Hb]. congruence. }
      split.
      * unfold read_bounds in Hr.
        destruct (sr_bounds r) as [[|c t]|]; try discriminate.
        destruct (json_loads (c :: t)); [discriminate|]. congruence.
      * simpl. now rewrite Hnr.
Qed.

Lemma list_bundles_res (cfg : config) (w : World) :
  res (list_bundles cfg w) =
  match select_all w with
  | inr m => Raise (DatabaseError m)
  | inl rows => list_bundles_loop cfg rows []
  end.
Proof.
  unfold list_bundles. rewrite bind_res. cbn [query res world_after].
  destruct (select_all w) as [rows|m]; [|reflexivity].
  now destruct (list_bundles_loop cfg rows []).
Qed.

Lemma get_bundle_res (cfg : config) (bundle_id : pystr) (w : World) :
  res (get_bundle cfg bundle_id w) =
  match select_by_id bundle_id w with
  | inr m => Raise (DatabaseError m)
  | inl None => Raise (HTTPException 404 (Text (lit "Not found")))
  | inl (Some r) =>
      match read_bounds r with
      | Return b => Return (item_of cfg r b)
      | Raise e => Raise e
      end
  end.
Proof.
  unfold get_bundle. rewrite bind_res. cbn [query res world_after].
  destruct (select_by_id bundle_id w) as [[r|]|m]; try reflexivity.
  rewrite bind_res. fold (read_bounds r).
  now destruct (read_bounds r).
Qed.

(** X14. [list_bundles] shows one item per row of the query, in the order
    of the query, each with the id and keys of its row and the URL
    [PUBLIC_TILES_BASE/<archive key>]; but it is all or nothing: one row
    whose [bounds] text is not valid JSON makes the whole listing raise
    [JSONDecodeError]. *)
Theorem X14_list_bundles_all_or_nothing (cfg : config) (w : World)
    (rows : list stored_row) :
  select_all w = inl rows ->
  (forallb bounds_readable rows = true ->
   exists items,
     res (list_bundles cfg w) = Return items
     /\ map item_id items = map sr_id rows
     /\ map item_source_key items = map sr_source_key rows
     /\ map item_pmtiles_key items = map sr_pmtiles_key rows
     /\ map item_pmtiles_url items =
        map (fun r => PUBLIC_TILES_BASE cfg ++ lit "/" ++ sr_pmtiles_key r) rows)
  /\ (forallb bounds_readable rows = false ->
      res (list_bundles cfg w) = Raise JSONDecodeError).
Proof.
  intros Hsel. rewrite list_bundles_res, Hsel.
  pose proof (list_bundles_loop_spec cfg rows []) as H.
  destruct (list_bundles_loop cfg rows []) as [all|e].
  - destruct H as (bs & Hbs & ->). split.
    + intros _. eexists. split; [reflexivity|]. simpl.
      clear Hsel. induction Hbs as [|r b rows bs _ _ IH]; simpl.
      * now repeat split.
      * destruct IH as (H1 & H2 & H3 & H4). now rewrite H1, H2, H3, H4.
    + intros Hf. exfalso. clear Hsel.
      induction Hbs as [|r b rows bs Hr _ IH]; simpl in Hf; [discriminate|].
      assert (Hb : bounds_readable r = true)
        by (apply read_bounds_readable; eauto).
      rewrite Hb in Hf. now apply IH.
  - destruct H as [-> Hf]. split; [congruence|reflexivity].
Qed.

(** X15. [get_bundle] answers 404 "Not found" exactly when the query finds
    no row; it raises [JSONDecodeError] for a row whose [bounds] text is
    not valid JSON; and otherwise what it returns for a row is the very
    item [list_bundles] shows for that row. *)
Theorem X15_get_bundle_agrees_with_listing (cfg : config)
    (bundle_id : pystr) (w : World) :
  match select_by_id bundle_id w with
  | inr m => res (get_bundle cfg bundle_id w) = Raise (DatabaseError m)
  | inl None =>
      res (get_bundle cfg bundle_id w)
      = Raise (HTTPException 404 (Text (lit "Not found")))
  | inl (Some r) =>
      (bounds_readable r = false ->
       res (get_bundle cfg bundle_id w) = Raise JSONDecodeError)
      /\ (res (get_bundle cfg bundle_id w)
          <> Raise (HTTPException 404 (Text (lit "Not found"))))
      /\ (forall rows items,
            select_all w = inl rows -> In r rows ->
            res (list_bundles cfg w) = Return items ->
            exists it, res (get_bundle cfg bundle_id w) = Return it
                       /\ In it items /\ item_id it = sr_id r)
  end.
Proof.
  rewrite get_bundle_res.
  destruct (select_by_id bundle_id w) as [[r|]|m]; try reflexivity.
  split; [|split].
  - intros Hnr. unfold bounds_readable in Hnr. unfold read_bounds.
    destruct (sr_bounds r) as [[|c t]|]; try discriminate.
    now destruct (json_loads (c :: t)).
  - unfold read_bounds. destruct (sr_bounds r) as [[|c t]|]; try discriminate.
    destruct (json_loads (c :: t)); discriminate.
  - intros rows items Hsel Hin Hlist.
    rewrite list_bundles_res, Hsel in Hlist.
    pose proof (list_bundles_loop_spec cfg rows []) as H.
    rewrite Hlist in H. destruct H as (bs & Hbs & ->). simpl.
    clear Hlist Hsel.
    induction Hbs as [|r' b rows bs Hr' _ IH]; [contradiction|].
    destruct Hin as [->|Hin].
    + rewrite Hr'. exists (item_of cfg r b). split; [reflexivity|].
      split; [now left|reflexivity].
    + destruct (IH Hin) as (it & Hit & Hin' & Hid).
      exists it. split; [exact Hit|]. split; [now right|exact Hid].
Qed.

End CatalogProperties.

(** * Further concrete runs *)

Lemma X2_safe_name_ignores_padding_witness :
  safe_name (lit "  " ++ lit "My Parks" ++ [9; 160; 10]%N) = lit "My-Parks".
Proof.
  rewrite (X2_safe_name_ignores_padding (lit "  ") (lit "My Parks")
             [9; 160; 10]%N eq_refl eq_refl).
  reflexivity.
Defined.

Lemma X4_safe_name_hyphenates_witness :
  safe_name (lit "My" ++ [32; 9; 8195]%N ++ lit "Parks") = lit "My-Parks".
Proof.
  rewrite (X4_safe_name_hyphenates (lit "My") [32; 9; 8195]%N (lit "Parks")
             eq_refl ltac:(discriminate) eq_refl ltac:(discriminate)
             eq_refl ltac:(discriminate)).
  reflexivity.
Defined.

Lemma X6_zip_unpack_outcomes_witness :
  res (@ensure_pmtiles (scripted unzip_fails) (demo_work // lit "data.zip")
         (lit "My Parks") demo_work tt)
  = Raise (RuntimeError
             (CommandFailed
                (unzip_cmd (demo_work // lit "data.zip")
                   (demo_work // lit "unzipped")) [] []))
  /\ spawned (events (@ensure_pmtiles (scripted unzip_fails)
                        (demo_work // lit "data.zip") (lit "My Parks")
                        demo_work tt))
     = [unzip_cmd (demo_work // lit "data.zip") (demo_work // lit "unzipped")].
Proof.
  pose proof (@X6_zip_unpack_outcomes (scripted unzip_fails)
                (demo_work // lit "data.zip") (lit "My Parks") demo_work tt
                eq_refl) as H.
  vm_compute in H. destruct H as (Hres & Hev & _).
  split; [exact Hres|exact (f_equal spawned Hev)].
Defined.

Lemma X7_bad_request_sources_witness :
  res (@create_bundle
         (scripted (too_deep (chain 992 (demo_work // lit "unzipped")) []
                    Removed))
         demo_cfg (lit "Deep") (lit "") (demo_upload "deep.zip") tt)
  = Raise (HTTPException 400 (Text recursion_text)).
Proof.
  assert (H : res (@create_bundle
                     (scripted (too_deep
                                  (chain 992 (demo_work // lit "unzipped"))
                                  [] Removed))
                     demo_cfg (lit "Deep") (lit "") (demo_upload "deep.zip") tt)
              = Raise (HTTPException 400 (Text recursion_text))).
  { vm_compute. reflexivity. }
  destruct (@X7_bad_request_sources
              (scripted (too_deep (chain 992 (demo_work // lit "unzipped")) []
                    Removed))
              demo_cfg (lit "Deep") (lit "") (demo_upload "deep.zip") tt _ _ H)
    as [_ _].
  exact H.
Defined.

Lemma X10_created_bundle_recorded_witness :
  s3_keys (events (@create_bundle (scripted (quiet [])) demo_cfg
                     (lit " My Parks ") (lit "city parks")
                     (demo_upload "parks.geojson") tt))
  = [lit "sources/6f1c/parks.geojson"; lit "pmtiles/6f1c/My-Parks.pmtiles"]
  /\ inserted (events (@create_bundle (scripted (quiet [])) demo_cfg
                         (lit " My Parks ") (lit "city parks")
                         (demo_upload "parks.geojson") tt))
     = [demo_inserted].
Proof.
  destruct (@X10_created_bundle_recorded (scripted (quiet [])) demo_cfg
              (lit " My Parks ") (lit "city parks")
              (demo_upload "parks.geojson") tt _ eq_refl)
    as (_ & _ & _ & _ & _ & _ & Hk & Hi).
  split; [exact Hk|exact Hi].
Defined.

Lemma X11_row_only_after_both_objects_witness :
  s3_keys (events (@create_bundle (scripted (quiet [])) demo_cfg
                     (lit " My Parks ") (lit "city parks")
                     (demo_upload "parks.geojson") tt))
  = [lit "sources/6f1c/parks.geojson"; lit "pmtiles/6f1c/My-Parks.pmtiles"].
Proof.
  assert (Hin : In (EDbInsert demo_inserted None)
                  (events (@create_bundle (scripted (quiet [])) demo_cfg
                             (lit " My Parks ") (lit "city parks")
                             (demo_upload "parks.geojson") tt))).
  { vm_compute. do 7 right. left. reflexivity. }
  destruct (@X11_row_only_after_both_objects (scripted (quiet [])) demo_cfg
              (lit " My Parks ") (lit "city parks")
              (demo_upload "parks.geojson") tt _ _ Hin) as (Hk & _).
  exact Hk.
Defined.

Lemma X12_failed_command_ends_request_witness :
  res (@create_bundle (scripted unzip_fails) demo_cfg (lit "City")
         (lit "") (demo_upload "city.shp.zip") tt)
  = Raise (HTTPException 400
             (CommandFailed
                (unzip_cmd (demo_work // lit "city.shp.zip")
                   (demo_work // lit "unzipped")) [] [])).
Proof.
  assert (Hin : In (ESpawn
                      (unzip_cmd (demo_work // lit "city.shp.zip")
                         (demo_work // lit "unzipped"))
                      (inl (Exited 9 [] [])))
                  (events (@create_bundle (scripted unzip_fails) demo_cfg
                             (lit "City") (lit "")
                             (demo_upload "city.shp.zip") tt))).
  { vm_compute. do 4 right. left. reflexivity. }
  destruct (@X12_failed_command_ends_request (scripted unzip_fails) demo_cfg
              (lit "City") (lit "") (demo_upload "city.shp.zip") tt _ _
              Hin eq_refl eq_refl) as [Hres _].
  apply Hres. reflexivity.
Defined.

Lemma X18_answer_needs_finite_bounds_witness :
  res (@create_bundle (scripted (reports unbounded_report)) demo_cfg
         (lit " My Parks ") (lit "city parks") (demo_upload "parks.geojson")
         tt)
  = Raise ValueError.
Proof.
  assert (Hin : In (EDbInsert
                      {| row_id := lit "6f1c"; row_name := lit "My Parks";
                         row_description := lit "city parks";
                         row_bounds :=
                           Some [0%float; 0%float; infinity; 1%float];
                         row_source_key := lit "sources/6f1c/parks.geojson";
                         row_pmtiles_key :=
                           lit "pmtiles/6f1c/My-Parks.pmtiles" |} None)
                  (events (@create_bundle (scripted (reports unbounded_report))
                             demo_cfg (lit " My Parks ") (lit "city parks")
                             (demo_upload "parks.geojson") tt))).
  { vm_compute. do 7 right. left. reflexivity. }
  destruct (@X18_answer_needs_finite_bounds
              (scripted (reports unbounded_report)) demo_cfg
              (lit " My Parks ") (lit "city parks")
              (demo_upload "parks.geojson") tt _ Hin eq_refl) as [_ H].
  exact H.
Defined.

Lemma X13_keys_are_safe_witness :
  exists prefix t c,
    lit "sources/6f1c/a..b.c.geojson" = prefix ++ lit "6f1c" ++ lit "/" ++ t
    /\ (prefix = lit "sources/" \/ prefix = lit "pmtiles/")
    /\ forallb allowed t = true
    /\ ~ In slash t
    /\ Some (lit "application/octet-stream") = Some c /\ c <> [].
Proof.
  assert (Hin : In (ES3Put (demo_work // lit "a..b.c.geojson")
                      (lit "sources/6f1c/a..b.c.geojson")
                      (Some (lit "application/octet-stream")) None)
                  (events (@create_bundle (scripted (quiet [])) demo_cfg
                             (lit "x") (lit "")
                             (demo_upload "a/../b.c.geojson") tt))).
  { vm_compute. do 2 right. left. reflexivity. }
  exact (@X13_keys_are_safe (scripted (quiet [])) demo_cfg (lit "x") (lit "")
           (demo_upload "a/../b.c.geojson") tt _ _ _ _ Hin).
Defined.

Lemma X14_list_bundles_all_or_nothing_witness :
  exists items,
    res (@list_bundles (scripted (reports (JList [JInt 1; JInt 2; JInt 3; JInt 4])))
           (scripted_catalog _ demo_rows) demo_cfg tt) = Return items
    /\ map item_id items = [lit "b2"; lit "a1"].
Proof.
  destruct (@X14_list_bundles_all_or_nothing
              (scripted (reports (JList [JInt 1; JInt 2; JInt 3; JInt 4])))
              (scripted_catalog _ demo_rows) demo_cfg tt demo_rows eq_refl)
    as [H _].
  destruct (H eq_refl) as (items & Hr & Hid & _).
  exists items. split; [exact Hr|exact Hid].
Defined.

Lemma X16_pmtiles_upload_stored_twice_witness :
  existsb is_spawn
    (events (@create_bundle (scripted (quiet [])) demo_cfg (lit "Tiles")
               (lit "") (demo_upload "Town.PMTiles") tt))
  = false.
Proof.
  destruct (@X16_pmtiles_upload_stored_twice (scripted (quiet [])) demo_cfg
              (lit "Tiles") (lit "") (demo_upload "Town.PMTiles") tt eq_refl)
    as [H _].
  exact H.
Defined.

(** A listing is lost as a whole to one unreadable row. *)
Example list_bundles_unreadable_row :
  res (@list_bundles (scripted (quiet []))
         (scripted_catalog _ demo_rows) demo_cfg tt)
  = Raise JSONDecodeError.
Proof. reflexivity. Qed.

Example select_member_shapefile :
  select_member shapefile_tree
  = Some (demo_work // lit "unzipped" // lit "city.shp").
Proof. reflexivity. Qed.
